(** * garm-provider-docker: a shallow embedding and its verified properties

    The development follows the layout of the repository:

    - [GoStrings]  : the functions of Go's [strings] package the code calls;
    - [GoError]    : Go [error] values, [fmt.Errorf] wrapping and
                     [client.IsErrNotFound];
    - [Params]     : the orchestrator's data model;
    - [Config]     : [pkg/config/config.go];
    - [Spec]       : [internal/spec/spec.go];
    - [Docker]     : the engine API types, the [DockerClient] interface and
                     traces of engine calls;
    - [Provider]   : [internal/provider/provider.go] (the revision with
                     always-pull, bind mounts and registry credentials);
    - [SimEngine]  : an in-memory engine to run the provider against;
    - [Lifecycle]  : the properties of the lifecycle operations;
    - [SpecFacts], [ConfigFacts], [ProviderFacts] : further properties of
                     the scope extractor and builders, of the configuration
                     and of the provider;
    - [Legacy]     : [CreateInstance] of the earlier revision, and how the
                     later one extends it.

    Code outside the repository (the Docker engine behind [DockerClient],
    [net/url], [encoding/json], [encoding/base64], [os], [koanf]) is never
    given a fixed meaning: it is a parameter of the embedding, and every
    theorem holds for all its behaviours.  Small concrete instances run the
    code on examples. *)

From Stdlib Require Import Ascii.
From stdpp Require Import base option list strings gmap fin_maps.

(* ===================================================================== *)
(** ** Go's [strings] package *)
(* ===================================================================== *)

Module GoStrings.

(** Every call site in the repository passes a one-byte separator or cut
    set (["/"], ["."], [":"]), so separators are bytes here. *)

(** [strings.Contains(s, sep)] *)
Fixpoint Contains (s : string) (sep : ascii) : bool :=
  match s with
  | EmptyString => false
  | String c s' => if decide (c = sep) then true else Contains s' sep
  end.

(** [strings.Cut(s, sep)]: the text before the first separator, and the text
    after it when there is one. *)
Fixpoint Cut (s : string) (sep : ascii) : string * option string :=
  match s with
  | EmptyString => (EmptyString, None)
  | String c s' =>
      if decide (c = sep) then (EmptyString, Some s')
      else let '(before, after) := Cut s' sep in (String c before, after)
  end.

(** [strings.SplitN(s, sep, 2)]: at most two parts, split at the first
    separator. *)
Definition SplitN2 (s : string) (sep : ascii) : list string :=
  match Cut s sep with
  | (before, Some after) => [before; after]
  | (before, None) => [before]
  end.

(** [strings.Split(s, sep)]: all the parts between separators.  The result
    is never empty: [Split "" sep] is the one-element list [[""]]. *)
Fixpoint Split (s : string) (sep : ascii) : list string :=
  match s with
  | EmptyString => [EmptyString]
  | String c s' =>
      if decide (c = sep) then EmptyString :: Split s' sep
      else match Split s' sep with
           | part :: parts => String c part :: parts
           | [] => [String c EmptyString]
           end
  end.

(** [strings.TrimLeft(s, cutset)] and [strings.TrimRight(s, cutset)] for a
    one-byte cut set, and [strings.Trim], which applies both. *)
Fixpoint TrimLeft (s : string) (cut : ascii) : string :=
  match s with
  | EmptyString => EmptyString
  | String c s' => if decide (c = cut) then TrimLeft s' cut else s
  end.

Fixpoint TrimRight (s : string) (cut : ascii) : string :=
  match s with
  | EmptyString => EmptyString
  | String c s' =>
      match TrimRight s' cut with
      | EmptyString => if decide (c = cut) then EmptyString else String c EmptyString
      | r => String c r
      end
  end.

Definition Trim (s : string) (cut : ascii) : string :=
  TrimRight (TrimLeft s cut) cut.

(** [strings.Join(elems, sep)] *)
Fixpoint Join (elems : list string) (sep : string) : string :=
  match elems with
  | [] => ""
  | [e] => e
  | e :: rest => e +:+ sep +:+ Join rest sep
  end.

(** [strings.ToLower] on ASCII letters. *)
Definition lower_byte (c : ascii) : ascii :=
  let n := nat_of_ascii c in
  if bool_decide (65 ≤ n ≤ 90)%nat then ascii_of_nat (n + 32) else c.

Fixpoint ToLower (s : string) : string :=
  match s with
  | EmptyString => EmptyString
  | String c s' => String (lower_byte c) (ToLower s')
  end.

(** [strings.HasPrefix] *)
Definition HasPrefix (s p : string) : bool := String.prefix p s.

Example Split_empty : Split "" "/" = [""].
Proof. reflexivity. Qed.

Example Split_two : Split "org/repo" "/" = ["org"; "repo"].
Proof. reflexivity. Qed.

Example Trim_slashes : Trim "//org/repo/" "/" = "org/repo".
Proof. reflexivity. Qed.

Example SplitN2_image : SplitN2 "ghcr.io/user/image:tag" "/" = ["ghcr.io"; "user/image:tag"].
Proof. reflexivity. Qed.

Lemma Split_nonempty s sep : Split s sep ≠ [].
Proof.
  destruct s as [|c s]; simpl; [done|].
  case_decide; [done|]. by destruct (Split s sep).
Qed.

Lemma Split_length_pos s sep : 1 ≤ length (Split s sep).
Proof.
  pose proof (Split_nonempty s sep) as H.
  destruct (Split s sep); [done | simpl; lia].
Qed.

(** Without a separator in it, a string is its own single part. *)
Lemma Split_no_sep s sep : Contains s sep = false → Split s sep = [s].
Proof.
  induction s as [|c s IH]; simpl; [done|].
  case_decide; [done|]. intros Hs. by rewrite (IH Hs).
Qed.

Lemma Split_cons_sep s t sep :
  Contains s sep = false →
  Split (s +:+ String sep t) sep = s :: Split t sep.
Proof.
  induction s as [|c s IH]; simpl.
  - intros _. by rewrite decide_True.
  - case_decide; [done|]. intros Hs. by rewrite (IH Hs).
Qed.

Lemma Cut_no_sep s sep : Contains s sep = false → Cut s sep = (s, None).
Proof.
  induction s as [|c s IH]; simpl; [done|].
  case_decide; [done|]. intros Hs. by rewrite (IH Hs).
Qed.

Lemma Cut_first_sep s t sep :
  Contains s sep = false → Cut (s +:+ String sep t) sep = (s, Some t).
Proof.
  induction s as [|c s IH]; simpl.
  - intros _. by rewrite decide_True.
  - case_decide; [done|]. intros Hs. by rewrite (IH Hs).
Qed.

(** A string with a separator decomposes at its first one. *)
Lemma Contains_decompose s sep :
  Contains s sep = true →
  ∃ before after, s = before +:+ String sep after ∧ Contains before sep = false.
Proof.
  induction s as [|c s IH]; simpl; [done|].
  case_decide as Hc.
  - intros _. exists "", s. by subst.
  - intros H. destruct (IH H) as (b & a & -> & Hb).
    exists (String c b), a. simpl. by rewrite decide_False.
Qed.

Lemma Contains_app_sep s t sep : Contains (s +:+ String sep t) sep = true.
Proof.
  induction s as [|c s IH]; simpl.
  - by rewrite decide_True.
  - by case_decide.
Qed.

End GoStrings.

(* ===================================================================== *)
(** ** Go errors *)
(* ===================================================================== *)

Module GoError.

(** An [error] is either a value made outside the repository (by the engine
    client, the operating system, a decoder), of which the code only ever
    asks whether it is a "not found" error, or a value built by
    [fmt.Errorf]: a message alone, or a message and the cause wrapped by the
    [%w] verb. *)
Inductive error : Type :=
  | External (notFound : bool) (msg : string)
  | Errorf (msg : string)
  | Wrapf (msg : string) (cause : error).

(** [client.IsErrNotFound(err)] looks through the chain of causes. *)
Fixpoint IsErrNotFound (e : error) : bool :=
  match e with
  | External nf _ => nf
  | Errorf _ => false
  | Wrapf _ c => IsErrNotFound c
  end.

(** [errors.Unwrap] *)
Definition Unwrap (e : error) : option error :=
  match e with
  | Wrapf _ c => Some c
  | _ => None
  end.

(** A call that can fail returns the error or the value. *)
Definition result (A : Type) : Type := error + A.

End GoError.
Export GoError.

(* ===================================================================== *)
(** ** The orchestrator's data model ([garm-provider-common/params]) *)
(* ===================================================================== *)

Module Params.

(** A Go slice is [nil] or a (possibly empty) sequence; [append] to either
    gives a sequence. *)
Inductive slice (A : Type) : Type :=
  | SliceNil
  | SliceOf (elems : list A).
Arguments SliceNil {A}.
Arguments SliceOf {A} elems.

Definition slice_elems {A} (s : slice A) : list A :=
  match s with SliceNil => [] | SliceOf l => l end.

Definition slice_append {A} (s : slice A) (x : A) : slice A :=
  SliceOf (slice_elems s ++ [x]).

Definition slice_is_nil {A} (s : slice A) : bool :=
  match s with SliceNil => true | SliceOf _ => false end.

Inductive InstanceStatus : Type :=
  | InstanceRunning
  | InstanceStopped
  | InstanceError
  | InstanceStatusUnknown.

Inductive AddressType : Type :=
  | PublicAddress
  | PrivateAddress.

Record Address : Type := {
  addr_Address : string;
  addr_Type : AddressType;
}.

Record BootstrapInstance : Type := {
  bi_Name : string;
  bi_Image : string;
  bi_RepoURL : string;
  bi_PoolID : string;
  bi_Flavor : string;
  bi_OSType : string;
  bi_OSArch : string;
  bi_Labels : list string;
  bi_GitHubRunnerGroup : string;
  bi_MetadataURL : string;
  bi_InstanceToken : string;
  bi_CallbackURL : string;
}.

Record ProviderInstance : Type := {
  ProviderID : string;
  Name : string;
  Status : InstanceStatus;
  OSType : string;
  OSArch : string;
  OSName : string;
  OSVersion : string;
  Addresses : slice Address;
}.

End Params.
Export Params.

(* ===================================================================== *)
(** ** pkg/config/config.go *)
(* ===================================================================== *)

Module Config.

(** [ProviderConfig].  [DockerConfigPath] is the field the provider reads
    in [getRegistryAuth]. *)
Record ProviderConfig : Type := {
  DockerHost : string;
  Runtime : string;
  Network : string;
  RemoveVolumes : bool;
  Privileged : bool;
  Binds : list string;
  AlwaysPull : bool;
  DockerConfigPath : string;
}.

(** The zero value of the package variable [Config]. *)
Definition zero : ProviderConfig :=
  {| DockerHost := ""; Runtime := ""; Network := ""; RemoveVolumes := false;
     Privileged := false; Binds := []; AlwaysPull := false;
     DockerConfigPath := "" |}.

(** [setDefaults] updates the package variable [Config]; the variable is
    passed in and returned. *)
Definition setDefaults (Config : ProviderConfig) : ProviderConfig :=
  let Config :=
    if decide (DockerHost Config = "")
    then {| DockerHost := "unix:///var/run/docker.sock"; Runtime := Runtime Config;
            Network := Network Config; RemoveVolumes := RemoveVolumes Config;
            Privileged := Privileged Config; Binds := Binds Config;
            AlwaysPull := AlwaysPull Config;
            DockerConfigPath := DockerConfigPath Config |}
    else Config in
  let Config :=
    if decide (Runtime Config = "")
    then {| DockerHost := DockerHost Config; Runtime := "sysbox-runc";
            Network := Network Config; RemoveVolumes := RemoveVolumes Config;
            Privileged := Privileged Config; Binds := Binds Config;
            AlwaysPull := AlwaysPull Config;
            DockerConfigPath := DockerConfigPath Config |}
    else Config in
  let Config :=
    if decide (Network Config = "")
    then {| DockerHost := DockerHost Config; Runtime := Runtime Config;
            Network := "bridge"; RemoveVolumes := RemoveVolumes Config;
            Privileged := Privileged Config; Binds := Binds Config;
            AlwaysPull := AlwaysPull Config;
            DockerConfigPath := DockerConfigPath Config |}
    else Config in
  if negb (RemoveVolumes Config)
  then {| DockerHost := DockerHost Config; Runtime := Runtime Config;
          Network := Network Config; RemoveVolumes := true;
          Privileged := Privileged Config; Binds := Binds Config;
          AlwaysPull := AlwaysPull Config;
          DockerConfigPath := DockerConfigPath Config |}
  else Config.

(** The koanf library: an instance [k], loading a YAML file into it and
    unmarshalling it into the package variable.  [Unmarshal] writes through
    the pointer [&Config], so it returns the variable's new content next to
    its error. *)
Section NewConfig.
Context {Koanf : Type}.
Variable koanf_New : Koanf.
Variable koanf_Load : Koanf → string → result Koanf.
Variable koanf_Unmarshal : Koanf → ProviderConfig → option error * ProviderConfig.

(** [NewConfig(path)]: the error it returns and the package variable
    afterwards. *)
Definition NewConfig (path : string) (Config : ProviderConfig)
  : option error * ProviderConfig :=
  let k := koanf_New in
  let loaded :=
    if decide (path ≠ "") then koanf_Load k path else inr k in
  match loaded with
  | inl err => (Some (Wrapf "failed to load config" err), Config)
  | inr k =>
      match koanf_Unmarshal k Config with
      | (Some err, Config) => (Some (Wrapf "failed to unmarshal config" err), Config)
      | (None, Config) => (None, setDefaults Config)
      end
  end.
End NewConfig.

(** *** A concrete koanf: files hold key/value pairs *)

(** A parsed YAML document with the scalar keys of the configuration. *)
Definition Document : Type := gmap string string.

Definition set_string (d : Document) (key : string) (old : string) : string :=
  default old (d !! key).

Definition set_bool (d : Document) (key : string) (old : bool) : option bool :=
  match d !! key with
  | None => Some old
  | Some "true" => Some true
  | Some "false" => Some false
  | Some _ => None
  end.

(** Decoding a document into the configuration: keys that are present
    overwrite the fields, a boolean that is neither [true] nor [false] is a
    decoding error. *)
Definition decode (d : Document) (c : ProviderConfig) : option error * ProviderConfig :=
  match set_bool d "remove_volumes" (RemoveVolumes c),
        set_bool d "privileged" (Privileged c),
        set_bool d "always_pull" (AlwaysPull c) with
  | Some rv, Some pr, Some ap =>
      (None,
       {| DockerHost := set_string d "docker_host" (DockerHost c);
          Runtime := set_string d "runtime" (Runtime c);
          Network := set_string d "network" (Network c);
          RemoveVolumes := rv; Privileged := pr; Binds := Binds c;
          AlwaysPull := ap;
          DockerConfigPath := set_string d "docker_config_path" (DockerConfigPath c) |})
  | _, _, _ => (Some (External false "cannot decode bool"), c)
  end.

(** Loading from a file system that maps paths to documents. *)
Definition load_from (fs : gmap string Document) (k : Document) (path : string)
  : result Document :=
  match fs !! path with
  | Some d => inr (d ∪ k)
  | None => inl (External true "no such file")
  end.

Definition NewConfig_on (fs : gmap string Document) :=
  NewConfig (∅ : Document) (load_from fs) decode.

(** A configuration file that asks for volumes to be kept. *)
Definition keep_volumes_fs : gmap string Document :=
  {[ "/etc/garm/docker.yaml" :=
       {[ "docker_host" := "unix:///run/docker.sock"; "remove_volumes" := "false" ]} ]}.

Example decode_keeps_false :
  RemoveVolumes (snd (decode {[ "remove_volumes" := "false" ]} zero)) = false.
Proof. reflexivity. Qed.

Lemma setDefaults_RemoveVolumes c : RemoveVolumes (setDefaults c) = true.
Proof.
  unfold setDefaults. destruct c as [dh rt nw [] pv bs ap dc]; simpl;
    repeat (case_decide; simpl); done.
Qed.

Lemma setDefaults_other_fields c :
  Privileged (setDefaults c) = Privileged c ∧
  Binds (setDefaults c) = Binds c ∧
  AlwaysPull (setDefaults c) = AlwaysPull c ∧
  DockerConfigPath (setDefaults c) = DockerConfigPath c.
Proof.
  unfold setDefaults. destruct c as [dh rt nw [] pv bs ap dc]; simpl;
    repeat (case_decide; simpl); done.
Qed.

(** C9.  After every successful configuration load the [RemoveVolumes]
    field is true, whatever the loaded file said: for every koanf behaviour,
    every path and every prior content of the package variable, also when
    the unmarshalled value of the field is [false]. *)
Theorem NewConfig_RemoveVolumes_true
    {Koanf : Type} (koanf_New : Koanf)
    (koanf_Load : Koanf → string → result Koanf)
    (koanf_Unmarshal : Koanf → ProviderConfig → option error * ProviderConfig)
    (path : string) (Config Config' : ProviderConfig) :
  NewConfig koanf_New koanf_Load koanf_Unmarshal path Config = (None, Config') →
  RemoveVolumes Config' = true.
Proof.
  unfold NewConfig. intros Hload.
  destruct (if decide (path ≠ "") then koanf_Load koanf_New path else inr koanf_New)
    as [err|k]; [done|].
  destruct (koanf_Unmarshal k Config) as [[err|] c]; [done|].
  inversion Hload; subst. apply setDefaults_RemoveVolumes.
Qed.

(** The load of a file with [remove_volumes: false] succeeds, the decoder
    does deliver [false], and the loaded configuration has [true]. *)
Lemma NewConfig_RemoveVolumes_true_witness :
  NewConfig_on keep_volumes_fs "/etc/garm/docker.yaml" zero
    = (None, snd (NewConfig_on keep_volumes_fs "/etc/garm/docker.yaml" zero)) ∧
  RemoveVolumes (snd (decode (keep_volumes_fs !!! "/etc/garm/docker.yaml") zero)) = false ∧
  RemoveVolumes (snd (NewConfig_on keep_volumes_fs "/etc/garm/docker.yaml" zero)) = true.
Proof.
  assert (Hrun : NewConfig_on keep_volumes_fs "/etc/garm/docker.yaml" zero
    = (None, snd (NewConfig_on keep_volumes_fs "/etc/garm/docker.yaml" zero)))
    by (vm_compute; reflexivity).
  split; [exact Hrun|]. split; [vm_compute; reflexivity|].
  exact (NewConfig_RemoveVolumes_true _ _ _ _ _ _ Hrun).
Defined.

End Config.

(* ===================================================================== *)
(** ** internal/spec/spec.go *)
(* ===================================================================== *)

Module Spec.
Import GoStrings.

Definition GarmInstanceNameLabel : string := "garm.runner/instance-name".
Definition GarmControllerIDLabel : string := "garm.runner/controller-id".
Definition GarmPoolIDLabel : string := "garm.runner/pool-id".
Definition GarmFlavorLabel : string := "garm.runner/flavor".
Definition GarmOSTypeLabel : string := "garm.runner/os-type".
Definition GarmOSArchLabel : string := "garm.runner/os-arch".

Record GitHubScopeDetails : Type := {
  BaseURL : string;
  Repo : string;
  Org : string;
  Enterprise : string;
}.

(** The fields of [net/url.URL] the code reads. *)
Record URL : Type := {
  Scheme : string;
  Host : string;
  Path : string;
}.

Section WithURLParser.
(** [url.Parse] of the Go standard library. *)
Variable url_Parse : string → result URL.

(** [ExtractGitHubScopeDetails].  The [switch] tests the number of path
    parts; the indexing it guards is in range. *)
Definition ExtractGitHubScopeDetails (gitRepoURL : string)
  : result GitHubScopeDetails :=
  if decide (gitRepoURL = "") then inl (Errorf "no gitRepoURL supplied")
  else
    match url_Parse gitRepoURL with
    | inl err => inl (Wrapf "invalid URL" err)
    | inr u =>
        if decide (Scheme u = "" ∨ Host u = "")
        then inl (Errorf ("invalid URL: " +:+ gitRepoURL))
        else
          let pathParts := Split (Trim (Path u) "/") "/" in
          let base := Scheme u +:+ "://" +:+ Host u in
          if decide (length pathParts = 1) then
            inr {| BaseURL := base; Repo := ""; Org := pathParts !!! 0%nat;
                   Enterprise := "" |}
          else if decide (length pathParts = 2 ∧ pathParts !!! 0%nat = "enterprises") then
            inr {| BaseURL := base; Repo := ""; Org := "";
                   Enterprise := pathParts !!! 1%nat |}
          else if decide (length pathParts = 2) then
            inr {| BaseURL := base; Repo := pathParts !!! 1%nat;
                   Org := pathParts !!! 0%nat; Enterprise := "" |}
          else inl (Errorf "URL does not match the expected patterns")
    end.

(** [GetRunnerEnvs] *)
Definition GetRunnerEnvs (bootstrapParams : BootstrapInstance)
  : result (list string) :=
  match ExtractGitHubScopeDetails (bi_RepoURL bootstrapParams) with
  | inl err => inl err
  | inr gitHubScope =>
      inr [ "RUNNER_ORG=" +:+ Org gitHubScope;
            "RUNNER_REPO=" +:+ Repo gitHubScope;
            "RUNNER_ENTERPRISE=" +:+ Enterprise gitHubScope;
            "RUNNER_GROUP=" +:+ bi_GitHubRunnerGroup bootstrapParams;
            "RUNNER_NAME=" +:+ bi_Name bootstrapParams;
            "RUNNER_LABELS=" +:+ Join (bi_Labels bootstrapParams) ",";
            "RUNNER_NO_DEFAULT_LABELS=true";
            "DISABLE_RUNNER_UPDATE=true";
            "RUNNER_WORKDIR=/runner/_work/";
            "GITHUB_URL=" +:+ BaseURL gitHubScope;
            "RUNNER_EPHEMERAL=true";
            "RUNNER_TOKEN=dummy";
            "METADATA_URL=" +:+ bi_MetadataURL bootstrapParams;
            "BEARER_TOKEN=" +:+ bi_InstanceToken bootstrapParams;
            "CALLBACK_URL=" +:+ bi_CallbackURL bootstrapParams ]
  end.
End WithURLParser.

(** [GetContainerLabels] *)
Definition GetContainerLabels (controllerID : string)
    (bootstrapParams : BootstrapInstance) : gmap string string :=
  let labels : gmap string string := ∅ in
  let labels := <[GarmInstanceNameLabel := bi_Name bootstrapParams]> labels in
  let labels := <[GarmControllerIDLabel := controllerID]> labels in
  let labels := <[GarmPoolIDLabel := bi_PoolID bootstrapParams]> labels in
  let labels := <[GarmFlavorLabel := bi_Flavor bootstrapParams]> labels in
  let labels := <[GarmOSTypeLabel := bi_OSType bootstrapParams]> labels in
  let labels := <[GarmOSArchLabel := bi_OSArch bootstrapParams]> labels in
  labels.

(** [GetHostConfigRuntime] reads the package variable [config.Config]. *)
Definition GetHostConfigRuntime (Config : Config.ProviderConfig) : string :=
  Config.Runtime Config.

(** *** A URL parser for plain [scheme://host/path] addresses

    An instance of [url.Parse] to run the code on examples.  It follows
    [net/url] on addresses without user information, port checks, query,
    fragment or escapes: the scheme is the run of letters, digits, [+], [-]
    and [.] (starting with a letter) before the first [:], lower-cased; after
    [//] the host runs to the next [/]; the path is what remains.  An
    address with a scheme and no leading [/] after it is opaque (no host, no
    path); one without a scheme is a path. *)

Definition is_alpha (c : ascii) : bool :=
  let n := nat_of_ascii c in
  bool_decide (65 ≤ n ≤ 90)%nat || bool_decide (97 ≤ n ≤ 122)%nat.

Definition is_scheme_extra (c : ascii) : bool :=
  let n := nat_of_ascii c in
  bool_decide (48 ≤ n ≤ 57)%nat
  || bool_decide (c = "+"%char) || bool_decide (c = "-"%char)
  || bool_decide (c = "."%char).

(** [getScheme]: [first] tells whether the scan is at the first byte. *)
Fixpoint getScheme_from (first : bool) (s : string) : option (string * string) :=
  match s with
  | EmptyString => None
  | String c s' =>
      if is_alpha c then
        '(sch, rest) ← getScheme_from false s'; Some (String c sch, rest)
      else if is_scheme_extra c then
        if first then None
        else '(sch, rest) ← getScheme_from false s'; Some (String c sch, rest)
      else if bool_decide (c = ":"%char) then
        if first then None else Some (EmptyString, s')
      else None
  end.

Definition plain_url_Parse (rawURL : string) : result URL :=
  if HasPrefix rawURL ":" then inl (External false "missing protocol scheme")
  else
    let '(scheme, rest) :=
      match getScheme_from true rawURL with
      | Some (sch, rest) => (ToLower sch, rest)
      | None => (EmptyString, rawURL)
      end in
    if negb (HasPrefix rest "/") && negb (bool_decide (scheme = "")) then
      inr {| Scheme := scheme; Host := ""; Path := "" |}
    else if HasPrefix rest "//" then
      match Cut (String.substring 2 (String.length rest - 2) rest) "/" with
      | (authority, Some p) =>
          inr {| Scheme := scheme; Host := authority; Path := String "/" p |}
      | (authority, None) =>
          inr {| Scheme := scheme; Host := authority; Path := "" |}
      end
    else inr {| Scheme := scheme; Host := ""; Path := rest |}.

Example parse_repo :
  plain_url_Parse "https://github.com/org/repo"
  = inr {| Scheme := "https"; Host := "github.com"; Path := "/org/repo" |}.
Proof. reflexivity. Qed.

Example parse_host_only :
  plain_url_Parse "https://github.com"
  = inr {| Scheme := "https"; Host := "github.com"; Path := "" |}.
Proof. reflexivity. Qed.

Example extract_repo :
  ExtractGitHubScopeDetails plain_url_Parse "https://github.com/org/repo"
  = inr {| BaseURL := "https://github.com"; Repo := "repo"; Org := "org";
           Enterprise := "" |}.
Proof. reflexivity. Qed.

Example extract_enterprise :
  ExtractGitHubScopeDetails plain_url_Parse "https://github.com/enterprises/foo"
  = inr {| BaseURL := "https://github.com"; Repo := ""; Org := "";
           Enterprise := "foo" |}.
Proof. reflexivity. Qed.

Example extract_three_parts :
  ExtractGitHubScopeDetails plain_url_Parse "https://github.com/a/b/c"
  = inl (Errorf "URL does not match the expected patterns").
Proof. reflexivity. Qed.

Example extract_no_scheme :
  ExtractGitHubScopeDetails plain_url_Parse "github.com/org"
  = inl (Errorf "invalid URL: github.com/org").
Proof. reflexivity. Qed.

(** *** Properties of the scope extractor *)

Section ExtractProperties.
Variable url_Parse : string → result URL.

(** An empty address is refused before it is parsed. *)
Lemma Extract_empty :
  ExtractGitHubScopeDetails url_Parse "" = inl (Errorf "no gitRepoURL supplied").
Proof. reflexivity. Qed.

(** A parse error is wrapped and returned. *)
Lemma Extract_unparsable raw err :
  raw ≠ "" → url_Parse raw = inl err →
  ExtractGitHubScopeDetails url_Parse raw = inl (Wrapf "invalid URL" err).
Proof.
  intros Hraw Hp. unfold ExtractGitHubScopeDetails.
  rewrite decide_False by done. by rewrite Hp.
Qed.

(** An address without scheme or without host is refused. *)
Lemma Extract_no_scheme_or_host raw u :
  raw ≠ "" → url_Parse raw = inr u → Scheme u = "" ∨ Host u = "" →
  ExtractGitHubScopeDetails url_Parse raw = inl (Errorf ("invalid URL: " +:+ raw)).
Proof.
  intros Hraw Hp Hsh. unfold ExtractGitHubScopeDetails.
  rewrite decide_False by done. rewrite Hp. by rewrite decide_True.
Qed.

(** For a parsed address with scheme and host the outcome is decided by
    the parts of the trimmed path alone: one part is the organisation;
    [enterprises] and one more part is the enterprise; two other parts are
    organisation and repository; three or more parts are refused.  The
    base URL of every success is [scheme://host]. *)
Lemma Extract_by_parts raw u :
  raw ≠ "" → url_Parse raw = inr u → Scheme u ≠ "" → Host u ≠ "" →
  ExtractGitHubScopeDetails url_Parse raw =
    let base := Scheme u +:+ "://" +:+ Host u in
    match Split (Trim (Path u) "/") "/" with
    | [org] => inr {| BaseURL := base; Repo := ""; Org := org; Enterprise := "" |}
    | [first; second] =>
        if decide (first = "enterprises")
        then inr {| BaseURL := base; Repo := ""; Org := ""; Enterprise := second |}
        else inr {| BaseURL := base; Repo := second; Org := first; Enterprise := "" |}
    | _ => inl (Errorf "URL does not match the expected patterns")
    end.
Proof.
  intros Hraw Hp Hs Hh. unfold ExtractGitHubScopeDetails.
  rewrite decide_False by done. rewrite Hp.
  rewrite decide_False by (intros [?|?]; done).
  pose proof (Split_nonempty (Trim (Path u) "/") "/") as Hne.
  destruct (Split (Trim (Path u) "/") "/") as [|a [|b [|c rest]]];
    [done|..]; cbn [length];
    repeat (destruct (decide _) as [?Hyes|?Hno]); try done; try lia.
  - match goal with H : _ ∧ _ !!! _ = "enterprises" |- _ => by destruct H end.
  - match goal with H : ¬ (_ ∧ _) |- _ => destruct H; by subst end.
Qed.

Lemma Extract_BaseURL raw scope :
  ExtractGitHubScopeDetails url_Parse raw = inr scope →
  ∃ u, url_Parse raw = inr u ∧ BaseURL scope = Scheme u +:+ "://" +:+ Host u.
Proof.
  unfold ExtractGitHubScopeDetails. case_decide; [done|].
  destruct (url_Parse raw) as [err|u]; [done|].
  case_decide; [done|]. intros Hok. exists u. split; [done|].
  repeat case_decide; by simplify_eq.
Qed.
End ExtractProperties.

(** C3.  An address whose path has no segment at all (nothing is left of
    the path once its slashes are trimmed) is not refused: [strings.Split]
    of the empty string is the one-element list of the empty string, so the
    one-segment case of the [switch] fires and the extraction succeeds with
    an empty organisation, for every URL parser. *)
Theorem Extract_no_segments_accepted
    (url_Parse : string → result URL) (raw : string) (u : URL) :
  raw ≠ "" → url_Parse raw = inr u → Scheme u ≠ "" → Host u ≠ "" →
  Trim (Path u) "/" = "" →
  ExtractGitHubScopeDetails url_Parse raw
  = inr {| BaseURL := Scheme u +:+ "://" +:+ Host u; Repo := ""; Org := "";
           Enterprise := "" |}.
Proof.
  intros Hraw Hp Hs Hh Hpath.
  rewrite (Extract_by_parts url_Parse raw u) by done.
  by rewrite Hpath.
Qed.

(** The address [https://github.com] has no path segment and is accepted,
    with every scope field empty. *)
Lemma Extract_no_segments_accepted_witness :
  ExtractGitHubScopeDetails plain_url_Parse "https://github.com"
  = inr {| BaseURL := "https://github.com"; Repo := ""; Org := "";
           Enterprise := "" |}.
Proof.
  apply (Extract_no_segments_accepted plain_url_Parse "https://github.com"
           {| Scheme := "https"; Host := "github.com"; Path := "" |});
    [done | reflexivity | done | done | reflexivity].
Defined.

End Spec.

(* ===================================================================== *)
(** ** The container engine ([github.com/docker/docker]) *)
(* ===================================================================== *)

Module Docker.

(** The request and response types of the engine API, with the fields the
    provider writes or reads.  A Go pointer the provider tests against [nil]
    ([State], [NetworkSettings]) is an [option]; the pointers it follows
    without a test (the embedded base of the inspect response, [Config],
    the entries of [Networks]) are taken as present; a Go map is a
    [gmap].  [Raw], at the end, keeps these pointers and relates the two. *)

Record ImagePullOptions : Type := { RegistryAuth : string }.

Record ContainerConfig : Type := {
  Image : string;
  Env : list string;
  Labels : gmap string string;
}.

Record Mount : Type := {
  mount_Type : string;
  mount_Target : string;
}.

Definition TypeVolume : string := "volume".
Definition CgroupnsModeHost : string := "host".

Record HostConfig : Type := {
  hc_Runtime : string;
  hc_NetworkMode : string;
  hc_Privileged : bool;
  hc_Binds : list string;
  hc_CgroupnsMode : string;
  hc_Mounts : list Mount;
}.

Record CreateResponse : Type := { resp_ID : string }.

Record ContainerRemoveOptions : Type := {
  Force : bool;
  RemoveVolumes : bool;
}.

Record StopOptions : Type := { Timeout : option Z }.

Record ContainerState : Type := {
  Running : bool;
  Paused : bool;
  Dead : bool;
  OOMKilled : bool;
}.

Record EndpointSettings : Type := {
  IPAddress : string;
  GlobalIPv6Address : string;
}.

Record NetworkSettings : Type := {
  Networks : gmap string EndpointSettings;
}.

(** [types.ContainerJSON], the full inspect response. *)
Record ContainerJSON : Type := {
  json_ID : string;
  json_Name : string;
  json_State : option ContainerState;
  json_Config : ContainerConfig;
  json_NetworkSettings : option NetworkSettings;
}.

(** [types.Container], the list summary. *)
Record Container : Type := {
  ID : string;
  Names : list string;
  State : string;
  sum_Labels : gmap string string;
}.

(** [filters.Args]: for each filter name the set of its values. *)
Abbreviation Args := (gmap string (gset string)).

Definition NewArgs : Args := ∅.

Definition Args_Get (args : Args) (key : string) : gset string :=
  default ∅ (args !! key).

Definition Args_Add (args : Args) (key value : string) : Args :=
  <[key := {[value]} ∪ Args_Get args key]> args.

Record ContainerListOptions : Type := {
  Filters : Args;
  All : bool;
}.

(** The [DockerClient] interface of the provider.  An engine has a state of
    its own, the [World]; a call answers and moves the engine on.
    [ImagePull] answers with a stream the provider drains and discards, so
    only its error is kept; [ContainerCreate] is always called with a [nil]
    networking configuration and a [nil] platform. *)
Record DockerClient (World : Type) : Type := {
  ImagePull : string → ImagePullOptions → World → option error * World;
  ImageInspectWithRaw : string → World → option error * World;
  ContainerCreate :
    ContainerConfig → HostConfig → string → World → result CreateResponse * World;
  ContainerStart : string → World → option error * World;
  ContainerRemove : string → ContainerRemoveOptions → World → option error * World;
  ContainerInspect : string → World → result ContainerJSON * World;
  ContainerList : ContainerListOptions → World → result (list Container) * World;
  ContainerStop : string → StopOptions → World → option error * World;
}.
Arguments ImagePull {World}.
Arguments ImageInspectWithRaw {World}.
Arguments ContainerCreate {World}.
Arguments ContainerStart {World}.
Arguments ContainerRemove {World}.
Arguments ContainerInspect {World}.
Arguments ContainerList {World}.
Arguments ContainerStop {World}.

(** What the provider does that the outside can observe: its calls to the
    engine, each with the engine's answer, and its [slog] records. *)
Inductive Level : Type := Debug | Info | Error.

Inductive Event : Type :=
  | EvImagePull (ref : string) (options : ImagePullOptions) (err : option error)
  | EvImageInspectWithRaw (imageID : string) (err : option error)
  | EvContainerCreate (config : ContainerConfig) (hostConfig : HostConfig)
      (containerName : string) (reply : result CreateResponse)
  | EvContainerStart (containerID : string) (err : option error)
  | EvContainerRemove (containerID : string) (options : ContainerRemoveOptions)
      (err : option error)
  | EvContainerInspect (containerID : string) (reply : result ContainerJSON)
  | EvContainerList (options : ContainerListOptions) (reply : result (list Container))
  | EvContainerStop (containerID : string) (options : StopOptions) (err : option error)
  | EvSlog (level : Level) (msg : string).

Definition is_call (ev : Event) : bool :=
  match ev with EvSlog _ _ => false | _ => true end.

Definition is_pull (ev : Event) : bool :=
  match ev with EvImagePull _ _ _ => true | _ => false end.

Definition is_image_inspect (ev : Event) : bool :=
  match ev with EvImageInspectWithRaw _ _ => true | _ => false end.

Definition is_create (ev : Event) : bool :=
  match ev with EvContainerCreate _ _ _ _ => true | _ => false end.

Definition is_remove (ev : Event) : bool :=
  match ev with EvContainerRemove _ _ _ => true | _ => false end.

(** The engine calls of a trace, without the log records. *)
Definition calls (trace : list Event) : list Event := filter is_call trace.

Section Replay.
Context {World : Type} (client : DockerClient World).

(** An event is what the engine does in world [w], leaving [w']. *)
Definition answers (ev : Event) (w w' : World) : Prop :=
  match ev with
  | EvImagePull ref o e => ImagePull client ref o w = (e, w')
  | EvImageInspectWithRaw ref e => ImageInspectWithRaw client ref w = (e, w')
  | EvContainerCreate c h n r => ContainerCreate client c h n w = (r, w')
  | EvContainerStart id e => ContainerStart client id w = (e, w')
  | EvContainerRemove id o e => ContainerRemove client id o w = (e, w')
  | EvContainerInspect id r => ContainerInspect client id w = (r, w')
  | EvContainerList o r => ContainerList client o w = (r, w')
  | EvContainerStop id o e => ContainerStop client id o w = (e, w')
  | EvSlog _ _ => w' = w
  end.

(** A trace replays on the engine from [w] to [w']. *)
Inductive Replays : World → list Event → World → Prop :=
  | Replays_nil w : Replays w [] w
  | Replays_cons w w1 w2 ev trace :
      answers ev w w1 → Replays w1 trace w2 → Replays w (ev :: trace) w2.

Lemma Replays_app w w1 w2 t1 t2 :
  Replays w t1 w1 → Replays w1 t2 w2 → Replays w (t1 ++ t2) w2.
Proof.
  induction 1 as [|w w' w1 ev t Hev _ IH]; simpl; [done|].
  intros H2. eapply Replays_cons; [exact Hev|]. by apply IH.
Qed.

Lemma Replays_one ev w w' : answers ev w w' → Replays w [ev] w'.
Proof. intros H. eapply Replays_cons; [exact H | constructor]. Qed.
End Replay.

(** Docker's meaning of a [label] filter value: [key=value] asks for the
    label with that value, a bare [key] asks for the label to be present. *)
Definition label_filter_holds (labels : gmap string string) (f : string) : bool :=
  match GoStrings.Cut f "=" with
  | (key, Some value) => bool_decide (labels !! key = Some value)
  | (key, None) => bool_decide (is_Some (labels !! key))
  end.

(** An engine honours label filters when every container it lists
    satisfies every [label] filter of the request. *)
Definition honours_label_filters {World} (client : DockerClient World) : Prop :=
  ∀ options w containers w',
    ContainerList client options w = (inr containers, w') →
    ∀ c f, c ∈ containers → f ∈ Args_Get (Filters options) "label" →
      label_filter_holds (sum_Labels c) f = true.

End Docker.

(* ===================================================================== *)
(** ** internal/provider/provider.go *)
(* ===================================================================== *)

Module Provider.
Import GoStrings Docker.

(** [dockerConfig] and [dockerAuthEntry]: the shape of
    [~/.docker/config.json]. *)
Record dockerAuthEntry : Type := { Auth : string }.
Record dockerConfig : Type := { Auths : gmap string dockerAuthEntry }.

(** [registry.AuthConfig], with the fields the provider fills. *)
Record AuthConfig : Type := {
  Username : string;
  Password : string;
}.

(** What the provider takes from the Go runtime, the standard library and
    the operating system.  [range_Networks] is the order in which a [range]
    loop visits the entries of the networks map, which Go leaves open. *)
Record Host : Type := {
  url_Parse : string → result Spec.URL;
  os_UserHomeDir : result string;
  os_ReadFile : string → result string;
  json_Unmarshal : string → result dockerConfig;
  base64_Std_DecodeString : string → result string;
  json_Marshal : AuthConfig → result string;
  base64_URL_EncodeToString : string → string;
  range_Networks : gmap string EndpointSettings → list (string * EndpointSettings);
}.

(** A [range] loop visits every entry of the map once. *)
Definition range_visits_all (host : Host) : Prop :=
  ∀ m, range_Networks host m ≡ₚ map_to_list m.

Record Provider : Type := {
  ControllerID : string;
  PoolID : string;
}.

(** *** The provider monad

    An operation runs against the engine: from a world it gives its result,
    the world it leaves and the trace of what it did. *)
Definition M (World A : Type) : Type := World → result A * World * list Event.

Section Monad.
Context {World : Type}.

Definition ret {A} (a : A) : M World A := λ w, (inr a, w, []).

Definition fail {A} (err : error) : M World A := λ w, (inl err, w, []).

Definition bind {A B} (m : M World A) (f : A → M World B) : M World B := λ w,
  match m w with
  | (inl err, w1, t1) => (inl err, w1, t1)
  | (inr a, w1, t1) =>
      let '(r, w2, t2) := f a w1 in (r, w2, t1 ++ t2)
  end.

Definition slog (level : Level) (msg : string) : M World unit :=
  λ w, (inr tt, w, [EvSlog level msg]).
End Monad.

Notation "'let*' x := m 'in' k" := (bind m (λ x, k))
  (at level 10, x name, m at level 100, k at level 200).
Notation "m >> k" := (bind m (λ _, k))
  (at level 100, k at level 200, right associativity).

Section WithEngine.
Context {World : Type}.
Variable client : DockerClient World.
Variable host : Host.
(** The package variable [config.Config], read-only once loaded. *)
Variable Config : Config.ProviderConfig.

(** Calls through the [DockerClient] interface. *)
Definition callImagePull (ref : string) (o : ImagePullOptions) : M World (option error) :=
  λ w, let '(e, w') := ImagePull client ref o w in
       (inr e, w', [EvImagePull ref o e]).

Definition callImageInspectWithRaw (ref : string) : M World (option error) :=
  λ w, let '(e, w') := ImageInspectWithRaw client ref w in
       (inr e, w', [EvImageInspectWithRaw ref e]).

Definition callContainerCreate (c : ContainerConfig) (h : HostConfig) (name : string)
  : M World (result CreateResponse) :=
  λ w, let '(r, w') := ContainerCreate client c h name w in
       (inr r, w', [EvContainerCreate c h name r]).

Definition callContainerStart (id : string) : M World (option error) :=
  λ w, let '(e, w') := ContainerStart client id w in
       (inr e, w', [EvContainerStart id e]).

Definition callContainerRemove (id : string) (o : ContainerRemoveOptions)
  : M World (option error) :=
  λ w, let '(e, w') := ContainerRemove client id o w in
       (inr e, w', [EvContainerRemove id o e]).

Definition callContainerInspect (id : string) : M World (result ContainerJSON) :=
  λ w, let '(r, w') := ContainerInspect client id w in
       (inr r, w', [EvContainerInspect id r]).

Definition callContainerList (o : ContainerListOptions)
  : M World (result (list Container)) :=
  λ w, let '(r, w') := ContainerList client o w in
       (inr r, w', [EvContainerList o r]).

Definition callContainerStop (id : string) (o : StopOptions) : M World (option error) :=
  λ w, let '(e, w') := ContainerStop client id o w in
       (inr e, w', [EvContainerStop id o e]).

(** The registry of an image reference, as [getRegistryAuth] derives it. *)
Definition registryHostOf (image : string) : string :=
  let registryHost := "docker.io" in
  if Contains image "/" then
    let parts := SplitN2 image "/" in
    if Contains (parts !!! 0%nat) "." || Contains (parts !!! 0%nat) ":"
    then parts !!! 0%nat
    else registryHost
  else registryHost.

(** [getRegistryAuth].  Its Go type has no error: every [return] gives a
    string. *)
Definition getRegistryAuth (image : string) : M World string :=
  let configPath := Config.DockerConfigPath Config in
  match (if decide (configPath = "")
         then match os_UserHomeDir host with
              | inl err => inl err
              | inr home => inr (home +:+ "/.docker/config.json")
              end
         else inr configPath) with
  | inl err =>
      slog Debug "failed to get home dir for docker config" >> ret ""
  | inr configPath =>
      match os_ReadFile host configPath with
      | inl err => slog Debug "failed to read docker config" >> ret ""
      | inr data =>
          match json_Unmarshal host data with
          | inl err => slog Debug "failed to parse docker config" >> ret ""
          | inr cfg =>
              let registryHost := registryHostOf image in
              match Auths cfg !! registryHost with
              | Some entry =>
                  match base64_Std_DecodeString host (Auth entry) with
                  | inl err =>
                      slog Debug "failed to decode auth from docker config" >> ret ""
                  | inr decoded =>
                      let parts := SplitN2 decoded ":" in
                      if decide (length parts ≠ 2) then
                        slog Debug "invalid auth format in docker config" >> ret ""
                      else
                        let authConfig :=
                          {| Username := parts !!! 0%nat; Password := parts !!! 1%nat |} in
                        match json_Marshal host authConfig with
                        | inl err => slog Debug "failed to encode auth config" >> ret ""
                        | inr authJSON => ret (base64_URL_EncodeToString host authJSON)
                        end
                  end
              | None => ret ""
              end
          end
      end
  end.

(** [containerToAddresses]: the loop appends to [addrs], starting from the
    empty, non-nil slice. *)
Definition containerToAddresses (c : ContainerJSON) : slice Address :=
  let addrs : slice Address := SliceOf [] in
  match json_NetworkSettings c with
  | None => addrs
  | Some ns =>
      foldl (λ addrs '(_, settings),
               let addrs :=
                 if decide (IPAddress settings ≠ "")
                 then slice_append addrs
                        {| addr_Address := IPAddress settings;
                           addr_Type := PrivateAddress |}
                 else addrs in
               if decide (GlobalIPv6Address settings ≠ "")
               then slice_append addrs
                      {| addr_Address := GlobalIPv6Address settings;
                         addr_Type := PrivateAddress |}
               else addrs)
            addrs (range_Networks host (Networks ns))
  end.

(** [CreateInstance] *)
Definition CreateInstance (p : Provider) (bootstrapParams : BootstrapInstance)
  : M World ProviderInstance :=
  let image := bi_Image bootstrapParams in
  let needsPull := Config.AlwaysPull Config in
  let* needsPull :=
    (if negb needsPull then
       let* err := callImageInspectWithRaw image in
       match err with
       | Some err =>
           if IsErrNotFound err then ret true
           else fail (Wrapf ("failed to inspect image " +:+ image) err)
       | None => ret needsPull
       end
     else ret needsPull) in
  (if needsPull : bool then
     slog Info "pulling image" >>
     let* authStr := getRegistryAuth image in
     let pullOpts := {| RegistryAuth := "" |} in
     let pullOpts :=
       if decide (authStr ≠ "") then {| RegistryAuth := authStr |} else pullOpts in
     let* err := callImagePull image pullOpts in
     match err with
     | Some err => fail (Wrapf ("failed to pull image " +:+ image) err)
     | None => ret tt
     end
   else slog Info "using local image") >>
  match Spec.GetRunnerEnvs (url_Parse host) bootstrapParams with
  | inl err => fail (Wrapf "failed to generate envs" err)
  | inr envs =>
      let labels := Spec.GetContainerLabels (ControllerID p) bootstrapParams in
      let containerConfig :=
        {| Image := image; Env := envs; Labels := labels |} in
      let hostConfig :=
        {| hc_Runtime := Spec.GetHostConfigRuntime Config;
           hc_NetworkMode := Config.Network Config;
           hc_Privileged := Config.Privileged Config;
           hc_Binds := Config.Binds Config;
           hc_CgroupnsMode := "";
           hc_Mounts := [] |} in
      let hostConfig :=
        if Config.Privileged Config then
          {| hc_Runtime := hc_Runtime hostConfig;
             hc_NetworkMode := hc_NetworkMode hostConfig;
             hc_Privileged := hc_Privileged hostConfig;
             hc_Binds := hc_Binds hostConfig;
             hc_CgroupnsMode := CgroupnsModeHost;
             hc_Mounts := [ {| mount_Type := TypeVolume;
                               mount_Target := "/var/lib/docker" |} ] |}
        else hostConfig in
      let* resp := callContainerCreate containerConfig hostConfig (bi_Name bootstrapParams) in
      match resp with
      | inl err => fail (Wrapf "failed to create container" err)
      | inr resp =>
          let* err := callContainerStart (resp_ID resp) in
          match err with
          | Some err => fail (Wrapf "failed to start container" err)
          | None =>
              let* inspect := callContainerInspect (resp_ID resp) in
              match inspect with
              | inl err => fail (Wrapf "failed to inspect container after start" err)
              | inr inspect =>
                  ret {| ProviderID := json_ID inspect;
                         Name := bi_Name bootstrapParams;
                         Status := InstanceRunning;
                         OSType := bi_OSType bootstrapParams;
                         OSArch := bi_OSArch bootstrapParams;
                         OSName := "linux";
                         OSVersion := "unknown";
                         Addresses := containerToAddresses inspect |}
              end
          end
      end
  end.

(** [DeleteInstance]: [inr tt] is the [nil] error. *)
Definition DeleteInstance (p : Provider) (instance : string) : M World unit :=
  let* err :=
    callContainerRemove instance
      {| Force := true; RemoveVolumes := Config.RemoveVolumes Config |} in
  match err with
  | Some err =>
      if IsErrNotFound err then ret tt
      else fail (Wrapf ("failed to remove container " +:+ instance) err)
  | None => ret tt
  end.

(** A Go map read: the zero value when the key is absent. *)
Definition label (labels : gmap string string) (key : string) : string :=
  default "" (labels !! key).

(** [containerToInstance].  A composite literal leaves the fields it does
    not name at their zero value. *)
Definition containerToInstance (c : ContainerJSON) : ProviderInstance :=
  let status := InstanceStatusUnknown in
  let status :=
    match json_State c with
    | Some state =>
        if Running state then InstanceRunning
        else if Paused state then InstanceStopped
        else if Dead state || OOMKilled state then InstanceError
        else InstanceStopped
    | None => status
    end in
  {| ProviderID := json_ID c;
     Name := json_Name c;
     Status := status;
     OSType := label (Labels (json_Config c)) Spec.GarmOSTypeLabel;
     OSArch := label (Labels (json_Config c)) Spec.GarmOSArchLabel;
     OSName := ""; OSVersion := ""; Addresses := SliceNil |}.

(** [containerSummaryToInstance] *)
Definition containerSummaryToInstance (c : Container) : ProviderInstance :=
  let status := InstanceStatusUnknown in
  let status :=
    if decide (State c = "running") then InstanceRunning
    else if decide (State c = "exited") then InstanceStopped
    else status in
  let name := "" in
  let name :=
    match Names c with
    | first :: _ =>
        match first with
        | String "/" rest => rest
        | _ => first
        end
    | [] => name
    end in
  {| ProviderID := ID c;
     Name := name;
     Status := status;
     OSType := label (sum_Labels c) Spec.GarmOSTypeLabel;
     OSArch := label (sum_Labels c) Spec.GarmOSArchLabel;
     OSName := ""; OSVersion := ""; Addresses := SliceNil |}.

(** [GetInstance] *)
Definition GetInstance (p : Provider) (instance : string) : M World ProviderInstance :=
  let* json := callContainerInspect instance in
  match json with
  | inl err => fail (Wrapf ("failed to inspect container " +:+ instance) err)
  | inr json => ret (containerToInstance json)
  end.

(** The filter arguments [ListInstances] builds. *)
Definition listFilters (p : Provider) (poolID : string) : Args :=
  let filtersArgs := NewArgs in
  let filtersArgs :=
    Args_Add filtersArgs "label"
      (Spec.GarmControllerIDLabel +:+ "=" +:+ ControllerID p) in
  if decide (poolID ≠ "")
  then Args_Add filtersArgs "label" (Spec.GarmPoolIDLabel +:+ "=" +:+ poolID)
  else filtersArgs.

(** [ListInstances] *)
Definition ListInstances (p : Provider) (poolID : string)
  : M World (list ProviderInstance) :=
  let filtersArgs := listFilters p poolID in
  let* containers :=
    callContainerList {| Filters := filtersArgs; All := true |} in
  match containers with
  | inl err => fail (Wrapf "failed to list containers" err)
  | inr containers => ret (map containerSummaryToInstance containers)
  end.

(** The removal loop of [RemoveAllInstances]. *)
Fixpoint removeEach (containers : list Container) : M World unit :=
  match containers with
  | [] => ret tt
  | c :: rest =>
      let* err :=
        callContainerRemove (ID c)
          {| Force := true; RemoveVolumes := Config.RemoveVolumes Config |} in
      (match err with
       | Some err => slog Error "failed to remove container"
       | None => ret tt
       end) >>
      removeEach rest
  end.

(** [RemoveAllInstances] *)
Definition RemoveAllInstances (p : Provider) : M World unit :=
  let filtersArgs := NewArgs in
  let filtersArgs :=
    Args_Add filtersArgs "label"
      (Spec.GarmControllerIDLabel +:+ "=" +:+ ControllerID p) in
  let* containers :=
    callContainerList {| Filters := filtersArgs; All := true |} in
  match containers with
  | inl err => fail (Wrapf "failed to list containers for removal" err)
  | inr containers => removeEach containers
  end.

(** [Stop] *)
Definition Stop (p : Provider) (instance : string) (force : bool) : M World unit :=
  let timeout := 10%Z in
  let timeout := if force then 0%Z else timeout in
  let stopOptions := {| Timeout := Some timeout |} in
  let* err := callContainerStop instance stopOptions in
  match err with
  | Some err => fail (Wrapf "failed to stop container" err)
  | None => ret tt
  end.

(** [Start] *)
Definition Start (p : Provider) (instance : string) : M World unit :=
  let* err := callContainerStart instance in
  match err with
  | Some err => fail (Wrapf "failed to start container" err)
  | None => ret tt
  end.
End WithEngine.


(** *** Properties of the lifecycle operations *)

(** The engine-facing identifier of a removal call. *)
Definition removed_id (ev : Event) : option string :=
  match ev with
  | EvContainerRemove id _ _ => Some id
  | _ => None
  end.

(** The containers a trace asks the engine to remove, in order. *)
Definition removed_ids (trace : list Event) : list string := omap removed_id trace.

Lemma removed_ids_app t1 t2 : removed_ids (t1 ++ t2) = removed_ids t1 ++ removed_ids t2.
Proof. apply omap_app. Qed.

Lemma calls_app t1 t2 : calls (t1 ++ t2) = calls t1 ++ calls t2.
Proof. apply filter_app. Qed.

Section Properties.
Context {World : Type}.
Variable client : DockerClient World.
Variable host : Host.
Variable Config : Config.ProviderConfig.

(** **** The credential resolver *)

(** The path of the credential file, when it can be determined. *)
Definition credentialPath : result string :=
  if decide (Config.DockerConfigPath Config = "")
  then match os_UserHomeDir host with
       | inl err => inl err
       | inr home => inr (home +:+ "/.docker/config.json")
       end
  else inr (Config.DockerConfigPath Config).

(** All the steps of a credential resolution that found something. *)
Definition resolved (image authStr : string) : Prop :=
  ∃ configPath data cfg entry decoded user pass authJSON,
    credentialPath = inr configPath ∧
    os_ReadFile host configPath = inr data ∧
    json_Unmarshal host data = inr cfg ∧
    Auths cfg !! registryHostOf image = Some entry ∧
    base64_Std_DecodeString host (Auth entry) = inr decoded ∧
    SplitN2 decoded ":" = [user; pass] ∧
    json_Marshal host {| Username := user; Password := pass |} = inr authJSON ∧
    authStr = base64_URL_EncodeToString host authJSON.

Lemma getRegistryAuth_run image (w : World) :
  ∃ authStr logs,
    getRegistryAuth host Config image w = (inr authStr, w, logs) ∧
    calls logs = [] ∧
    (authStr ≠ "" → resolved image authStr).
Proof.
  unfold getRegistryAuth, resolved.
  pose proof (eq_refl credentialPath) as Hpath. unfold credentialPath at 1 in Hpath.
  destruct (if decide (Config.DockerConfigPath Config = "") then _ else _)
    as [err|configPath]; [by eexists _, _|].
  destruct (os_ReadFile host configPath) as [err|data] eqn:Hread; [by eexists _, _|].
  destruct (json_Unmarshal host data) as [err|cfg] eqn:Hparse; [by eexists _, _|].
  destruct (Auths cfg !! registryHostOf image) as [entry|] eqn:Hentry; [|by eexists _, _].
  destruct (base64_Std_DecodeString host (Auth entry)) as [err|decoded] eqn:Hdec;
    [by eexists _, _|].
  destruct (decide (length (SplitN2 decoded ":") ≠ 2)) as [Hlen|Hlen]; [by eexists _, _|].
  destruct (SplitN2 decoded ":") as [|user [|pass [|? ?]]] eqn:Hparts;
    try (simpl in Hlen; exfalso; apply Hlen; simpl; lia).
  cbn [lookup_total list_lookup_total].
  destruct (json_Marshal host _) as [err|authJSON] eqn:Hmar; [by eexists _, _|].
  eexists _, _. split; [reflexivity|]. split; [done|]. intros _.
  by eexists configPath, data, cfg, entry, decoded, user, pass, authJSON.
Qed.

(** The registry of a reference with a slash whose first part has a dot or
    a colon is that first part. *)
Lemma registryHostOf_explicit first rest :
  Contains first "/" = false →
  Contains first "." || Contains first ":" = true →
  registryHostOf (first +:+ String "/" rest) = first.
Proof.
  intros Hfirst Hdot. unfold registryHostOf, SplitN2.
  rewrite Contains_app_sep, (Cut_first_sep _ _ _ Hfirst).
  cbn [lookup_total list_lookup_total]. by rewrite Hdot.
Qed.

(** Otherwise, with a slash, it is the default. *)
Lemma registryHostOf_plain_first first rest :
  Contains first "/" = false →
  Contains first "." || Contains first ":" = false →
  registryHostOf (first +:+ String "/" rest) = "docker.io".
Proof.
  intros Hfirst Hdot. unfold registryHostOf, SplitN2.
  rewrite Contains_app_sep, (Cut_first_sep _ _ _ Hfirst).
  cbn [lookup_total list_lookup_total]. by rewrite Hdot.
Qed.

(** And without a slash it is the default as well. *)
Lemma registryHostOf_no_slash image :
  Contains image "/" = false → registryHostOf image = "docker.io".
Proof. intros H. unfold registryHostOf. by rewrite H. Qed.

(** **** The removal loop *)

Lemma removeEach_run containers w :
  ∃ w' trace,
    removeEach client Config containers w = (inr tt, w', trace) ∧
    removed_ids trace = ID <$> containers ∧
    Replays client w trace w'.
Proof.
  revert w. induction containers as [|c rest IH]; intros w; simpl.
  - eexists _, _. split; [reflexivity|]. split; [done|]. constructor.
  - unfold bind at 1. unfold callContainerRemove at 1.
    destruct (ContainerRemove client (ID c) _ w) as [err w1] eqn:Hrm.
    unfold bind at 1.
    assert (∃ logs,
      (match err with
       | Some _ => slog Error "failed to remove container"
       | None => ret tt
       end) w1 = (inr tt, w1, logs) ∧ removed_ids logs = [] ∧ Replays client w1 logs w1)
      as (logs & -> & Hlogs & Hrep).
    { destruct err; eexists; (split; [reflexivity|]); (split; [done|]).
      - by apply Replays_one.
      - constructor. }
    destruct (IH w1) as (w' & trace & -> & Hids & Hrest).
    eexists _, _. split; [reflexivity|]. split.
    + simpl. rewrite removed_ids_app, Hlogs, Hids. done.
    + eapply Replays_cons; [exact Hrm|]. eapply Replays_app; [exact Hrep | exact Hrest].
Qed.

(** **** Ways for a credential resolution to fail

    One constructor for each [return ""] of [getRegistryAuth] that follows a
    failed step: no home directory, a missing or unreadable file, content
    that does not parse, no entry for the registry, an entry that does not
    decode, a decoded entry without a colon, credentials that do not
    encode. *)
Inductive ResolutionFails (image : string) : Prop :=
  | NoHomeDir err :
      credentialPath = inl err → ResolutionFails image
  | Unreadable configPath err :
      credentialPath = inr configPath →
      os_ReadFile host configPath = inl err → ResolutionFails image
  | Unparsable configPath data err :
      credentialPath = inr configPath →
      os_ReadFile host configPath = inr data →
      json_Unmarshal host data = inl err → ResolutionFails image
  | MissingEntry configPath data cfg :
      credentialPath = inr configPath →
      os_ReadFile host configPath = inr data →
      json_Unmarshal host data = inr cfg →
      Auths cfg !! registryHostOf image = None → ResolutionFails image
  | Undecodable configPath data cfg entry err :
      credentialPath = inr configPath →
      os_ReadFile host configPath = inr data →
      json_Unmarshal host data = inr cfg →
      Auths cfg !! registryHostOf image = Some entry →
      base64_Std_DecodeString host (Auth entry) = inl err → ResolutionFails image
  | Malformed configPath data cfg entry decoded :
      credentialPath = inr configPath →
      os_ReadFile host configPath = inr data →
      json_Unmarshal host data = inr cfg →
      Auths cfg !! registryHostOf image = Some entry →
      base64_Std_DecodeString host (Auth entry) = inr decoded →
      length (SplitN2 decoded ":") ≠ 2 → ResolutionFails image
  | Unencodable configPath data cfg entry decoded user pass err :
      credentialPath = inr configPath →
      os_ReadFile host configPath = inr data →
      json_Unmarshal host data = inr cfg →
      Auths cfg !! registryHostOf image = Some entry →
      base64_Std_DecodeString host (Auth entry) = inr decoded →
      SplitN2 decoded ":" = [user; pass] →
      json_Marshal host {| Username := user; Password := pass |} = inl err →
      ResolutionFails image.

Lemma resolved_not_failed image authStr :
  resolved image authStr → ¬ ResolutionFails image.
Proof.
  intros (configPath & data & cfg & entry & decoded & user & pass & authJSON
          & Hpath & Hread & Hparse & Hentry & Hdec & Hparts & Hmar & _) Hfail.
  destruct Hfail;
    repeat match goal with
    | H1 : ?x = inr _, H2 : ?x = _ |- _ => rewrite H1 in H2; simplify_eq
    | H1 : ?x = Some _, H2 : ?x = _ |- _ => rewrite H1 in H2; simplify_eq
    end.
  - match goal with H : length _ ≠ 2 |- _ => rewrite Hparts in H; by apply H end.
  - congruence.
Qed.

(** **** Running [bind] *)

Lemma bind_run {A B} (m : M World A) (f : A → M World B) w r w' t :
  bind m f w = (r, w', t) →
  (∃ err, m w = (inl err, w', t) ∧ r = inl err) ∨
  (∃ a w1 t1 t2, m w = (inr a, w1, t1) ∧ f a w1 = (r, w', t2) ∧ t = t1 ++ t2).
Proof.
  unfold bind. destruct (m w) as [[[err|a] w1] t1].
  - intros [= <- <- <-]. left. by exists err.
  - destruct (f a w1) as [[r2 w2] t2] eqn:Hf. intros [= <- <- <-].
    right. by exists a, w1, t1, t2.
Qed.

Lemma bind_run_ok {A B} (m : M World A) (f : A → M World B) w a w1 t1 :
  m w = (inr a, w1, t1) →
  bind m f w = (let '(r, w2, t2) := f a w1 in (r, w2, t1 ++ t2)).
Proof. intros H. unfold bind. by rewrite H. Qed.

Lemma bind_run_err {A B} (m : M World A) (f : A → M World B) w err w1 t1 :
  m w = (inl err, w1, t1) → bind m f w = (inl err, w1, t1).
Proof. intros H. unfold bind. by rewrite H. Qed.

(** **** The three stages of [CreateInstance] *)

Definition inspectStage (image : string) : M World bool :=
  let needsPull := Config.AlwaysPull Config in
  if negb needsPull then
    let* err := callImageInspectWithRaw client image in
    match err with
    | Some err =>
        if IsErrNotFound err then ret true
        else fail (Wrapf ("failed to inspect image " +:+ image) err)
    | None => ret needsPull
    end
  else ret needsPull.

Definition pullOptions (authStr : string) : ImagePullOptions :=
  let pullOpts := {| RegistryAuth := "" |} in
  if decide (authStr ≠ "") then {| RegistryAuth := authStr |} else pullOpts.

Definition pullStage (image : string) (needsPull : bool) : M World unit :=
  if needsPull then
    slog Info "pulling image" >>
    let* authStr := getRegistryAuth host Config image in
    let* err := callImagePull client image (pullOptions authStr) in
    match err with
    | Some err => fail (Wrapf ("failed to pull image " +:+ image) err)
    | None => ret tt
    end
  else slog Info "using local image".

(** The instance [CreateInstance] builds from the request and the inspect
    response. *)
Definition createdInstance (bootstrapParams : BootstrapInstance)
    (inspect : ContainerJSON) : ProviderInstance :=
  {| ProviderID := json_ID inspect;
     Name := bi_Name bootstrapParams;
     Status := InstanceRunning;
     OSType := bi_OSType bootstrapParams;
     OSArch := bi_OSArch bootstrapParams;
     OSName := "linux";
     OSVersion := "unknown";
     Addresses := containerToAddresses host inspect |}.

Definition launchStage (p : Provider) (bootstrapParams : BootstrapInstance)
  : M World ProviderInstance :=
  match Spec.GetRunnerEnvs (url_Parse host) bootstrapParams with
  | inl err => fail (Wrapf "failed to generate envs" err)
  | inr envs =>
      let labels := Spec.GetContainerLabels (ControllerID p) bootstrapParams in
      let containerConfig :=
        {| Image := bi_Image bootstrapParams; Env := envs; Labels := labels |} in
      let hostConfig :=
        {| hc_Runtime := Spec.GetHostConfigRuntime Config;
           hc_NetworkMode := Config.Network Config;
           hc_Privileged := Config.Privileged Config;
           hc_Binds := Config.Binds Config;
           hc_CgroupnsMode := "";
           hc_Mounts := [] |} in
      let hostConfig :=
        if Config.Privileged Config then
          {| hc_Runtime := hc_Runtime hostConfig;
             hc_NetworkMode := hc_NetworkMode hostConfig;
             hc_Privileged := hc_Privileged hostConfig;
             hc_Binds := hc_Binds hostConfig;
             hc_CgroupnsMode := CgroupnsModeHost;
             hc_Mounts := [ {| mount_Type := TypeVolume;
                               mount_Target := "/var/lib/docker" |} ] |}
        else hostConfig in
      let* resp :=
        callContainerCreate client containerConfig hostConfig (bi_Name bootstrapParams) in
      match resp with
      | inl err => fail (Wrapf "failed to create container" err)
      | inr resp =>
          let* err := callContainerStart client (resp_ID resp) in
          match err with
          | Some err => fail (Wrapf "failed to start container" err)
          | None =>
              let* inspect := callContainerInspect client (resp_ID resp) in
              match inspect with
              | inl err => fail (Wrapf "failed to inspect container after start" err)
              | inr inspect => ret (createdInstance bootstrapParams inspect)
              end
          end
      end
  end.

Lemma CreateInstance_stages p bootstrapParams :
  CreateInstance client host Config p bootstrapParams
  = (let* needsPull := inspectStage (bi_Image bootstrapParams) in
     pullStage (bi_Image bootstrapParams) needsPull >>
     launchStage p bootstrapParams).
Proof. reflexivity. Qed.

(** Neither a pull nor an image inspection. *)
Definition past_image (ev : Event) : Prop :=
  is_pull ev = false ∧ is_image_inspect ev = false.


Lemma inspectStage_inspects image w e w1 :
  Config.AlwaysPull Config = false →
  ImageInspectWithRaw client image w = (e, w1) →
  inspectStage image w =
    (match e with
     | Some err =>
         if IsErrNotFound err then inr true
         else inl (Wrapf ("failed to inspect image " +:+ image) err)
     | None => inr false
     end, w1, [EvImageInspectWithRaw image e]).
Proof.
  intros Hcfg Hcall. unfold inspectStage, bind, callImageInspectWithRaw.
  rewrite Hcfg. cbn [negb]. rewrite Hcall.
  destruct e as [err|]; [destruct (IsErrNotFound err)|]; reflexivity.
Qed.

Lemma pullStage_local image w :
  pullStage image false w = (inr tt, w, [EvSlog Info "using local image"]).
Proof. reflexivity. Qed.

Lemma pullStage_pulls image w :
  ∃ authStr logs e w1,
    calls logs = [] ∧
    ImagePull client image (pullOptions authStr) w = (e, w1) ∧
    pullStage image true w =
      (match e with
       | Some err => inl (Wrapf ("failed to pull image " +:+ image) err)
       | None => inr tt
       end, w1,
       EvSlog Info "pulling image" :: logs ++ [EvImagePull image (pullOptions authStr) e]).
Proof.
  destruct (getRegistryAuth_run image w) as (authStr & logs & Hauth & Hlogs & _).
  destruct (ImagePull client image (pullOptions authStr) w) as [e w1] eqn:Hpull.
  exists authStr, logs, e, w1. split; [done|]. split; [done|].
  unfold pullStage, bind, slog, callImagePull. rewrite Hauth, Hpull.
  destruct e; reflexivity.
Qed.

(** What [launchStage] does: it never pulls or inspects an image; when it
    succeeds its last step was the container inspection whose response it
    turns into the instance; and when its last step was a container
    inspection that answered, it succeeds. *)
Lemma launchStage_run p bootstrapParams w r w' t :
  launchStage p bootstrapParams w = (r, w', t) →
  Forall past_image t ∧
  calls t = t ∧
  (∀ inst, r = inr inst →
     ∃ id inspect w0 before,
       t = before ++ [EvContainerInspect id (inr inspect)] ∧
       ContainerInspect client id w0 = (inr inspect, w') ∧
       inst = createdInstance bootstrapParams inspect) ∧
  (∀ id inspect, last t = Some (EvContainerInspect id (inr inspect)) →
     r = inr (createdInstance bootstrapParams inspect)).
Proof.
  unfold launchStage.
  destruct (Spec.GetRunnerEnvs _ _) as [err|envs].
  { intros [= <- <- <-]. by repeat split. }
  cbv zeta. unfold bind, callContainerCreate, callContainerStart, callContainerInspect.
  destruct (ContainerCreate client _ _ _ w) as [[err|resp] w1].
  { intros [= <- <- <-]. repeat split; try done. by repeat constructor. }
  destruct (ContainerStart client _ w1) as [[err|] w2].
  { intros [= <- <- <-]. repeat split; try done. by repeat constructor. }
  destruct (ContainerInspect client _ w2) as [[err|inspect] w3] eqn:Hinspect.
  { intros [= <- <- <-]. repeat split; try done. by repeat constructor. }
  intros [= <- <- <-]. repeat split; try done.
  - by repeat constructor.
  - intros inst [= <-]. eexists _, inspect, w2, [_; _]. by repeat split.
  - intros id inspect' [= <- <-]. done.
Qed.

(** **** Address extraction *)

Definition private (a : string) : Address :=
  {| addr_Address := a; addr_Type := PrivateAddress |}.

(** The networks a container is attached to, per its inspect response. *)
Definition attachedNetworks (c : ContainerJSON) : list EndpointSettings :=
  match json_NetworkSettings c with
  | None => []
  | Some ns => (map_to_list (Networks ns)).*2
  end.

Definition nonEmpty (addrs : list string) : list string :=
  filter (λ a, a ≠ "") addrs.

(** One entry for each non-empty IPv4 address and one for each non-empty
    IPv6 address of the attached networks. *)
Definition reportedAddresses (c : ContainerJSON) : list Address :=
  private <$> (nonEmpty (IPAddress <$> attachedNetworks c)
               ++ nonEmpty (GlobalIPv6Address <$> attachedNetworks c)).

(** What one network contributes, in the order of the loop body. *)
Definition endpointAddresses (settings : EndpointSettings) : list Address :=
  (if decide (IPAddress settings ≠ "") then [private (IPAddress settings)] else [])
  ++ (if decide (GlobalIPv6Address settings ≠ "")
      then [private (GlobalIPv6Address settings)] else []).

Lemma addresses_loop (entries : list (string * EndpointSettings)) (acc : list Address) :
  foldl (λ addrs '(_, settings),
           let addrs :=
             if decide (IPAddress settings ≠ "")
             then slice_append addrs
                    {| addr_Address := IPAddress settings; addr_Type := PrivateAddress |}
             else addrs in
           if decide (GlobalIPv6Address settings ≠ "")
           then slice_append addrs
                  {| addr_Address := GlobalIPv6Address settings;
                     addr_Type := PrivateAddress |}
           else addrs)
        (SliceOf acc) entries
  = SliceOf (acc ++ concat (endpointAddresses <$> entries.*2)).
Proof.
  revert acc. induction entries as [|[name settings] entries IH]; intros acc; simpl.
  - by rewrite app_nil_r.
  - unfold endpointAddresses at 1, private.
    destruct (decide (IPAddress settings ≠ "")),
             (decide (GlobalIPv6Address settings ≠ "")); simpl;
      unfold slice_append; simpl; rewrite IH; f_equal;
      by rewrite <- ?app_assoc.
Qed.

Lemma containerToAddresses_eq c :
  containerToAddresses host c =
    SliceOf (match json_NetworkSettings c with
             | None => []
             | Some ns =>
                 concat (endpointAddresses <$> (range_Networks host (Networks ns)).*2)
             end).
Proof.
  unfold containerToAddresses. destruct (json_NetworkSettings c) as [ns|]; [|done].
  by rewrite addresses_loop.
Qed.

Lemma endpointAddresses_split (nets : list EndpointSettings) :
  concat (endpointAddresses <$> nets)
  ≡ₚ private <$> (nonEmpty (IPAddress <$> nets) ++ nonEmpty (GlobalIPv6Address <$> nets)).
Proof.
  unfold nonEmpty. induction nets as [|n nets IH]; [done|].
  cbn [fmap list_fmap concat]. rewrite IH. unfold endpointAddresses.
  rewrite !filter_cons.
  destruct (decide (IPAddress n ≠ "")), (decide (GlobalIPv6Address n ≠ ""));
    rewrite ?fmap_app; simpl; rewrite ?fmap_app; simpl.
  - apply Permutation_skip. by rewrite <- Permutation_middle.
  - done.
  - by rewrite <- Permutation_middle.
  - done.
Qed.

(** Whatever the order of the loop, the addresses are the reported ones. *)
Lemma containerToAddresses_reported c :
  range_visits_all host →
  ∃ addrs, containerToAddresses host c = SliceOf addrs ∧ addrs ≡ₚ reportedAddresses c.
Proof.
  intros Hrange. rewrite containerToAddresses_eq. eexists. split; [reflexivity|].
  unfold reportedAddresses, attachedNetworks.
  destruct (json_NetworkSettings c) as [ns|]; [|done].
  rewrite <- endpointAddresses_split. by rewrite (Hrange (Networks ns)).
Qed.

End Properties.

End Provider.

(* ===================================================================== *)
(** ** A small engine to run the provider against *)
(* ===================================================================== *)

Module SimEngine.
Import GoStrings Docker Provider.

(** An in-memory engine: the images it holds, its containers, the
    containers whose removal it refuses, whether its image store works, and
    the network settings it gives a container it starts. *)
Record SimContainer : Type := {
  sim_id : string;
  sim_name : string;
  sim_labels : gmap string string;
  sim_state : string;
  sim_networks : option NetworkSettings;
}.

Record SimWorld : Type := {
  images : gset string;
  containers : list SimContainer;
  stuck : gset string;
  store_ok : bool;
  attach : option NetworkSettings;
}.

Definition with_containers (w : SimWorld) (cs : list SimContainer) : SimWorld :=
  {| images := images w; containers := cs; stuck := stuck w; store_ok := store_ok w;
     attach := attach w |}.

Definition with_image (w : SimWorld) (ref : string) : SimWorld :=
  {| images := {[ref]} ∪ images w; containers := containers w; stuck := stuck w;
     store_ok := store_ok w; attach := attach w |}.

(** A container answers to its identifier and to its name. *)
Definition named (ref : string) (c : SimContainer) : bool :=
  bool_decide (sim_id c = ref) || bool_decide (sim_name c = String "/" ref).

Definition no_such_container : error := External true "No such container".

Definition bridge : NetworkSettings :=
  {| Networks := {[ "bridge" := {| IPAddress := "172.17.0.2"; GlobalIPv6Address := "" |} ]} |}.

Definition in_state (st : string) (nets : option NetworkSettings) (c : SimContainer)
  : SimContainer :=
  {| sim_id := sim_id c; sim_name := sim_name c; sim_labels := sim_labels c;
     sim_state := st; sim_networks := nets |}.

Definition to_json (c : SimContainer) : ContainerJSON :=
  {| json_ID := sim_id c;
     json_Name := sim_name c;
     json_State :=
       Some {| Running := bool_decide (sim_state c = "running");
               Paused := bool_decide (sim_state c = "paused");
               Dead := bool_decide (sim_state c = "dead");
               OOMKilled := bool_decide (sim_state c = "oom-killed") |};
     json_Config := {| Image := ""; Env := []; Labels := sim_labels c |};
     json_NetworkSettings := sim_networks c |}.

Definition to_summary (c : SimContainer) : Container :=
  {| ID := sim_id c;
     Names := [sim_name c];
     State := sim_state c;
     sum_Labels := sim_labels c |}.

Definition listed (o : ContainerListOptions) (c : SimContainer) : bool :=
  (All o || bool_decide (sim_state c = "running"))
  && forallb (label_filter_holds (sim_labels c)) (elements (Args_Get (Filters o) "label")).

Definition sim_client : DockerClient SimWorld :=
  {| ImagePull := λ ref _ w, (None, with_image w ref);
     ImageInspectWithRaw := λ ref w,
       if negb (store_ok w) then (Some (External false "image store unavailable"), w)
       else if bool_decide (ref ∈ images w) then (None, w)
       else (Some (External true "No such image"), w);
     ContainerCreate := λ config _ name w,
       if existsb (named name) (containers w)
       then (inl (External false "Conflict: name already in use"), w)
       else (inr {| resp_ID := "id-" +:+ name |},
             with_containers w
               (containers w ++
                [ {| sim_id := "id-" +:+ name; sim_name := String "/" name;
                     sim_labels := Labels config; sim_state := "created";
                     sim_networks := None |} ]));
     ContainerStart := λ id w,
       if existsb (named id) (containers w)
       then (None,
             with_containers w
               ((λ c, if named id c then in_state "running" (attach w) c else c)
                  <$> containers w))
       else (Some no_such_container, w);
     ContainerRemove := λ id _ w,
       if bool_decide (id ∈ stuck w)
       then (Some (External false "removal of container is already in progress"), w)
       else if existsb (named id) (containers w)
       then (None, with_containers w (filter (λ c, named id c = false) (containers w)))
       else (Some no_such_container, w);
     ContainerInspect := λ id w,
       match list_find (λ c, named id c = true) (containers w) with
       | Some (_, c) => (inr (to_json c), w)
       | None => (inl no_such_container, w)
       end;
     ContainerList := λ o w,
       (inr (to_summary <$> filter (λ c, listed o c = true) (containers w)), w);
     ContainerStop := λ id _ w,
       if existsb (named id) (containers w)
       then (None,
             with_containers w
               ((λ c, if named id c then in_state "exited" None c else c)
                  <$> containers w))
       else (Some no_such_container, w) |}.

(** Stand-ins for the decoders: a credential file is one [host=auth] line,
    an [auth] blob stands for itself unless it has a byte outside the
    base64 alphabet, credentials encode as [user:pass]. *)
Definition sim_Unmarshal (data : string) : result dockerConfig :=
  match Cut data "=" with
  | (registry, Some auth) => inr {| Auths := {[ registry := {| Auth := auth |} ]} |}
  | (_, None) => inl (External false "unexpected end of JSON input")
  end.

Definition sim_DecodeString (s : string) : result string :=
  if Contains s "!" then inl (External false "illegal base64 data") else inr s.

Definition sim_host (home : result string) (files : gmap string string) : Host :=
  {| url_Parse := Spec.plain_url_Parse;
     os_UserHomeDir := home;
     os_ReadFile := λ path,
       match files !! path with
       | Some data => inr data
       | None => inl (External true "no such file or directory")
       end;
     json_Unmarshal := sim_Unmarshal;
     base64_Std_DecodeString := sim_DecodeString;
     json_Marshal := λ a, inr (Username a +:+ ":" +:+ Password a);
     base64_URL_EncodeToString := λ s, s;
     range_Networks := map_to_list |}.

Lemma sim_host_range home files : range_visits_all (sim_host home files).
Proof. intros m. done. Qed.

Lemma sim_client_honours_label_filters : honours_label_filters sim_client.
Proof.
  intros o w cs w' [= <- <-] c f Hc Hf.
  apply list_elem_of_fmap in Hc as (sc & -> & Hsc).
  apply list_elem_of_filter in Hsc as [Hlisted _].
  unfold listed in Hlisted. apply andb_prop in Hlisted as [_ Hall].
  rewrite forallb_forall in Hall. apply Hall.
  apply list_elem_of_In. by apply elem_of_elements.
Qed.

(** *** Fixtures *)

Definition empty_world : SimWorld :=
  {| images := ∅; containers := []; stuck := ∅; store_ok := true;
     attach := Some bridge |}.

Definition plain_host : Host := sim_host (inr "/root") ∅.

Definition default_config : Config.ProviderConfig := Config.setDefaults Config.zero.


Definition test_provider : Provider :=
  {| ControllerID := "test-controller"; PoolID := "test-pool" |}.

Definition r1 : BootstrapInstance :=
  {| bi_Name := "r1"; bi_Image := "ubuntu:latest";
     bi_RepoURL := "https://github.com/org/repo"; bi_PoolID := "test-pool";
     bi_Flavor := ""; bi_OSType := "linux"; bi_OSArch := "amd64";
     bi_Labels := ["l1"]; bi_GitHubRunnerGroup := ""; bi_MetadataURL := "";
     bi_InstanceToken := ""; bi_CallbackURL := "" |}.

(** The shape of a trace: which engine methods were called, in order. *)
Definition method (ev : Event) : string :=
  match ev with
  | EvImagePull _ _ _ => "ImagePull"
  | EvImageInspectWithRaw _ _ => "ImageInspectWithRaw"
  | EvContainerCreate _ _ _ _ => "ContainerCreate"
  | EvContainerStart _ _ => "ContainerStart"
  | EvContainerRemove _ _ _ => "ContainerRemove"
  | EvContainerInspect _ _ => "ContainerInspect"
  | EvContainerList _ _ => "ContainerList"
  | EvContainerStop _ _ _ => "ContainerStop"
  | EvSlog _ _ => "slog"
  end.

(** The end-to-end scenario: the image is missing, so the provider pulls,
    creates, starts and inspects. *)
Example create_r1_calls :
  method <$> calls (CreateInstance sim_client plain_host default_config
                      test_provider r1 empty_world).2
  = ["ImageInspectWithRaw"; "ImagePull"; "ContainerCreate"; "ContainerStart";
     "ContainerInspect"].
Proof. vm_compute. reflexivity. Qed.

Example create_r1_instance :
  (CreateInstance sim_client plain_host default_config test_provider r1 empty_world).1.1
  = inr {| ProviderID := "id-r1"; Name := "r1"; Status := InstanceRunning;
           OSType := "linux"; OSArch := "amd64"; OSName := "linux";
           OSVersion := "unknown";
           Addresses := SliceOf [ {| addr_Address := "172.17.0.2";
                                     addr_Type := PrivateAddress |} ] |}.
Proof. vm_compute. reflexivity. Qed.

End SimEngine.

(* ===================================================================== *)
(** ** The lifecycle operations meet their specification *)
(* ===================================================================== *)

Module Lifecycle.
Import GoStrings Docker Provider SimEngine.

(** *** Create *)

(** C1.  When [CreateInstance] returns successfully, its last step was the
    inspection of the container, answered by the engine with [inspect], and
    the instance it returns is running, has the identifier of that response,
    the OS type and architecture of the request, the OS name ["linux"], and
    as addresses one entry for each non-empty IPv4 address and one for each
    non-empty IPv6 address of the attached networks of the response. *)
Theorem CreateInstance_returns_running_instance
    {World : Type} (client : DockerClient World) (host : Host)
    (Config : Config.ProviderConfig) (p : Provider)
    (bootstrapParams : BootstrapInstance) (w w' : World)
    (inst : ProviderInstance) (trace : list Event) :
  range_visits_all host →
  CreateInstance client host Config p bootstrapParams w = (inr inst, w', trace) →
  ∃ id inspect w0,
    last trace = Some (EvContainerInspect id (inr inspect)) ∧
    ContainerInspect client id w0 = (inr inspect, w') ∧
    Status inst = InstanceRunning ∧
    ProviderID inst = json_ID inspect ∧
    OSType inst = bi_OSType bootstrapParams ∧
    OSArch inst = bi_OSArch bootstrapParams ∧
    OSName inst = "linux" ∧
    ∃ addrs, Addresses inst = SliceOf addrs ∧ addrs ≡ₚ reportedAddresses inspect.
Proof.
  intros Hrange. rewrite CreateInstance_stages. intros Hrun.
  apply bind_run in Hrun as [(err & _ & [=]) | (np & w1 & t1 & t23 & _ & Hrun & ->)].
  apply bind_run in Hrun as [(err & _ & [=]) | ([] & w2 & t2 & t3 & _ & Hrun & ->)].
  apply launchStage_run in Hrun as (_ & _ & Hok & _).
  destruct (Hok inst eq_refl) as (id & inspect & w0 & before & -> & Hinspect & ->).
  exists id, inspect, w0. rewrite !app_assoc, last_snoc.
  repeat split; try done.
  apply containerToAddresses_reported, Hrange.
Qed.

(** The end-to-end scenario on the in-memory engine. *)
Definition r1_run := CreateInstance sim_client plain_host default_config test_provider r1 empty_world.

Definition r1_instance : ProviderInstance :=
  {| ProviderID := "id-r1"; Name := "r1"; Status := InstanceRunning;
     OSType := "linux"; OSArch := "amd64"; OSName := "linux";
     OSVersion := "unknown";
     Addresses := SliceOf [ private "172.17.0.2" ] |}.

Lemma CreateInstance_returns_running_instance_witness :
  ∃ id inspect w0,
    last r1_run.2 = Some (EvContainerInspect id (inr inspect)) ∧
    ContainerInspect sim_client id w0 = (inr inspect, r1_run.1.2) ∧
    Status r1_instance = InstanceRunning ∧
    ProviderID r1_instance = json_ID inspect ∧
    OSType r1_instance = bi_OSType r1 ∧
    OSArch r1_instance = bi_OSArch r1 ∧
    OSName r1_instance = "linux" ∧
    ∃ addrs, Addresses r1_instance = SliceOf addrs ∧ addrs ≡ₚ reportedAddresses inspect.
Proof.
  apply (CreateInstance_returns_running_instance sim_client plain_host
           default_config test_provider r1 empty_world).
  - apply sim_host_range.
  - vm_compute. reflexivity.
Defined.





(** An engine that starts containers without any network settings. *)
Definition no_network : SimWorld :=
  {| images := ∅; containers := []; stuck := ∅; store_ok := true; attach := None |}.

Definition r1_container : SimContainer :=
  {| sim_id := "id-r1"; sim_name := "/r1";
     sim_labels := Spec.GetContainerLabels "test-controller" r1;
     sim_state := "running"; sim_networks := None |}.

(** *** Delete *)

(** C6.  [DeleteInstance] asks the engine once for a forced removal; it
    returns no error when the removal succeeds and when the engine reports
    the container as not found, and the wrapped error for every other
    failure. *)
Theorem DeleteInstance_not_found_is_success
    {World : Type} (client : DockerClient World) (Config : Config.ProviderConfig)
    (p : Provider) (instance : string) (w w1 : World) (reply : option error) :
  let options :=
    {| Force := true; RemoveVolumes := Config.RemoveVolumes Config |} in
  ContainerRemove client instance options w = (reply, w1) →
  DeleteInstance client Config p instance w
  = (match reply with
     | None => inr tt
     | Some err =>
         if IsErrNotFound err then inr tt
         else inl (Wrapf ("failed to remove container " +:+ instance) err)
     end, w1, [EvContainerRemove instance options reply]).
Proof.
  intros options Hrm. unfold DeleteInstance, bind, callContainerRemove.
  fold options. rewrite Hrm.
  destruct reply as [err|]; [destruct (IsErrNotFound err)|]; reflexivity.
Qed.

(** Deleting an instance the engine does not know succeeds. *)
Lemma DeleteInstance_not_found_is_success_witness :
  DeleteInstance sim_client default_config test_provider "gone" empty_world
  = (inr tt, empty_world,
     [EvContainerRemove "gone" {| Force := true; RemoveVolumes := true |}
        (Some no_such_container)]).
Proof.
  apply (DeleteInstance_not_found_is_success sim_client default_config
           test_provider "gone" empty_world empty_world (Some no_such_container)).
  reflexivity.
Defined.

(** Deleting twice: the second call finds nothing and succeeds as well. *)
Example delete_twice :
  let w1 := r1_run.1.2 in
  let first := DeleteInstance sim_client default_config test_provider "id-r1" w1 in
  let second :=
    DeleteInstance sim_client default_config test_provider "id-r1" first.1.2 in
  first.1.1 = inr tt ∧ second.1.1 = inr tt ∧ containers second.1.2 = [].
Proof. vm_compute. done. Qed.

(** *** Get *)





(** *** List *)

Definition controllerFilter (p : Provider) : string :=
  Spec.GarmControllerIDLabel +:+ "=" +:+ ControllerID p.

Definition poolFilter (poolID : string) : string :=
  Spec.GarmPoolIDLabel +:+ "=" +:+ poolID.

Lemma filters_differ p poolID : poolFilter poolID ≠ controllerFilter p.
Proof.
  unfold poolFilter, controllerFilter, Spec.GarmPoolIDLabel, Spec.GarmControllerIDLabel.
  cbn. intros H. by inversion H.
Qed.

Lemma listFilters_labels p poolID :
  Args_Get (listFilters p poolID) "label"
  = {[controllerFilter p]} ∪ (if decide (poolID = "") then ∅ else {[poolFilter poolID]}).
Proof.
  unfold listFilters, Args_Add, Args_Get, NewArgs.
  fold (controllerFilter p). fold (poolFilter poolID).
  destruct (decide (poolID = "")) as [->|Hne].
  - rewrite decide_False by (by intros ?). rewrite lookup_insert_eq. cbn.
    rewrite lookup_empty. reflexivity.
  - rewrite decide_True by done. rewrite !lookup_insert_eq. cbn.
    rewrite lookup_empty. cbn.
    by rewrite (right_id_L ∅ (∪)), (comm_L (∪)).
Qed.

Lemma listFilters_other_keys p poolID key :
  key ≠ "label" → Args_Get (listFilters p poolID) key = ∅.
Proof.
  intros Hkey. unfold listFilters, Args_Add, Args_Get, NewArgs.
  case_decide; rewrite ?lookup_insert_ne by done; by rewrite lookup_empty.
Qed.

(** A label filter [key=value] with a key free of [=] holds of the labels
    that map the key to the value. *)
Lemma label_filter_equals labels key value :
  Contains key "=" = false →
  label_filter_holds labels (key +:+ "=" +:+ value) = true →
  labels !! key = Some value.
Proof.
  intros Hkey. unfold label_filter_holds.
  change ("=" +:+ value) with (String "=" value).
  rewrite (Cut_first_sep _ _ _ Hkey). apply bool_decide_eq_true.
Qed.

Lemma summary_name_stripped c n rest :
  Names c = String "/" n :: rest → Name (containerSummaryToInstance c) = n.
Proof. intros H. unfold containerSummaryToInstance. by rewrite H. Qed.

Lemma summary_name_kept c first rest :
  Names c = first :: rest → (∀ n, first ≠ String "/" n) →
  Name (containerSummaryToInstance c) = first.
Proof.
  intros H Hfirst. unfold containerSummaryToInstance. rewrite H. cbn.
  destruct first as [|a r]; [done|].
  destruct (decide (a = "/"%char)) as [->|Ha]; [by destruct (Hfirst r)|].
  destruct a as [[] [] [] [] [] [] [] []]; try done.
Qed.

(** C5.  [ListInstances] asks the engine once, for all containers, stopped
    ones included, under [label] filters and no others: the controller-ID
    filter always, the pool-ID filter exactly when the pool ID is not empty.
    An engine that honours label filters therefore lists only containers
    labelled with the controller ID and, when a pool ID is given, with that
    pool ID.  Each summary becomes an instance: the state ["running"] is
    running, ["exited"] is stopped, anything else unknown, and the first
    name loses its leading slash. *)
Theorem ListInstances_query
    {World : Type} (client : DockerClient World) (p : Provider)
    (poolID : string) (w w1 : World) (reply : result (list Container)) :
  let options := {| Filters := listFilters p poolID; All := true |} in
  let labels := Args_Get (Filters options) "label" in
  ContainerList client options w = (reply, w1) →
  ListInstances client p poolID w
  = (match reply with
     | inl err => inl (Wrapf "failed to list containers" err)
     | inr containers => inr (containerSummaryToInstance <$> containers)
     end, w1, [EvContainerList options reply]) ∧
  All options = true ∧
  controllerFilter p ∈ labels ∧
  (poolFilter poolID ∈ labels ↔ poolID ≠ "") ∧
  (∀ f, f ∈ labels → f = controllerFilter p ∨ f = poolFilter poolID) ∧
  (∀ key, key ≠ "label" → Args_Get (Filters options) key = ∅) ∧
  (honours_label_filters client →
   ∀ containers c, reply = inr containers → c ∈ containers →
     sum_Labels c !! Spec.GarmControllerIDLabel = Some (ControllerID p) ∧
     (poolID ≠ "" → sum_Labels c !! Spec.GarmPoolIDLabel = Some poolID)) ∧
  (∀ c : Container,
     (State c = "running" →
      Status (containerSummaryToInstance c) = InstanceRunning) ∧
     (State c = "exited" →
      Status (containerSummaryToInstance c) = InstanceStopped) ∧
     (State c ≠ "running" → State c ≠ "exited" →
      Status (containerSummaryToInstance c) = InstanceStatusUnknown) ∧
     ProviderID (containerSummaryToInstance c) = ID c ∧
     (Names c = [] → Name (containerSummaryToInstance c) = "") ∧
     (∀ n rest, Names c = String "/" n :: rest →
      Name (containerSummaryToInstance c) = n) ∧
     (∀ first rest, Names c = first :: rest → (∀ n, first ≠ String "/" n) →
      Name (containerSummaryToInstance c) = first)).
Proof.
  intros options labels Hlist.
  assert (Hlabels : labels
    = {[controllerFilter p]} ∪ (if decide (poolID = "") then ∅ else {[poolFilter poolID]}))
    by apply listFilters_labels.
  assert (Hcontroller : controllerFilter p ∈ labels).
  { rewrite Hlabels. by apply elem_of_union_l, elem_of_singleton_2. }
  assert (Hpool : poolFilter poolID ∈ labels ↔ poolID ≠ "").
  { rewrite Hlabels, elem_of_union, elem_of_singleton.
    destruct (decide (poolID = "")) as [->|Hne].
    - rewrite elem_of_empty. split; [|done].
      intros [Heq|[]]. by destruct (filters_differ p "").
    - rewrite elem_of_singleton. split; [done|]. intros _. by right. }
  split; [|split; [done|]]; [|split; [done|split; [done|split; [|split; [|split]]]]].
  - unfold ListInstances, bind, callContainerList. fold options. rewrite Hlist.
    by destruct reply.
  - rewrite Hlabels. intros f. rewrite elem_of_union, elem_of_singleton.
    intros [->|Hf]; [by left|]. right.
    destruct (decide (poolID = "")); [by apply elem_of_empty in Hf|].
    by apply elem_of_singleton in Hf.
  - intros key Hkey. by apply listFilters_other_keys.
  - intros Hhonours containers c -> Hc.
    pose proof (Hhonours _ _ _ _ Hlist c) as Hholds. fold labels in Hholds. split.
    + apply label_filter_equals; [done|]. by apply Hholds.
    + intros Hne. apply label_filter_equals; [done|]. apply Hholds; [done|].
      by apply Hpool.
  - intros c. repeat split.
    + intros H. unfold containerSummaryToInstance. cbn. by rewrite decide_True.
    + intros H. unfold containerSummaryToInstance. cbn. rewrite H. done.
    + intros H1 H2. unfold containerSummaryToInstance. cbn.
      by rewrite !decide_False.
    + intros H. unfold containerSummaryToInstance. by rewrite H.
    + intros n rest H. by eapply summary_name_stripped.
    + intros first rest H Hfirst. by eapply summary_name_kept.
Qed.

(** Three runners of the test controller, two in the test pool, and one
    container of another controller. *)
Definition runner (id controller pool st : string) : SimContainer :=
  {| sim_id := id; sim_name := String "/" id;
     sim_labels := {[ Spec.GarmControllerIDLabel := controller;
                      Spec.GarmPoolIDLabel := pool ]};
     sim_state := st; sim_networks := None |}.

Definition fleet : SimWorld :=
  {| images := ∅;
     containers := [ runner "a" "test-controller" "test-pool" "running";
                     runner "b" "test-controller" "other-pool" "running";
                     runner "c" "other-controller" "test-pool" "running";
                     runner "d" "test-controller" "test-pool" "exited" ];
     stuck := {[ "b" ]}; store_ok := true; attach := None |}.

Definition summaries (r : result (list ProviderInstance))
  : list (string * string * InstanceStatus) :=
  match r with
  | inr instances => (λ i, (ProviderID i, Name i, Status i)) <$> instances
  | inl _ => []
  end.

Example list_test_pool :
  summaries (ListInstances sim_client test_provider "test-pool" fleet).1.1
  = [("a", "a", InstanceRunning); ("d", "d", InstanceStopped)].
Proof. vm_compute. reflexivity. Qed.

Example list_all_pools :
  summaries (ListInstances sim_client test_provider "" fleet).1.1
  = [("a", "a", InstanceRunning); ("b", "b", InstanceRunning);
     ("d", "d", InstanceStopped)].
Proof. vm_compute. reflexivity. Qed.

(** Listing the test pool on an engine that honours label filters: the
    two listed containers carry the controller and the pool label. *)
Lemma ListInstances_query_witness :
  ContainerList sim_client
    {| Filters := listFilters test_provider "test-pool"; All := true |} fleet
  = (inr (to_summary <$> [ runner "a" "test-controller" "test-pool" "running";
                           runner "d" "test-controller" "test-pool" "exited" ]),
     fleet) ∧
  Forall (λ c, sum_Labels c !! Spec.GarmControllerIDLabel = Some "test-controller" ∧
               sum_Labels c !! Spec.GarmPoolIDLabel = Some "test-pool")
    (to_summary <$> [ runner "a" "test-controller" "test-pool" "running";
                      runner "d" "test-controller" "test-pool" "exited" ]).
Proof.
  assert (Hlist : ContainerList sim_client
            {| Filters := listFilters test_provider "test-pool"; All := true |} fleet
          = (inr (to_summary <$> [ runner "a" "test-controller" "test-pool" "running";
                                   runner "d" "test-controller" "test-pool" "exited" ]),
             fleet)) by (vm_compute; reflexivity).
  split; [exact Hlist|].
  destruct (ListInstances_query sim_client test_provider "test-pool" fleet fleet _ Hlist)
    as (_ & _ & _ & _ & _ & _ & Hexcl & _).
  apply Forall_forall. intros c Hc.
  destruct (Hexcl sim_client_honours_label_filters _ c eq_refl Hc) as [Hctrl Hpool].
  split; [exact Hctrl | apply Hpool; discriminate].
Defined.

(** *** RemoveAll *)

(** C7.  [RemoveAllInstances] lists the containers of the controller.  It
    returns an error exactly when that listing fails.  When the listing
    succeeds it asks the engine to remove every listed container, in order,
    whatever the engine answers to each removal, and returns no error. *)
Theorem RemoveAllInstances_best_effort
    {World : Type} (client : DockerClient World) (Config : Config.ProviderConfig)
    (p : Provider) (w w1 : World) (reply : result (list Container)) :
  let options :=
    {| Filters := Args_Add NewArgs "label" (controllerFilter p); All := true |} in
  ContainerList client options w = (reply, w1) →
  match reply with
  | inl err =>
      RemoveAllInstances client Config p w
      = (inl (Wrapf "failed to list containers for removal" err), w1,
         [EvContainerList options reply])
  | inr containers =>
      ∃ w' trace,
        RemoveAllInstances client Config p w
        = (inr tt, w', EvContainerList options reply :: trace) ∧
        removed_ids trace = ID <$> containers ∧
        Replays client w1 trace w'
  end.
Proof.
  intros options Hlist. unfold RemoveAllInstances, bind, callContainerList.
  fold (controllerFilter p). fold options. rewrite Hlist.
  destruct reply as [err|containers]; [done|].
  destruct (removeEach_run client Config containers w1) as (w' & trace & -> & Hids & Hrep).
  by exists w', trace.
Qed.

(** Container [b] cannot be removed; [a] and [d] are removed all the same,
    and no error is returned. *)
Lemma RemoveAllInstances_best_effort_witness :
  (RemoveAllInstances sim_client default_config test_provider fleet).1.1 = inr tt ∧
  sim_id <$> containers (RemoveAllInstances sim_client default_config test_provider fleet).1.2
  = ["b"; "c"] ∧
  ∃ w' trace,
    RemoveAllInstances sim_client default_config test_provider fleet
    = (inr tt, w',
       EvContainerList
         {| Filters := Args_Add NewArgs "label" (controllerFilter test_provider);
            All := true |}
         (inr (to_summary <$> [ runner "a" "test-controller" "test-pool" "running";
                                runner "b" "test-controller" "other-pool" "running";
                                runner "d" "test-controller" "test-pool" "exited" ]))
       :: trace) ∧
    removed_ids trace = ["a"; "b"; "d"].
Proof.
  split; [vm_compute; reflexivity|]. split; [vm_compute; reflexivity|].
  assert (Hlist : ContainerList sim_client
            {| Filters := Args_Add NewArgs "label" (controllerFilter test_provider);
               All := true |} fleet
          = (inr (to_summary <$> [ runner "a" "test-controller" "test-pool" "running";
                                   runner "b" "test-controller" "other-pool" "running";
                                   runner "d" "test-controller" "test-pool" "exited" ]),
             fleet)) by (vm_compute; reflexivity).
  destruct (RemoveAllInstances_best_effort sim_client default_config test_provider
              fleet fleet _ Hlist) as (w' & trace & Hrun & Hids & _).
  exists w', trace. split; [exact Hrun | exact Hids].
Defined.

(** *** Registry credentials *)

(** C8.  [getRegistryAuth] never returns an error: on every image
    reference, in every environment, it returns a string, calls the engine
    not at all and leaves it as it was; and the string is empty on every
    failure path (no home directory, unreadable file, unparsable content,
    no entry for the registry, undecodable entry, entry without a colon,
    credentials that do not encode).  The registry is the first
    slash-separated part of the reference when the reference has a slash
    and that part has a dot or a colon, and ["docker.io"] otherwise. *)
Theorem getRegistryAuth_never_fails
    {World : Type} (host : Host) (Config : Config.ProviderConfig)
    (image : string) (w : World) :
  (∃ authStr logs,
     getRegistryAuth host Config image w = (inr authStr, w, logs) ∧
     calls logs = [] ∧
     (ResolutionFails host Config image → authStr = "")) ∧
  (∀ first rest,
     image = first +:+ String "/" rest → Contains first "/" = false →
     registryHostOf image
     = if Contains first "." || Contains first ":" then first else "docker.io") ∧
  (Contains image "/" = false → registryHostOf image = "docker.io").
Proof.
  split; [|split].
  - destruct (getRegistryAuth_run host Config image w)
      as (authStr & logs & Hrun & Hlogs & Hresolved).
    exists authStr, logs. split; [done|]. split; [done|]. intros Hfails.
    destruct (decide (authStr = "")) as [|Hne]; [done|].
    by destruct (resolved_not_failed host Config image authStr (Hresolved Hne)).
  - intros first rest -> Hfirst.
    destruct (Contains first "." || Contains first ":") eqn:Hdot.
    + by apply registryHostOf_explicit.
    + by apply registryHostOf_plain_first.
  - apply registryHostOf_no_slash.
Qed.

(** With no credential file the resolver gives the empty string; the
    registry of a reference is read off its first part. *)
Lemma getRegistryAuth_never_fails_witness :
  (∃ logs,
     getRegistryAuth plain_host default_config "ghcr.io/user/image:tag" empty_world
     = (inr "", empty_world, logs)) ∧
  registryHostOf "ghcr.io/user/image:tag" = "ghcr.io" ∧
  registryHostOf "localhost:5000/runner" = "localhost:5000" ∧
  registryHostOf "library/ubuntu" = "docker.io" ∧
  registryHostOf "ubuntu:latest" = "docker.io".
Proof.
  split; [|split; [|split; [|split]]].
  - destruct (proj1 (getRegistryAuth_never_fails plain_host default_config
                       "ghcr.io/user/image:tag" empty_world))
      as (authStr & logs & Hrun & _ & Hempty).
    exists logs. rewrite Hrun. rewrite Hempty; [reflexivity|].
    by apply (Unreadable plain_host default_config _ "/root/.docker/config.json"
                (External true "no such file or directory")).
  - exact (proj1 (proj2 (getRegistryAuth_never_fails plain_host default_config
                           "ghcr.io/user/image:tag" empty_world))
             "ghcr.io" "user/image:tag" eq_refl eq_refl).
  - exact (proj1 (proj2 (getRegistryAuth_never_fails plain_host default_config
                           "localhost:5000/runner" empty_world))
             "localhost:5000" "runner" eq_refl eq_refl).
  - exact (proj1 (proj2 (getRegistryAuth_never_fails plain_host default_config
                           "library/ubuntu" empty_world))
             "library" "ubuntu" eq_refl eq_refl).
  - exact (proj2 (proj2 (getRegistryAuth_never_fails plain_host default_config
                           "ubuntu:latest" empty_world)) eq_refl).
Defined.

(** A credential file with an entry for the registry of the image. *)
Definition ghcr_host : Host :=
  sim_host (inr "/root") {[ "/root/.docker/config.json" := "ghcr.io=alice:s3cret" ]}.

Example credentials_found :
  (getRegistryAuth ghcr_host default_config "ghcr.io/user/image:tag" empty_world).1.1
  = inr "alice:s3cret".
Proof. vm_compute. reflexivity. Qed.

Example credentials_for_other_registry :
  (getRegistryAuth ghcr_host default_config "ubuntu:latest" empty_world).1.1 = inr "".
Proof. vm_compute. reflexivity. Qed.

(** *** Traces are faithful

    The trace of every operation replays on the engine: each recorded call
    was made in the world the previous one left, and was answered as
    recorded. *)
Section Soundness.
Context {World : Type}.
Variable client : DockerClient World.
Variable host : Host.
Variable Config : Config.ProviderConfig.

Definition Sound {A} (m : M World A) : Prop :=
  ∀ w r w' t, m w = (r, w', t) → Replays client w t w'.

Lemma Sound_ret {A} (a : A) : Sound (ret a).
Proof. intros w r w' t [= <- <- <-]. constructor. Qed.

Lemma Sound_fail {A} err : Sound (fail (A := A) err).
Proof. intros w r w' t [= <- <- <-]. constructor. Qed.

Lemma Sound_slog level msg : Sound (slog level msg).
Proof. intros w r w' t [= <- <- <-]. by apply Replays_one. Qed.

Lemma Sound_bind {A B} (m : M World A) (f : A → M World B) :
  Sound m → (∀ a, Sound (f a)) → Sound (bind m f).
Proof.
  intros Hm Hf w r w' t Hrun.
  apply bind_run in Hrun as [(err & Hrun & _) | (a & w1 & t1 & t2 & Hrun & Hk & ->)].
  - by eapply Hm.
  - eapply Replays_app; [by eapply Hm | by eapply Hf].
Qed.

Lemma Sound_calls :
  (∀ ref o, Sound (callImagePull client ref o)) ∧
  (∀ ref, Sound (callImageInspectWithRaw client ref)) ∧
  (∀ c h n, Sound (callContainerCreate client c h n)) ∧
  (∀ id, Sound (callContainerStart client id)) ∧
  (∀ id o, Sound (callContainerRemove client id o)) ∧
  (∀ id, Sound (callContainerInspect client id)) ∧
  (∀ o, Sound (callContainerList client o)) ∧
  (∀ id o, Sound (callContainerStop client id o)).
Proof.
  repeat split; intros; intros w r w' t;
    unfold callImagePull, callImageInspectWithRaw, callContainerCreate,
      callContainerStart, callContainerRemove, callContainerInspect,
      callContainerList, callContainerStop;
    match goal with |- context [let '(_, _) := ?call in _] =>
      destruct call as [reply w1] eqn:Hcall end;
    intros [= <- <- <-]; by apply Replays_one.
Qed.

Ltac sound_step :=
  first
    [ apply Sound_ret | apply Sound_fail | apply Sound_slog
    | apply Sound_calls
    | apply Sound_bind; [|intros ?]
    | match goal with
      | |- Sound (match ?x with _ => _ end) => destruct x
      | |- Sound (if ?b then _ else _) => destruct b
      end ].

Lemma Sound_getRegistryAuth image : Sound (getRegistryAuth host Config image).
Proof.
  intros w r w' t Hrun.
  destruct (getRegistryAuth_run host Config image w) as (authStr & logs & Hauth & Hlogs & _).
  rewrite Hauth in Hrun. injection Hrun as _ <- <-. clear Hauth.
  induction logs as [|ev logs IH]; [constructor|].
  unfold calls in Hlogs. rewrite filter_cons in Hlogs.
  destruct ev; try done. eapply Replays_cons; [done|]. by apply IH.
Qed.

Lemma Sound_CreateInstance p bootstrapParams :
  Sound (CreateInstance client host Config p bootstrapParams).
Proof.
  unfold CreateInstance.
  repeat first [ apply Sound_getRegistryAuth | sound_step ].
Qed.

Lemma Sound_DeleteInstance p instance : Sound (DeleteInstance client Config p instance).
Proof. unfold DeleteInstance. repeat sound_step. Qed.

Lemma Sound_GetInstance p instance : Sound (GetInstance client p instance).
Proof. unfold GetInstance. repeat sound_step. Qed.

Lemma Sound_ListInstances p poolID : Sound (ListInstances client p poolID).
Proof. unfold ListInstances. repeat sound_step. Qed.

Lemma Sound_removeEach containers : Sound (removeEach client Config containers).
Proof. induction containers; simpl; repeat sound_step; done. Qed.

Lemma Sound_RemoveAllInstances p : Sound (RemoveAllInstances client Config p).
Proof.
  unfold RemoveAllInstances.
  repeat first [ apply Sound_removeEach | sound_step ].
Qed.

Lemma Sound_Stop p instance force : Sound (Stop client p instance force).
Proof. unfold Stop. repeat sound_step. Qed.

Lemma Sound_Start p instance : Sound (Start client p instance).
Proof. unfold Start. repeat sound_step. Qed.
End Soundness.

End Lifecycle.

(* ===================================================================== *)
(** ** Further properties of the scope extractor and the builders *)
(* ===================================================================== *)

Module SpecFacts.
Import GoStrings Spec.

(** X1.  Extraction succeeds exactly on a non-empty address that parses,
    has a scheme and a host, and whose trimmed path splits into at most two
    parts. *)
Theorem Extract_succeeds_iff (url_Parse : string → result URL) (raw : string) :
  (∃ scope, ExtractGitHubScopeDetails url_Parse raw = inr scope) ↔
  raw ≠ "" ∧
  ∃ u, url_Parse raw = inr u ∧ Scheme u ≠ "" ∧ Host u ≠ "" ∧
       length (Split (Trim (Path u) "/") "/") ≤ 2.
Proof.
  split.
  - intros [scope Hok].
    destruct (decide (raw = "")) as [->|Hraw]; [by rewrite Extract_empty in Hok|].
    split; [done|].
    destruct (url_Parse raw) as [err|u] eqn:Hparse;
      [by rewrite (Extract_unparsable _ _ _ Hraw Hparse) in Hok|].
    exists u. split; [done|].
    destruct (decide (Scheme u = "")) as [Hs|Hs];
      [by rewrite (Extract_no_scheme_or_host _ _ _ Hraw Hparse (or_introl Hs)) in Hok|].
    destruct (decide (Host u = "")) as [Hh|Hh];
      [by rewrite (Extract_no_scheme_or_host _ _ _ Hraw Hparse (or_intror Hh)) in Hok|].
    split; [done|]. split; [done|].
    rewrite (Extract_by_parts _ _ _ Hraw Hparse Hs Hh) in Hok. cbv zeta in Hok.
    destruct (Split _ _) as [|a [|b [|c rest]]]; simpl; try lia; done.
  - intros (Hraw & u & Hparse & Hs & Hh & Hlen).
    rewrite (Extract_by_parts _ _ _ Hraw Hparse Hs Hh). cbv zeta.
    pose proof (Split_nonempty (Trim (Path u) "/") "/") as Hne.
    destruct (Split _ _) as [|a [|b [|c rest]]]; [done|by eexists|..].
    + destruct (decide (a = "enterprises")); by eexists.
    + simpl in Hlen. lia.
Qed.

(** X2.  A scope never names both an enterprise and an organisation or a
    repository; and since a first part [enterprises] always selects the
    enterprise case, a scope with a repository never has the organisation
    [enterprises]. *)
Theorem Extract_scope_exclusive
    (url_Parse : string → result URL) (raw : string) (scope : GitHubScopeDetails) :
  ExtractGitHubScopeDetails url_Parse raw = inr scope →
  (Enterprise scope = "" ∨ (Org scope = "" ∧ Repo scope = "")) ∧
  (Repo scope ≠ "" → Org scope ≠ "enterprises").
Proof.
  intros Hok.
  destruct (decide (raw = "")) as [->|Hraw]; [by rewrite Extract_empty in Hok|].
  destruct (url_Parse raw) as [err|u] eqn:Hparse;
    [by rewrite (Extract_unparsable _ _ _ Hraw Hparse) in Hok|].
  destruct (decide (Scheme u = "")) as [Hs|Hs];
    [by rewrite (Extract_no_scheme_or_host _ _ _ Hraw Hparse (or_introl Hs)) in Hok|].
  destruct (decide (Host u = "")) as [Hh|Hh];
    [by rewrite (Extract_no_scheme_or_host _ _ _ Hraw Hparse (or_intror Hh)) in Hok|].
  rewrite (Extract_by_parts _ _ _ Hraw Hparse Hs Hh) in Hok. cbv zeta in Hok.
  destruct (Split _ _) as [|a [|b [|c rest]]]; [done| |..|done].
  - injection Hok as <-. split; [by left | done].
  - destruct (decide (a = "enterprises")) as [->|Ha]; injection Hok as <-; simpl.
    + split; [by right | done].
    + split; [by left | done].
Qed.

Lemma Extract_scope_exclusive_witness :
  ExtractGitHubScopeDetails plain_url_Parse "https://github.com/enterprises/foo"
  = inr {| BaseURL := "https://github.com"; Repo := ""; Org := ""; Enterprise := "foo" |} ∧
  (("foo" = "" ∨ ("" = "" ∧ "" = "")) ∧ ("" ≠ "" → "" ≠ "enterprises")).
Proof.
  split; [reflexivity|].
  exact (Extract_scope_exclusive plain_url_Parse "https://github.com/enterprises/foo"
           {| BaseURL := "https://github.com"; Repo := ""; Org := ""; Enterprise := "foo" |}
           eq_refl).
Defined.

(** X3.  Slashes around the path do not matter: two addresses with scheme
    and host that parse to the same scheme, the same host and paths that
    are equal once trimmed extract to the same result. *)
Theorem Extract_ignores_outer_slashes
    (url_Parse : string → result URL) (raw1 raw2 : string) (u1 u2 : URL) :
  raw1 ≠ "" → raw2 ≠ "" →
  url_Parse raw1 = inr u1 → url_Parse raw2 = inr u2 →
  Scheme u1 ≠ "" → Host u1 ≠ "" →
  Scheme u2 = Scheme u1 → Host u2 = Host u1 →
  Trim (Path u2) "/" = Trim (Path u1) "/" →
  ExtractGitHubScopeDetails url_Parse raw2 = ExtractGitHubScopeDetails url_Parse raw1.
Proof.
  intros Hr1 Hr2 Hp1 Hp2 Hs Hh Hs2 Hh2 Hpath.
  rewrite (Extract_by_parts _ _ _ Hr1 Hp1 Hs Hh).
  rewrite (Extract_by_parts _ _ _ Hr2 Hp2) by congruence.
  by rewrite Hs2, Hh2, Hpath.
Qed.

Lemma Extract_ignores_outer_slashes_witness :
  ExtractGitHubScopeDetails plain_url_Parse "https://github.com//org/repo/"
  = ExtractGitHubScopeDetails plain_url_Parse "https://github.com/org/repo".
Proof.
  apply (Extract_ignores_outer_slashes plain_url_Parse
           "https://github.com/org/repo" "https://github.com//org/repo/"
           {| Scheme := "https"; Host := "github.com"; Path := "/org/repo" |}
           {| Scheme := "https"; Host := "github.com"; Path := "//org/repo/" |});
    done.
Defined.

(** X4.  [GetRunnerEnvs] fails exactly when the scope extraction fails,
    with the same error.  Otherwise it gives fifteen [KEY=VALUE] entries in
    a fixed order, and each entry reads back, cut at its first [=], as its
    key and the value it was built from, whatever that value contains. *)
Theorem GetRunnerEnvs_entries
    (url_Parse : string → result URL) (bootstrapParams : BootstrapInstance) :
  match ExtractGitHubScopeDetails url_Parse (bi_RepoURL bootstrapParams) with
  | inl err => GetRunnerEnvs url_Parse bootstrapParams = inl err
  | inr scope =>
      ∃ envs,
        GetRunnerEnvs url_Parse bootstrapParams = inr envs ∧
        (λ entry, Cut entry "=") <$> envs
        = [ ("RUNNER_ORG", Some (Org scope));
            ("RUNNER_REPO", Some (Repo scope));
            ("RUNNER_ENTERPRISE", Some (Enterprise scope));
            ("RUNNER_GROUP", Some (bi_GitHubRunnerGroup bootstrapParams));
            ("RUNNER_NAME", Some (bi_Name bootstrapParams));
            ("RUNNER_LABELS", Some (Join (bi_Labels bootstrapParams) ","));
            ("RUNNER_NO_DEFAULT_LABELS", Some "true");
            ("DISABLE_RUNNER_UPDATE", Some "true");
            ("RUNNER_WORKDIR", Some "/runner/_work/");
            ("GITHUB_URL", Some (BaseURL scope));
            ("RUNNER_EPHEMERAL", Some "true");
            ("RUNNER_TOKEN", Some "dummy");
            ("METADATA_URL", Some (bi_MetadataURL bootstrapParams));
            ("BEARER_TOKEN", Some (bi_InstanceToken bootstrapParams));
            ("CALLBACK_URL", Some (bi_CallbackURL bootstrapParams)) ]
  end.
Proof.
  unfold GetRunnerEnvs.
  destruct (ExtractGitHubScopeDetails url_Parse (bi_RepoURL bootstrapParams))
    as [err|scope]; [done|].
  eexists. split; [reflexivity|].
  cbn [fmap list_fmap].
  repeat (f_equal; [by apply (Cut_first_sep _ _ "="%char)|]).
  done.
Qed.

Definition labelKeys : list string :=
  [ GarmInstanceNameLabel; GarmControllerIDLabel; GarmPoolIDLabel;
    GarmFlavorLabel; GarmOSTypeLabel; GarmOSArchLabel ].

(** X5.  [GetContainerLabels] sets the six label keys and no other, for
    every controller and request, empty fields included, and each key reads
    back the field it was written from. *)
Theorem GetContainerLabels_complete
    (controllerID : string) (bootstrapParams : BootstrapInstance) :
  let labels := GetContainerLabels controllerID bootstrapParams in
  labels !! GarmInstanceNameLabel = Some (bi_Name bootstrapParams) ∧
  labels !! GarmControllerIDLabel = Some controllerID ∧
  labels !! GarmPoolIDLabel = Some (bi_PoolID bootstrapParams) ∧
  labels !! GarmFlavorLabel = Some (bi_Flavor bootstrapParams) ∧
  labels !! GarmOSTypeLabel = Some (bi_OSType bootstrapParams) ∧
  labels !! GarmOSArchLabel = Some (bi_OSArch bootstrapParams) ∧
  (∀ key, is_Some (labels !! key) ↔ key ∈ labelKeys) ∧
  size labels = 6.
Proof.
  intros labels. subst labels. unfold GetContainerLabels.
  split; [by simplify_map_eq|]. split; [by simplify_map_eq|].
  split; [by simplify_map_eq|]. split; [by simplify_map_eq|].
  split; [by simplify_map_eq|]. split; [by simplify_map_eq|].
  split; [split|].
  - intros Hsome. unfold labelKeys. rewrite !elem_of_cons.
    rewrite !lookup_insert_is_Some, lookup_empty in Hsome.
    destruct Hsome as [<-|[_ [<-|[_ [<-|[_ [<-|[_ [<-|[_ [<-|[_ [? ?]]]]]]]]]]]]];
      by eauto 10.
  - unfold labelKeys. rewrite !elem_of_cons, elem_of_nil.
    intros [->|[->|[->|[->|[->|[->|[]]]]]]]; by simplify_map_eq.
  - rewrite !map_size_insert_None; [done|by simplify_map_eq..].
Qed.

End SpecFacts.

(* ===================================================================== *)
(** ** Further properties of the configuration *)
(* ===================================================================== *)

Module ConfigFacts.
Import Config.

(** The four statements of [setDefaults], one at a time. *)
Definition fillDockerHost (c : ProviderConfig) : ProviderConfig :=
  if decide (DockerHost c = "")
  then {| DockerHost := "unix:///var/run/docker.sock"; Runtime := Runtime c;
          Network := Network c; RemoveVolumes := RemoveVolumes c;
          Privileged := Privileged c; Binds := Binds c;
          AlwaysPull := AlwaysPull c; DockerConfigPath := DockerConfigPath c |}
  else c.

Definition fillRuntime (c : ProviderConfig) : ProviderConfig :=
  if decide (Runtime c = "")
  then {| DockerHost := DockerHost c; Runtime := "sysbox-runc";
          Network := Network c; RemoveVolumes := RemoveVolumes c;
          Privileged := Privileged c; Binds := Binds c;
          AlwaysPull := AlwaysPull c; DockerConfigPath := DockerConfigPath c |}
  else c.

Definition fillNetwork (c : ProviderConfig) : ProviderConfig :=
  if decide (Network c = "")
  then {| DockerHost := DockerHost c; Runtime := Runtime c;
          Network := "bridge"; RemoveVolumes := RemoveVolumes c;
          Privileged := Privileged c; Binds := Binds c;
          AlwaysPull := AlwaysPull c; DockerConfigPath := DockerConfigPath c |}
  else c.

Definition forceRemoveVolumes (c : ProviderConfig) : ProviderConfig :=
  if negb (RemoveVolumes c)
  then {| DockerHost := DockerHost c; Runtime := Runtime c;
          Network := Network c; RemoveVolumes := true;
          Privileged := Privileged c; Binds := Binds c;
          AlwaysPull := AlwaysPull c; DockerConfigPath := DockerConfigPath c |}
  else c.

Lemma setDefaults_steps c :
  setDefaults c = forceRemoveVolumes (fillNetwork (fillRuntime (fillDockerHost c))).
Proof. reflexivity. Qed.

Definition orDefault (value fallback : string) : string :=
  if decide (value = "") then fallback else value.

Lemma fillDockerHost_eq c :
  fillDockerHost c
  = {| DockerHost := orDefault (DockerHost c) "unix:///var/run/docker.sock";
       Runtime := Runtime c; Network := Network c;
       RemoveVolumes := RemoveVolumes c; Privileged := Privileged c;
       Binds := Binds c; AlwaysPull := AlwaysPull c;
       DockerConfigPath := DockerConfigPath c |}.
Proof.
  destruct c as [dh rt nw rv pv bs ap dc]. unfold fillDockerHost, orDefault.
  cbn [DockerHost Runtime Network RemoveVolumes Privileged Binds AlwaysPull
       DockerConfigPath].
  by destruct (decide (dh = "")).
Qed.

Lemma fillRuntime_eq c :
  fillRuntime c
  = {| DockerHost := DockerHost c; Runtime := orDefault (Runtime c) "sysbox-runc";
       Network := Network c;
       RemoveVolumes := RemoveVolumes c; Privileged := Privileged c;
       Binds := Binds c; AlwaysPull := AlwaysPull c;
       DockerConfigPath := DockerConfigPath c |}.
Proof.
  destruct c as [dh rt nw rv pv bs ap dc]. unfold fillRuntime, orDefault.
  cbn [DockerHost Runtime Network RemoveVolumes Privileged Binds AlwaysPull
       DockerConfigPath].
  by destruct (decide (rt = "")).
Qed.

Lemma fillNetwork_eq c :
  fillNetwork c
  = {| DockerHost := DockerHost c; Runtime := Runtime c;
       Network := orDefault (Network c) "bridge";
       RemoveVolumes := RemoveVolumes c; Privileged := Privileged c;
       Binds := Binds c; AlwaysPull := AlwaysPull c;
       DockerConfigPath := DockerConfigPath c |}.
Proof.
  destruct c as [dh rt nw rv pv bs ap dc]. unfold fillNetwork, orDefault.
  cbn [DockerHost Runtime Network RemoveVolumes Privileged Binds AlwaysPull
       DockerConfigPath].
  by destruct (decide (nw = "")).
Qed.

Lemma forceRemoveVolumes_eq c :
  forceRemoveVolumes c
  = {| DockerHost := DockerHost c; Runtime := Runtime c; Network := Network c;
       RemoveVolumes := true; Privileged := Privileged c;
       Binds := Binds c; AlwaysPull := AlwaysPull c;
       DockerConfigPath := DockerConfigPath c |}.
Proof.
  destruct c as [dh rt nw rv pv bs ap dc]. unfold forceRemoveVolumes.
  cbn [DockerHost Runtime Network RemoveVolumes Privileged Binds AlwaysPull
       DockerConfigPath].
  by destruct rv.
Qed.

(** [setDefaults] in one record. *)
Lemma setDefaults_eq c :
  setDefaults c
  = {| DockerHost := orDefault (DockerHost c) "unix:///var/run/docker.sock";
       Runtime := orDefault (Runtime c) "sysbox-runc";
       Network := orDefault (Network c) "bridge";
       RemoveVolumes := true; Privileged := Privileged c;
       Binds := Binds c; AlwaysPull := AlwaysPull c;
       DockerConfigPath := DockerConfigPath c |}.
Proof.
  rewrite setDefaults_steps, forceRemoveVolumes_eq, fillNetwork_eq, fillRuntime_eq,
    fillDockerHost_eq.
  reflexivity.
Qed.

Lemma orDefault_nonempty value fallback : fallback ≠ "" → orDefault value fallback ≠ "".
Proof. intros H. unfold orDefault. by destruct (decide (value = "")). Qed.

Lemma orDefault_set value fallback : value ≠ "" → orDefault value fallback = value.
Proof. intros H. unfold orDefault. by rewrite decide_False. Qed.

Lemma orDefault_unset fallback : orDefault "" fallback = fallback.
Proof. unfold orDefault. by rewrite decide_True. Qed.

(** X6.  [setDefaults] leaves no endpoint, runtime or network empty, keeps
    every value that was set, does not touch the privileged flag, the bind
    mounts, the always-pull flag or the credential path, and applying it
    again changes nothing. *)
Theorem setDefaults_normalises (c : ProviderConfig) :
  let d := setDefaults c in
  DockerHost d ≠ "" ∧ Runtime d ≠ "" ∧ Network d ≠ "" ∧
  (DockerHost c ≠ "" → DockerHost d = DockerHost c) ∧
  (Runtime c ≠ "" → Runtime d = Runtime c) ∧
  (Network c ≠ "" → Network d = Network c) ∧
  (DockerHost c = "" → DockerHost d = "unix:///var/run/docker.sock") ∧
  (Runtime c = "" → Runtime d = "sysbox-runc") ∧
  (Network c = "" → Network d = "bridge") ∧
  Privileged d = Privileged c ∧ Binds d = Binds c ∧
  AlwaysPull d = AlwaysPull c ∧ DockerConfigPath d = DockerConfigPath c ∧
  setDefaults d = d.
Proof.
  cbv zeta.
  assert (Hdh : orDefault (DockerHost c) "unix:///var/run/docker.sock" ≠ "")
    by (by apply orDefault_nonempty).
  assert (Hrt : orDefault (Runtime c) "sysbox-runc" ≠ "")
    by (by apply orDefault_nonempty).
  assert (Hnw : orDefault (Network c) "bridge" ≠ "")
    by (by apply orDefault_nonempty).
  rewrite (setDefaults_eq (setDefaults c)). rewrite (setDefaults_eq c).
  cbn [DockerHost Runtime Network RemoveVolumes Privileged Binds AlwaysPull
       DockerConfigPath].
  split; [done|]. split; [done|]. split; [done|].
  split; [by apply orDefault_set|]. split; [by apply orDefault_set|].
  split; [by apply orDefault_set|].
  split; [intros ->; apply orDefault_unset|].
  split; [intros ->; apply orDefault_unset|].
  split; [intros ->; apply orDefault_unset|].
  split; [done|]. split; [done|]. split; [done|]. split; [done|].
  by rewrite (orDefault_set _ _ Hdh), (orDefault_set _ _ Hrt), (orDefault_set _ _ Hnw).
Qed.

(** The koanf instance [NewConfig] unmarshals: the fresh one when the path
    is empty, and otherwise the one the load of the file at that path
    returned. *)
Definition loadedFrom {Koanf : Type} (koanf_New : Koanf)
    (koanf_Load : Koanf → string → result Koanf) (path : string) (k : Koanf) : Prop :=
  (path = "" ∧ k = koanf_New) ∨ (path ≠ "" ∧ koanf_Load koanf_New path = inr k).

(** X7.  The outcomes of [NewConfig].  On success the package variable is
    the configuration unmarshalled from the instance loaded from the file at
    the given path (the fresh instance when the path is empty), with the
    defaults applied, so its endpoint, runtime and network are not empty.
    An error is either the wrapped load error, with the package variable
    untouched and a path that was given, or the wrapped error of
    unmarshalling that loaded instance, with the variable as the decoder
    left it and no defaults applied.  With an empty path no file is loaded
    at all. *)
Theorem NewConfig_outcomes
    {Koanf : Type} (koanf_New : Koanf)
    (koanf_Load : Koanf → string → result Koanf)
    (koanf_Unmarshal : Koanf → ProviderConfig → option error * ProviderConfig)
    (path : string) (Config : ProviderConfig) :
  match NewConfig koanf_New koanf_Load koanf_Unmarshal path Config with
  | (None, Config') =>
      (∃ k decoded,
         loadedFrom koanf_New koanf_Load path k ∧
         koanf_Unmarshal k Config = (None, decoded) ∧ Config' = setDefaults decoded) ∧
      DockerHost Config' ≠ "" ∧ Runtime Config' ≠ "" ∧ Network Config' ≠ ""
  | (Some err, Config') =>
      (path ≠ "" ∧ Config' = Config ∧
       ∃ cause, koanf_Load koanf_New path = inl cause ∧
                err = Wrapf "failed to load config" cause) ∨
      (∃ k cause,
         loadedFrom koanf_New koanf_Load path k ∧
         koanf_Unmarshal k Config = (Some cause, Config') ∧
         err = Wrapf "failed to unmarshal config" cause)
  end ∧
  (path = "" →
   NewConfig koanf_New koanf_Load koanf_Unmarshal path Config
   = match koanf_Unmarshal koanf_New Config with
     | (Some cause, Config') => (Some (Wrapf "failed to unmarshal config" cause), Config')
     | (None, decoded) => (None, setDefaults decoded)
     end).
Proof.
  assert (Hfilled : ∀ decoded,
    DockerHost (setDefaults decoded) ≠ "" ∧ Runtime (setDefaults decoded) ≠ "" ∧
    Network (setDefaults decoded) ≠ "").
  { intros decoded. rewrite setDefaults_eq.
    cbn [DockerHost Runtime Network]. repeat split; by apply orDefault_nonempty. }
  unfold NewConfig, loadedFrom. split.
  - destruct (decide (path ≠ "")) as [Hpath|Hpath].
    + destruct (koanf_Load koanf_New path) as [cause|k] eqn:Hload.
      { left. split; [done|]. split; [done|]. by exists cause. }
      destruct (koanf_Unmarshal k Config) as [[cause|] decoded] eqn:Hdec.
      * right. exists k, cause. split; [by right|]. done.
      * split; [|apply Hfilled]. exists k, decoded. split; [by right|]. done.
    + assert (path = "") as Hempty by (by destruct (decide (path = ""))).
      destruct (koanf_Unmarshal koanf_New Config) as [[cause|] decoded] eqn:Hdec.
      * right. exists koanf_New, cause. split; [by left|]. done.
      * split; [|apply Hfilled]. exists koanf_New, decoded. split; [by left|]. done.
  - intros ->. rewrite decide_False by (by intros ?).
    by destruct (koanf_Unmarshal koanf_New Config) as [[cause|] decoded].
Qed.

(** A file that is there is loaded and decoded, and the defaults are
    applied to what it holds; a missing file gives the load error and
    writes nothing; an empty path decodes the fresh instance. *)
Lemma NewConfig_outcomes_witness :
  ((∃ k decoded,
      loadedFrom (∅ : Document) (load_from keep_volumes_fs) "/etc/garm/docker.yaml" k ∧
      decode k zero = (None, decoded) ∧
      (NewConfig_on keep_volumes_fs "/etc/garm/docker.yaml" zero).2 = setDefaults decoded) ∧
   DockerHost (NewConfig_on keep_volumes_fs "/etc/garm/docker.yaml" zero).2 ≠ "" ∧
   Runtime (NewConfig_on keep_volumes_fs "/etc/garm/docker.yaml" zero).2 ≠ "" ∧
   Network (NewConfig_on keep_volumes_fs "/etc/garm/docker.yaml" zero).2 ≠ "") ∧
  DockerHost (NewConfig_on keep_volumes_fs "/etc/garm/docker.yaml" zero).2
  = "unix:///run/docker.sock" ∧
  NewConfig_on keep_volumes_fs "/nowhere.yaml" zero
  = (Some (Wrapf "failed to load config" (External true "no such file")), zero) ∧
  NewConfig_on keep_volumes_fs "" zero = (None, setDefaults zero).
Proof.
  split; [|split; [vm_compute; reflexivity|split; [vm_compute; reflexivity|]]].
  - exact (proj1 (NewConfig_outcomes (∅ : Document) (load_from keep_volumes_fs) decode
                    "/etc/garm/docker.yaml" zero)).
  - exact (proj2 (NewConfig_outcomes (∅ : Document) (load_from keep_volumes_fs) decode
                    "" zero) eq_refl).
Defined.

End ConfigFacts.

(* ===================================================================== *)
(** ** Further properties of the provider *)
(* ===================================================================== *)

Module ProviderFacts.
Import GoStrings Docker Provider SimEngine Lifecycle.

(** *** Labels written at creation, read back later *)



(** A label a container does not carry reads as the empty string. *)
Lemma label_missing labels key : labels !! key = None → label labels key = "".
Proof. intros H. unfold label. by rewrite H. Qed.

Lemma label_filter_holds_eq labels key value :
  Contains key "=" = false →
  label_filter_holds labels (key +:+ "=" +:+ value)
  = bool_decide (labels !! key = Some value).
Proof.
  intros Hkey. unfold label_filter_holds.
  change ("=" +:+ value) with (String "=" value).
  by rewrite (Cut_first_sep _ _ _ Hkey).
Qed.

(** X9.  Ownership.  The labels written for a request under a controller
    satisfy all the filters of [ListInstances] exactly when the controller
    is the provider's and the pool asked for is empty or the pool of the
    request: a container of another controller, or of another pool when one
    is asked for, is never selected. *)
Theorem listFilters_select_own
    (controllerID : string) (bootstrapParams : BootstrapInstance)
    (p : Provider) (poolID : string) :
  (∀ f, f ∈ Args_Get (listFilters p poolID) "label" →
        label_filter_holds (Spec.GetContainerLabels controllerID bootstrapParams) f = true)
  ↔ controllerID = ControllerID p ∧ (poolID = "" ∨ poolID = bi_PoolID bootstrapParams).
Proof.
  rewrite listFilters_labels.
  assert (Hctrl : ∀ v,
    label_filter_holds (Spec.GetContainerLabels controllerID bootstrapParams)
      (Spec.GarmControllerIDLabel +:+ "=" +:+ v) = true ↔ controllerID = v).
  { intros v. rewrite label_filter_holds_eq by done. rewrite bool_decide_eq_true.
    unfold Spec.GetContainerLabels. simplify_map_eq. split; congruence. }
  assert (Hpool : ∀ v,
    label_filter_holds (Spec.GetContainerLabels controllerID bootstrapParams)
      (Spec.GarmPoolIDLabel +:+ "=" +:+ v) = true ↔ bi_PoolID bootstrapParams = v).
  { intros v. rewrite label_filter_holds_eq by done. rewrite bool_decide_eq_true.
    unfold Spec.GetContainerLabels. simplify_map_eq. split; congruence. }
  split.
  - intros Hall. split.
    + apply Hctrl, Hall. by apply elem_of_union_l, elem_of_singleton_2.
    + destruct (decide (poolID = "")) as [|Hne]; [by left|]. right. symmetry.
      apply Hpool, Hall. by apply elem_of_union_r, elem_of_singleton_2.
  - intros [-> Hp] f. rewrite elem_of_union, elem_of_singleton.
    intros [->|Hf]; [by apply Hctrl|].
    destruct (decide (poolID = "")) as [|Hne]; [by apply elem_of_empty in Hf|].
    apply elem_of_singleton in Hf as ->. apply Hpool.
    by destruct Hp.
Qed.

(** *** Addresses *)

(** X10.  [containerToAddresses] never reports an empty address, reports
    every address as private, and reports at most two addresses for each
    network the loop visits. *)
Theorem containerToAddresses_sound (host : Host) (c : ContainerJSON) :
  let addrs := slice_elems (containerToAddresses host c) in
  Forall (λ a, addr_Address a ≠ "" ∧ addr_Type a = PrivateAddress) addrs ∧
  length addrs
  ≤ 2 * match json_NetworkSettings c with
        | None => 0
        | Some ns => length (range_Networks host (Networks ns))
        end.
Proof.
  cbv zeta. rewrite containerToAddresses_eq. cbn [slice_elems].
  destruct (json_NetworkSettings c) as [ns|]; [|by split].
  induction (range_Networks host (Networks ns)) as [|[name settings] entries [IH1 IH2]];
    [by split|].
  cbn [fmap list_fmap concat snd length]. split.
  - apply Forall_app. split; [|done]. unfold endpointAddresses.
    destruct (decide (IPAddress settings ≠ "")),
             (decide (GlobalIPv6Address settings ≠ "")); by repeat constructor.
  - rewrite length_app.
    assert (length (endpointAddresses settings) ≤ 2); [|lia].
    unfold endpointAddresses.
    destruct (decide (IPAddress settings ≠ "")),
             (decide (GlobalIPv6Address settings ≠ "")); simpl; lia.
Qed.

(** *** Registry credentials that are found *)

(** X11.  When every step of the resolution succeeds, [getRegistryAuth]
    returns the encoded credentials and logs nothing.  The decoded entry is
    cut at its first colon only: the user name is what precedes it and the
    password all that follows, colons included. *)
Theorem getRegistryAuth_found
    {World : Type} (host : Host) (Config : Config.ProviderConfig)
    (image : string) (w : World)
    (configPath data : string) (cfg : dockerConfig) (entry : dockerAuthEntry)
    (user pass authJSON : string) :
  credentialPath host Config = inr configPath →
  os_ReadFile host configPath = inr data →
  json_Unmarshal host data = inr cfg →
  Auths cfg !! registryHostOf image = Some entry →
  base64_Std_DecodeString host (Auth entry) = inr (user +:+ String ":" pass) →
  Contains user ":" = false →
  json_Marshal host {| Username := user; Password := pass |} = inr authJSON →
  getRegistryAuth host Config image w
  = (inr (base64_URL_EncodeToString host authJSON), w, []).
Proof.
  intros Hpath Hread Hparse Hentry Hdec Huser Hmar.
  unfold getRegistryAuth. cbv zeta.
  match goal with
  | |- context [if decide (Config.DockerConfigPath Config = "") then ?a else ?b] =>
      change (if decide (Config.DockerConfigPath Config = "") then a else b)
        with (credentialPath host Config)
  end.
  rewrite Hpath.
  rewrite Hread, Hparse, Hentry, Hdec. unfold SplitN2.
  rewrite (Cut_first_sep _ _ _ Huser). cbn [length].
  rewrite decide_False by (by intros ?).
  cbn [lookup_total list_lookup_total]. by rewrite Hmar.
Qed.

(** A password with colons in it. *)
Definition colon_host : Host :=
  sim_host (inr "/root") {[ "/root/.docker/config.json" := "ghcr.io=alice:s3:cr:et" ]}.

Lemma getRegistryAuth_found_witness :
  getRegistryAuth colon_host default_config "ghcr.io/user/image:tag" empty_world
  = (inr "alice:s3:cr:et", empty_world, []).
Proof.
  apply (getRegistryAuth_found colon_host default_config "ghcr.io/user/image:tag"
           empty_world "/root/.docker/config.json" "ghcr.io=alice:s3:cr:et"
           {| Auths := {[ "ghcr.io" := {| Auth := "alice:s3:cr:et" |} ]} |}
           {| Auth := "alice:s3:cr:et" |} "alice" "s3:cr:et" "alice:s3:cr:et");
    reflexivity.
Defined.

(** *** The shape of a creation *)

(** An event of the image stages: an image call or a log record. *)
Definition image_stage_event (ev : Event) : bool :=
  match ev with
  | EvImagePull _ _ _ | EvImageInspectWithRaw _ _ | EvSlog _ _ => true
  | _ => false
  end.

Lemma logs_are_image_stage logs :
  calls logs = [] → Forall (λ ev, image_stage_event ev = true) logs.
Proof.
  induction logs as [|ev logs IH]; [constructor|].
  unfold calls. rewrite filter_cons. destruct ev; try done.
  intros Hlogs. constructor; [done|]. by apply IH.
Qed.

Section CreateShape.
Context {World : Type}.
Variable client : DockerClient World.
Variable host : Host.
Variable Config : Config.ProviderConfig.
Variable p : Provider.
Variable bootstrapParams : BootstrapInstance.

(** The container and host configuration of the creation call. *)
Definition containerConfigOf (envs : list string) : ContainerConfig :=
  {| Image := bi_Image bootstrapParams; Env := envs;
     Labels := Spec.GetContainerLabels (ControllerID p) bootstrapParams |}.

Definition hostConfigOf : HostConfig :=
  {| hc_Runtime := Config.Runtime Config;
     hc_NetworkMode := Config.Network Config;
     hc_Privileged := Config.Privileged Config;
     hc_Binds := Config.Binds Config;
     hc_CgroupnsMode := if Config.Privileged Config then "host" else "";
     hc_Mounts :=
       if Config.Privileged Config
       then [ {| mount_Type := "volume"; mount_Target := "/var/lib/docker" |} ]
       else [] |}.

Definition createEvent (envs : list string) (reply : result CreateResponse) : Event :=
  EvContainerCreate (containerConfigOf envs) hostConfigOf (bi_Name bootstrapParams) reply.

(** The five ways the launch can go, each with its result and trace. *)
Inductive LaunchShape : result ProviderInstance → list Event → Prop :=
  | NoEnvs err :
      Spec.GetRunnerEnvs (url_Parse host) bootstrapParams = inl err →
      LaunchShape (inl (Wrapf "failed to generate envs" err)) []
  | CreateFailed envs err :
      Spec.GetRunnerEnvs (url_Parse host) bootstrapParams = inr envs →
      LaunchShape (inl (Wrapf "failed to create container" err))
        [createEvent envs (inl err)]
  | StartFailed envs resp err :
      Spec.GetRunnerEnvs (url_Parse host) bootstrapParams = inr envs →
      LaunchShape (inl (Wrapf "failed to start container" err))
        [createEvent envs (inr resp); EvContainerStart (resp_ID resp) (Some err)]
  | InspectFailed envs resp err :
      Spec.GetRunnerEnvs (url_Parse host) bootstrapParams = inr envs →
      LaunchShape (inl (Wrapf "failed to inspect container after start" err))
        [createEvent envs (inr resp); EvContainerStart (resp_ID resp) None;
         EvContainerInspect (resp_ID resp) (inl err)]
  | Launched envs resp inspect :
      Spec.GetRunnerEnvs (url_Parse host) bootstrapParams = inr envs →
      LaunchShape (inr (createdInstance host bootstrapParams inspect))
        [createEvent envs (inr resp); EvContainerStart (resp_ID resp) None;
         EvContainerInspect (resp_ID resp) (inr inspect)].

Lemma launchStage_shape w r w' t :
  launchStage client host Config p bootstrapParams w = (r, w', t) → LaunchShape r t.
Proof.
  unfold launchStage.
  destruct (Spec.GetRunnerEnvs _ _) as [err|envs] eqn:Henvs.
  { intros [= <- <- <-]. by constructor. }
  cbv zeta. unfold bind, callContainerCreate, callContainerStart, callContainerInspect.
  replace (if Config.Privileged Config then _ else _) with hostConfigOf
    by (unfold hostConfigOf, Spec.GetHostConfigRuntime; by destruct (Config.Privileged Config)).
  fold (containerConfigOf envs).
  destruct (ContainerCreate client _ _ _ w) as [[err|resp] w1].
  { intros [= <- <- <-]. by apply CreateFailed. }
  destruct (ContainerStart client _ w1) as [[err|] w2].
  { intros [= <- <- <-]. by apply StartFailed. }
  destruct (ContainerInspect client _ w2) as [[err|inspect] w3].
  { intros [= <- <- <-]. by apply InspectFailed. }
  intros [= <- <- <-]. by apply Launched.
Qed.

Lemma inspectStage_trace image w r w1 t :
  inspectStage client Config image w = (r, w1, t) →
  Forall (λ ev, image_stage_event ev = true) t.
Proof.
  unfold inspectStage, bind, callImageInspectWithRaw, ret, fail.
  destruct (negb (Config.AlwaysPull Config)); [|by intros [= <- <- <-]].
  destruct (ImageInspectWithRaw client image w) as [[e|] w0];
    [destruct (IsErrNotFound e)|]; intros [= <- <- <-]; by repeat constructor.
Qed.

Lemma pullStage_trace image needsPull w r w1 t :
  pullStage client host Config image needsPull w = (r, w1, t) →
  Forall (λ ev, image_stage_event ev = true) t.
Proof.
  destruct needsPull.
  - destruct (pullStage_pulls client host Config image w)
      as (authStr & logs & e & w' & Hlogs & _ & ->).
    intros [= <- <- <-]. constructor; [done|].
    apply Forall_app. split; [by apply logs_are_image_stage | by repeat constructor].
  - rewrite pullStage_local. intros [= <- <- <-]. by repeat constructor.
Qed.

(** A creation is a run of image-stage events, followed, when the image
    stages succeed, by a launch. *)
Lemma CreateInstance_shape w r w' trace :
  CreateInstance client host Config p bootstrapParams w = (r, w', trace) →
  ∃ before launch,
    trace = before ++ launch ∧
    Forall (λ ev, image_stage_event ev = true) before ∧
    ((launch = [] ∧ ∃ err, r = inl err) ∨ LaunchShape r launch).
Proof.
  rewrite CreateInstance_stages. intros Hrun.
  apply bind_run in Hrun as [(err & H1 & ->) | (np & w1 & t1 & t23 & H1 & Hrun & ->)].
  { exists trace, []. rewrite app_nil_r. split; [done|].
    split; [by eapply inspectStage_trace|]. left. by eauto. }
  apply inspectStage_trace in H1.
  apply bind_run in Hrun as [(err & H2 & ->) | ([] & w2 & t2 & t3 & H2 & Hrun & ->)].
  { exists (t1 ++ t23), []. rewrite app_nil_r. split; [done|]. split.
    - apply Forall_app. split; [done|]. by eapply pullStage_trace.
    - left. by eauto. }
  apply pullStage_trace in H2. apply launchStage_shape in Hrun.
  exists (t1 ++ t2), t3. rewrite app_assoc. split; [done|].
  split; [by apply Forall_app|]. by right.
Qed.
End CreateShape.

Lemma image_stage_not_container before ev :
  Forall (λ ev, image_stage_event ev = true) before → ev ∈ before →
  image_stage_event ev = true.
Proof. intros Hall Hin. by eapply (proj1 (Forall_forall _ _) Hall). Qed.

(** X12.  Whatever the run, a creation call that [CreateInstance] makes
    carries the image and the name of the request, the environment of
    [GetRunnerEnvs], the labels of [GetContainerLabels] under the provider's
    controller, and the runtime, network, privileged flag and bind mounts of
    the configuration; the host cgroup namespace and the anonymous volume at
    [/var/lib/docker] are requested exactly when the configuration is
    privileged. *)
Theorem CreateInstance_create_arguments
    {World : Type} (client : DockerClient World) (host : Host)
    (Config : Config.ProviderConfig) (p : Provider)
    (bootstrapParams : BootstrapInstance) (w : World)
    (config : ContainerConfig) (hostConfig : HostConfig) (name : string)
    (reply : result CreateResponse) :
  EvContainerCreate config hostConfig name reply
    ∈ (CreateInstance client host Config p bootstrapParams w).2 →
  name = bi_Name bootstrapParams ∧
  Image config = bi_Image bootstrapParams ∧
  Spec.GetRunnerEnvs (url_Parse host) bootstrapParams = inr (Env config) ∧
  Labels config = Spec.GetContainerLabels (ControllerID p) bootstrapParams ∧
  hc_Runtime hostConfig = Config.Runtime Config ∧
  hc_NetworkMode hostConfig = Config.Network Config ∧
  hc_Privileged hostConfig = Config.Privileged Config ∧
  hc_Binds hostConfig = Config.Binds Config ∧
  hc_CgroupnsMode hostConfig = (if Config.Privileged Config then "host" else "") ∧
  hc_Mounts hostConfig
  = (if Config.Privileged Config
     then [ {| mount_Type := "volume"; mount_Target := "/var/lib/docker" |} ]
     else []).
Proof.
  destruct (CreateInstance client host Config p bootstrapParams w)
    as [[r w'] trace] eqn:Hrun. cbn [snd].
  apply CreateInstance_shape in Hrun as (before & launch & -> & Hbefore & Hlaunch).
  rewrite elem_of_app. intros [Hin|Hin].
  { by apply (image_stage_not_container _ _ Hbefore) in Hin. }
  destruct Hlaunch as [[-> _]|Hshape]; [by apply elem_of_nil in Hin|].
  assert (∃ envs, Spec.GetRunnerEnvs (url_Parse host) bootstrapParams = inr envs ∧
                  EvContainerCreate config hostConfig name reply
                  = createEvent Config p bootstrapParams envs reply) as (envs & Henvs & Hev).
  { destruct Hshape as [err|envs err|envs resp err|envs resp err|envs resp inspect];
      [by apply elem_of_nil in Hin|..];
      exists envs; (split; [done|]);
      repeat (apply elem_of_cons in Hin as [Hin|Hin]; [try done|]);
      try (by apply elem_of_nil in Hin);
      unfold createEvent in *; by simplify_eq. }
  unfold createEvent in Hev. injection Hev as -> -> ->.
  by rewrite Henvs.
Qed.

(** A privileged creation on the in-memory engine. *)
Definition privileged_config : Config.ProviderConfig :=
  {| Config.DockerHost := "unix:///var/run/docker.sock";
     Config.Runtime := "runc"; Config.Network := "bridge";
     Config.RemoveVolumes := true; Config.Privileged := true;
     Config.Binds := ["/cache:/cache:ro"]; Config.AlwaysPull := false;
     Config.DockerConfigPath := "" |}.

Definition privileged_hostConfig : HostConfig :=
  {| hc_Runtime := "runc"; hc_NetworkMode := "bridge"; hc_Privileged := true;
     hc_Binds := ["/cache:/cache:ro"]; hc_CgroupnsMode := "host";
     hc_Mounts := [ {| mount_Type := "volume"; mount_Target := "/var/lib/docker" |} ] |}.

Lemma CreateInstance_create_arguments_witness :
  EvContainerCreate
    {| Image := "ubuntu:latest";
       Env := default [] (match Spec.GetRunnerEnvs Spec.plain_url_Parse r1 with
                          | inr envs => Some envs | inl _ => None end);
       Labels := Spec.GetContainerLabels "test-controller" r1 |}
    privileged_hostConfig "r1" (inr {| resp_ID := "id-r1" |})
    ∈ (CreateInstance sim_client plain_host privileged_config test_provider r1
         empty_world).2 ∧
  hc_Mounts privileged_hostConfig
  = [ {| mount_Type := "volume"; mount_Target := "/var/lib/docker" |} ].
Proof.
  assert (Hin :
    EvContainerCreate
      {| Image := "ubuntu:latest";
         Env := default [] (match Spec.GetRunnerEnvs Spec.plain_url_Parse r1 with
                            | inr envs => Some envs | inl _ => None end);
         Labels := Spec.GetContainerLabels "test-controller" r1 |}
      privileged_hostConfig "r1" (inr {| resp_ID := "id-r1" |})
      ∈ (CreateInstance sim_client plain_host privileged_config test_provider r1
           empty_world).2).
  { vm_compute. do 4 apply list_elem_of_further. apply list_elem_of_here. }
  split; [exact Hin|].
  exact (proj2 (proj2 (proj2 (proj2 (proj2 (proj2 (proj2 (proj2 (proj2
           (CreateInstance_create_arguments sim_client plain_host privileged_config
              test_provider r1 empty_world _ _ _ _ Hin)))))))))).
Defined.

(** X13.  With a repository address that [GetRunnerEnvs] refuses,
    [CreateInstance] returns an error and calls the engine for the image
    only: no container is created, started or inspected. *)
Theorem CreateInstance_bad_repo_url
    {World : Type} (client : DockerClient World) (host : Host)
    (Config : Config.ProviderConfig) (p : Provider)
    (bootstrapParams : BootstrapInstance) (w : World) (err : error) :
  Spec.GetRunnerEnvs (url_Parse host) bootstrapParams = inl err →
  let run := CreateInstance client host Config p bootstrapParams w in
  (∃ e, run.1.1 = inl e) ∧
  Forall (λ ev, image_stage_event ev = true) run.2.
Proof.
  intros Henvs run. subst run.
  destruct (CreateInstance client host Config p bootstrapParams w)
    as [[r w'] trace] eqn:Hrun. cbn [fst snd].
  apply CreateInstance_shape in Hrun as (before & launch & -> & Hbefore & Hlaunch).
  destruct Hlaunch as [[-> Herr]|Hshape]; [by rewrite app_nil_r|].
  destruct Hshape; try congruence. rewrite app_nil_r. split; [by eexists|done].
Qed.

Definition r1_bad_url : BootstrapInstance :=
  {| bi_Name := "r1"; bi_Image := "ubuntu:latest";
     bi_RepoURL := "https://github.com/a/b/c"; bi_PoolID := "test-pool";
     bi_Flavor := ""; bi_OSType := "linux"; bi_OSArch := "amd64";
     bi_Labels := ["l1"]; bi_GitHubRunnerGroup := ""; bi_MetadataURL := "";
     bi_InstanceToken := ""; bi_CallbackURL := "" |}.

Lemma CreateInstance_bad_repo_url_witness :
  (∃ e, (CreateInstance sim_client plain_host default_config test_provider
           r1_bad_url empty_world).1.1 = inl e) ∧
  Forall (λ ev, image_stage_event ev = true)
    (CreateInstance sim_client plain_host default_config test_provider
       r1_bad_url empty_world).2.
Proof.
  apply (CreateInstance_bad_repo_url sim_client plain_host default_config
           test_provider r1_bad_url empty_world
           (Errorf "URL does not match the expected patterns")).
  reflexivity.
Defined.

(** X14.  With always-pull off and an image the engine finds, nothing is
    pulled: the image inspection is the first engine call and no pull or
    further image inspection follows it. *)
Theorem CreateInstance_local_image
    {World : Type} (client : DockerClient World) (host : Host)
    (Config : Config.ProviderConfig) (p : Provider)
    (bootstrapParams : BootstrapInstance) (w w1 : World) :
  Config.AlwaysPull Config = false →
  ImageInspectWithRaw client (bi_Image bootstrapParams) w = (None, w1) →
  ∃ rest,
    calls (CreateInstance client host Config p bootstrapParams w).2
    = EvImageInspectWithRaw (bi_Image bootstrapParams) None :: rest ∧
    Forall past_image rest.
Proof.
  intros Hcfg Hinspect. rewrite CreateInstance_stages.
  pose proof (inspectStage_inspects client Config _ w _ _ Hcfg Hinspect) as Hstage.
  cbv beta iota in Hstage. rewrite (bind_run_ok _ _ _ _ _ _ Hstage).
  rewrite (bind_run_ok _ _ _ _ _ _ (pullStage_local client host Config _ w1)).
  destruct (launchStage client host Config p bootstrapParams w1)
    as [[r3 w3] t3] eqn:Hlaunch.
  apply launchStage_run in Hlaunch as (Hpast & Hcalls & _).
  exists t3. split; [|done]. cbn [snd app calls].
  change (EvImageInspectWithRaw ?i ?e :: EvSlog ?l ?m :: ?t)
    with ([EvImageInspectWithRaw i e] ++ [EvSlog l m] ++ t).
  rewrite !calls_app, Hcalls. done.
Qed.

(** An engine that already holds the image. *)
Definition stocked : SimWorld :=
  {| images := {[ "ubuntu:latest" ]}; containers := []; stuck := ∅;
     store_ok := true; attach := Some bridge |}.

Lemma CreateInstance_local_image_witness :
  ∃ rest,
    calls (CreateInstance sim_client plain_host default_config test_provider r1
             stocked).2
    = EvImageInspectWithRaw "ubuntu:latest" None :: rest ∧
    Forall past_image rest.
Proof.
  apply (CreateInstance_local_image sim_client plain_host default_config
           test_provider r1 stocked stocked); reflexivity.
Defined.

(** X15.  The container that is started and inspected is the one just
    created: every start and every container inspection in the trace of a
    creation names the identifier a successful creation call returned, and
    an inspection happens only after a start that succeeded. *)
Theorem CreateInstance_threads_id
    {World : Type} (client : DockerClient World) (host : Host)
    (Config : Config.ProviderConfig) (p : Provider)
    (bootstrapParams : BootstrapInstance) (w : World) (id : string) :
  let trace := (CreateInstance client host Config p bootstrapParams w).2 in
  ((∃ e, EvContainerStart id e ∈ trace) ∨ (∃ r, EvContainerInspect id r ∈ trace) →
   ∃ config hostConfig name resp,
     EvContainerCreate config hostConfig name (inr resp) ∈ trace ∧ resp_ID resp = id) ∧
  ((∃ r, EvContainerInspect id r ∈ trace) → EvContainerStart id None ∈ trace).
Proof.
  intros trace. subst trace.
  destruct (CreateInstance client host Config p bootstrapParams w)
    as [[r w'] trace] eqn:Hrun. cbn [snd].
  apply CreateInstance_shape in Hrun as (before & launch & -> & Hbefore & Hlaunch).
  assert (Hlate : ∀ ev, image_stage_event ev = false → ev ∈ before ++ launch → ev ∈ launch).
  { intros ev Hev. rewrite elem_of_app. intros [Hin|Hin]; [|done].
    apply (image_stage_not_container _ _ Hbefore) in Hin. congruence. }
  split.
  - intros [[e Hin]|[r' Hin]]; apply Hlate in Hin; try done;
      (destruct Hlaunch as [[-> _]|Hshape]; [by apply elem_of_nil in Hin|]);
      destruct Hshape as [err|envs err|envs resp err|envs resp err|envs resp inspect];
      try (by apply elem_of_nil in Hin);
      repeat (apply elem_of_cons in Hin as [Hin|Hin]; [try done|]);
      try (by apply elem_of_nil in Hin);
      unfold createEvent in *; simplify_eq;
      eexists _, _, _, resp; (split; [|done]);
      apply elem_of_app; right; apply list_elem_of_here.
  - intros [r' Hin]. apply Hlate in Hin; [|done].
    destruct Hlaunch as [[-> _]|Hshape]; [by apply elem_of_nil in Hin|].
    destruct Hshape as [err|envs err|envs resp err|envs resp err|envs resp inspect];
      try (by apply elem_of_nil in Hin);
      repeat (apply elem_of_cons in Hin as [Hin|Hin]; [try done|]);
      try (by apply elem_of_nil in Hin);
      unfold createEvent in *; simplify_eq;
      apply elem_of_app; right; apply list_elem_of_further, list_elem_of_here.
Qed.

Lemma CreateInstance_threads_id_witness :
  (∃ r, EvContainerInspect "id-r1" r ∈ r1_run.2) ∧
  EvContainerStart "id-r1" None ∈ r1_run.2 ∧
  ∃ config hostConfig name resp,
    EvContainerCreate config hostConfig name (inr resp) ∈ r1_run.2 ∧
    resp_ID resp = "id-r1".
Proof.
  assert (Hin : ∃ r, EvContainerInspect "id-r1" r ∈ r1_run.2).
  { eexists. vm_compute. do 6 apply list_elem_of_further. apply list_elem_of_here. }
  pose proof (CreateInstance_threads_id sim_client plain_host default_config
                test_provider r1 empty_world "id-r1") as [Hcreated Hstarted].
  split; [exact Hin|]. split; [exact (Hstarted Hin)|].
  exact (Hcreated (or_intror Hin)).
Defined.

(** *** Removal *)

Definition failed_removal (ev : Event) : bool :=
  match ev with EvContainerRemove _ _ (Some _) => true | _ => false end.

Definition error_log (ev : Event) : bool :=
  match ev with EvSlog Error _ => true | _ => false end.

(** The number of events of a kind in a trace. *)
Definition count (kind : Event → bool) (trace : list Event) : nat :=
  length (filter (λ ev, kind ev = true) trace).

Lemma count_app kind t1 t2 : count kind (t1 ++ t2) = count kind t1 + count kind t2.
Proof. unfold count. by rewrite filter_app, length_app. Qed.

Lemma count_cons kind ev t :
  count kind (ev :: t) = (if kind ev then 1 else 0) + count kind t.
Proof.
  unfold count. rewrite filter_cons.
  destruct (kind ev); [by rewrite decide_True | by rewrite decide_False].
Qed.

(** One turn of the removal loop. *)
Lemma removeEach_cons {World : Type} (client : DockerClient World)
    (Config : Config.ProviderConfig) (c : Container) (rest : list Container)
    (w : World) :
  removeEach client Config (c :: rest) w
  = (let options :=
       {| Force := true; RemoveVolumes := Config.RemoveVolumes Config |} in
     let '(err, w1) := ContainerRemove client (ID c) options w in
     let '(r, w2, t2) := removeEach client Config rest w1 in
     (r, w2,
      EvContainerRemove (ID c) options err
        :: match err with
           | Some _ => [EvSlog Error "failed to remove container"]
           | None => []
           end ++ t2)).
Proof.
  cbn [removeEach]. unfold bind, callContainerRemove, slog, ret. cbv zeta.
  destruct (ContainerRemove client (ID c) _ w) as [[err|] w1];
    by destruct (removeEach client Config rest w1) as [[r2 w2] t2].
Qed.

Lemma removeEach_logged {World : Type} (client : DockerClient World)
    (Config : Config.ProviderConfig) (containers : list Container) (w : World) :
  let trace := (removeEach client Config containers w).2 in
  count error_log trace = count failed_removal trace ∧
  count is_remove trace = length containers ∧
  ∀ id options e, EvContainerRemove id options e ∈ trace →
    options = {| Force := true; RemoveVolumes := Config.RemoveVolumes Config |}.
Proof.
  cbv zeta. revert w. induction containers as [|c rest IH]; intros w.
  { cbn. split; [done|]. split; [done|]. intros ??? Hin. by apply elem_of_nil in Hin. }
  rewrite removeEach_cons. cbv zeta.
  destruct (ContainerRemove client (ID c) _ w) as [err w1].
  destruct (IH w1) as (IHlog & IHcount & IHopts).
  destruct (removeEach client Config rest w1) as [[r2 w2] t2].
  cbn [snd length] in *.
  destruct err as [err|]; cbn [app]; rewrite !count_cons;
    cbn [error_log failed_removal is_remove];
    (split; [lia|]); (split; [lia|]);
    intros id options e Hin;
    repeat (apply elem_of_cons in Hin as [Hin|Hin]; [by simplify_eq|]);
    by eapply IHopts.
Qed.

(** X16.  [RemoveAllInstances] logs one error for each removal the engine
    refuses and none otherwise, and every removal it asks for is forced and
    removes volumes as the configuration says. *)
Theorem RemoveAllInstances_logs_failures
    {World : Type} (client : DockerClient World) (Config : Config.ProviderConfig)
    (p : Provider) (w : World) :
  let trace := (RemoveAllInstances client Config p w).2 in
  count error_log trace = count failed_removal trace ∧
  ∀ id options e, EvContainerRemove id options e ∈ trace →
    options = {| Force := true; RemoveVolumes := Config.RemoveVolumes Config |}.
Proof.
  cbv zeta. unfold RemoveAllInstances, bind, callContainerList, fail.
  destruct (ContainerList client _ w) as [[err|containers] w1].
  { cbn [snd app]. split; [by rewrite !count_cons|]. intros ??? Hin.
    apply elem_of_cons in Hin as [Hin|Hin]; [done | by apply elem_of_nil in Hin]. }
  pose proof (removeEach_logged client Config containers w1) as (Hlog & _ & Hopts).
  destruct (removeEach client Config containers w1) as [[r2 w2] t2].
  cbn [snd app] in *. split.
  - by rewrite !count_cons.
  - intros id options e Hin. apply elem_of_cons in Hin as [Hin|Hin]; [done|].
    by eapply Hopts.
Qed.

(** X17.  [RemoveAllInstances] goes for exactly the instances that
    [ListInstances] reports for the empty pool: both ask the engine the same
    question, and each reported instance is the target of one removal, in
    the reported order. *)
Theorem RemoveAllInstances_targets_listed
    {World : Type} (client : DockerClient World) (Config : Config.ProviderConfig)
    (p : Provider) (w w1 : World) (instances : list ProviderInstance)
    (listing : list Event) :
  ListInstances client p "" w = (inr instances, w1, listing) →
  ∃ w' trace,
    RemoveAllInstances client Config p w = (inr tt, w', listing ++ trace) ∧
    removed_ids trace = ProviderID <$> instances.
Proof.
  unfold ListInstances, RemoveAllInstances, listFilters, bind, callContainerList.
  rewrite decide_False by (by intros ?).
  destruct (ContainerList client _ w) as [[err|containers] w0]; [done|].
  intros [= <- <- <-].
  destruct (removeEach_run client Config containers w0) as (w' & trace & -> & Hids & _).
  exists w', trace. split; [done|].
  rewrite Hids, <- list_fmap_compose. done.
Qed.

Lemma RemoveAllInstances_targets_listed_witness :
  ∃ w' trace,
    RemoveAllInstances sim_client default_config test_provider fleet
    = (inr tt, w', (ListInstances sim_client test_provider "" fleet).2 ++ trace) ∧
    removed_ids trace = ["a"; "b"; "d"].
Proof.
  assert (Hlist : ListInstances sim_client test_provider "" fleet
    = (inr (containerSummaryToInstance <$>
              (to_summary <$> [ runner "a" "test-controller" "test-pool" "running";
                                runner "b" "test-controller" "other-pool" "running";
                                runner "d" "test-controller" "test-pool" "exited" ])),
       fleet, (ListInstances sim_client test_provider "" fleet).2))
    by (vm_compute; reflexivity).
  destruct (RemoveAllInstances_targets_listed sim_client default_config test_provider
              fleet fleet _ _ Hlist) as (w' & trace & Hrun & Hids).
  exists w', trace. split; [exact Hrun | exact Hids].
Defined.

(** X18.  After a successful configuration load every deletion removes the
    volumes of the container: [DeleteInstance] under the loaded
    configuration makes one engine call, a forced removal with volume
    removal on, whatever the configuration file said. *)
Theorem DeleteInstance_after_load
    {Koanf World : Type} (koanf_New : Koanf)
    (koanf_Load : Koanf → string → result Koanf)
    (koanf_Unmarshal :
       Koanf → Config.ProviderConfig → option error * Config.ProviderConfig)
    (path : string) (Config0 Config : Config.ProviderConfig)
    (client : DockerClient World) (p : Provider) (instance : string) (w : World) :
  Config.NewConfig koanf_New koanf_Load koanf_Unmarshal path Config0 = (None, Config) →
  ∃ e,
    (DeleteInstance client Config p instance w).2
    = [EvContainerRemove instance {| Force := true; RemoveVolumes := true |} e].
Proof.
  intros Hload.
  assert (Hrv : Config.RemoveVolumes Config = true).
  { unfold Config.NewConfig in Hload.
    destruct (if decide (path ≠ "") then koanf_Load koanf_New path else inr koanf_New)
      as [err|k]; [done|].
    destruct (koanf_Unmarshal k Config0) as [[err|] c]; [done|].
    injection Hload as <-. apply Config.setDefaults_RemoveVolumes. }
  unfold DeleteInstance, bind, callContainerRemove. rewrite Hrv.
  destruct (ContainerRemove client instance _ w) as [[err|] w1];
    [destruct (IsErrNotFound err)|]; by eexists.
Qed.

Lemma DeleteInstance_after_load_witness :
  ∃ e,
    (DeleteInstance sim_client
       (Config.NewConfig_on Config.keep_volumes_fs "/etc/garm/docker.yaml" Config.zero).2
       test_provider "gone" empty_world).2
    = [EvContainerRemove "gone" {| Force := true; RemoveVolumes := true |} e].
Proof.
  apply (DeleteInstance_after_load (∅ : Config.Document)
           (Config.load_from Config.keep_volumes_fs) Config.decode
           "/etc/garm/docker.yaml" Config.zero).
  vm_compute. reflexivity.
Defined.

End ProviderFacts.

(* ===================================================================== *)
(** ** The earlier revision of the provider *)
(* ===================================================================== *)

(** [internal/provider/provider.go] holds the provider before always-pull,
    registry credentials and bind mounts were added.  It differs from the
    later revision in [CreateInstance] only. *)
Module Legacy.
Import GoStrings Docker Provider SimEngine.

Section WithEngine.
Context {World : Type}.
Variable client : DockerClient World.
Variable host : Host.
Variable Config : Config.ProviderConfig.

(** [CreateInstance] of the earlier revision. *)
Definition CreateInstance (p : Provider) (bootstrapParams : BootstrapInstance)
  : M World ProviderInstance :=
  let image := bi_Image bootstrapParams in
  (let* err := callImageInspectWithRaw client image in
   match err with
   | Some err =>
       if IsErrNotFound err then
         slog Info "image not found locally, pulling" >>
         let* err := callImagePull client image {| RegistryAuth := "" |} in
         match err with
         | Some err => fail (Wrapf ("failed to pull image " +:+ image) err)
         | None => ret tt
         end
       else fail (Wrapf ("failed to inspect image " +:+ image) err)
   | None => slog Info "using local image"
   end) >>
  match Spec.GetRunnerEnvs (url_Parse host) bootstrapParams with
  | inl err => fail (Wrapf "failed to generate envs" err)
  | inr envs =>
      let labels := Spec.GetContainerLabels (ControllerID p) bootstrapParams in
      let containerConfig :=
        {| Image := image; Env := envs; Labels := labels |} in
      let hostConfig :=
        {| hc_Runtime := Spec.GetHostConfigRuntime Config;
           hc_NetworkMode := Config.Network Config;
           hc_Privileged := Config.Privileged Config;
           hc_Binds := [];
           hc_CgroupnsMode := "";
           hc_Mounts := [] |} in
      let hostConfig :=
        if Config.Privileged Config then
          {| hc_Runtime := hc_Runtime hostConfig;
             hc_NetworkMode := hc_NetworkMode hostConfig;
             hc_Privileged := hc_Privileged hostConfig;
             hc_Binds := hc_Binds hostConfig;
             hc_CgroupnsMode := CgroupnsModeHost;
             hc_Mounts := hc_Mounts hostConfig |}
        else hostConfig in
      let* resp :=
        callContainerCreate client containerConfig hostConfig (bi_Name bootstrapParams) in
      match resp with
      | inl err => fail (Wrapf "failed to create container" err)
      | inr resp =>
          let* err := callContainerStart client (resp_ID resp) in
          match err with
          | Some err => fail (Wrapf "failed to start container" err)
          | None =>
              let* inspect := callContainerInspect client (resp_ID resp) in
              match inspect with
              | inl err => fail (Wrapf "failed to inspect container after start" err)
              | inr inspect =>
                  ret {| ProviderID := json_ID inspect;
                         Name := bi_Name bootstrapParams;
                         Status := InstanceRunning;
                         OSType := bi_OSType bootstrapParams;
                         OSArch := bi_OSArch bootstrapParams;
                         OSName := "linux";
                         OSVersion := "unknown";
                         Addresses := containerToAddresses host inspect |}
              end
          end
      end
  end.

(** Its two stages. *)
Definition imageStage (image : string) : M World unit :=
  let* err := callImageInspectWithRaw client image in
  match err with
  | Some err =>
      if IsErrNotFound err then
        slog Info "image not found locally, pulling" >>
        let* err := callImagePull client image {| RegistryAuth := "" |} in
        match err with
        | Some err => fail (Wrapf ("failed to pull image " +:+ image) err)
        | None => ret tt
        end
      else fail (Wrapf ("failed to inspect image " +:+ image) err)
  | None => slog Info "using local image"
  end.

Definition launch (p : Provider) (bootstrapParams : BootstrapInstance)
  : M World ProviderInstance :=
  match Spec.GetRunnerEnvs (url_Parse host) bootstrapParams with
  | inl err => fail (Wrapf "failed to generate envs" err)
  | inr envs =>
      let labels := Spec.GetContainerLabels (ControllerID p) bootstrapParams in
      let containerConfig :=
        {| Image := bi_Image bootstrapParams; Env := envs; Labels := labels |} in
      let hostConfig :=
        {| hc_Runtime := Spec.GetHostConfigRuntime Config;
           hc_NetworkMode := Config.Network Config;
           hc_Privileged := Config.Privileged Config;
           hc_Binds := [];
           hc_CgroupnsMode := "";
           hc_Mounts := [] |} in
      let hostConfig :=
        if Config.Privileged Config then
          {| hc_Runtime := hc_Runtime hostConfig;
             hc_NetworkMode := hc_NetworkMode hostConfig;
             hc_Privileged := hc_Privileged hostConfig;
             hc_Binds := hc_Binds hostConfig;
             hc_CgroupnsMode := CgroupnsModeHost;
             hc_Mounts := hc_Mounts hostConfig |}
        else hostConfig in
      let* resp :=
        callContainerCreate client containerConfig hostConfig (bi_Name bootstrapParams) in
      match resp with
      | inl err => fail (Wrapf "failed to create container" err)
      | inr resp =>
          let* err := callContainerStart client (resp_ID resp) in
          match err with
          | Some err => fail (Wrapf "failed to start container" err)
          | None =>
              let* inspect := callContainerInspect client (resp_ID resp) in
              match inspect with
              | inl err => fail (Wrapf "failed to inspect container after start" err)
              | inr inspect => ret (createdInstance host bootstrapParams inspect)
              end
          end
      end
  end.

Lemma legacy_stages p bootstrapParams :
  CreateInstance p bootstrapParams
  = (imageStage (bi_Image bootstrapParams) >> launch p bootstrapParams).
Proof. reflexivity. Qed.

(** Unprivileged and without bind mounts, the two revisions launch alike. *)
Lemma launch_eq p bootstrapParams :
  Config.Privileged Config = false → Config.Binds Config = [] →
  launch p bootstrapParams = launchStage client host Config p bootstrapParams.
Proof.
  intros Hpriv Hbinds. unfold launch, launchStage. by rewrite Hpriv, Hbinds.
Qed.

Lemma imageStage_run image w e w1 :
  ImageInspectWithRaw client image w = (e, w1) →
  imageStage image w =
    match e with
    | None =>
        (inr tt, w1, [EvImageInspectWithRaw image None; EvSlog Info "using local image"])
    | Some err =>
        if IsErrNotFound err then
          let '(perr, w2) := ImagePull client image {| RegistryAuth := "" |} w1 in
          (match perr with
           | Some perr => inl (Wrapf ("failed to pull image " +:+ image) perr)
           | None => inr tt
           end, w2,
           [EvImageInspectWithRaw image (Some err);
            EvSlog Info "image not found locally, pulling";
            EvImagePull image {| RegistryAuth := "" |} perr])
        else (inl (Wrapf ("failed to inspect image " +:+ image) err), w1,
              [EvImageInspectWithRaw image (Some err)])
    end.
Proof.
  intros Hcall.
  unfold imageStage, bind, callImageInspectWithRaw, callImagePull, slog, ret, fail.
  rewrite Hcall. destruct e as [err|]; [|done].
  destruct (IsErrNotFound err); [|done].
  by destruct (ImagePull client image _ w1) as [[perr|] w2].
Qed.

(** The pull of the later revision when no credentials are found. *)
Lemma pullStage_no_credentials image w :
  ResolutionFails host Config image →
  ∃ logs,
    calls logs = [] ∧
    pullStage client host Config image true w =
      (let '(perr, w2) := ImagePull client image {| RegistryAuth := "" |} w in
       (match perr with
        | Some perr => inl (Wrapf ("failed to pull image " +:+ image) perr)
        | None => inr tt
        end, w2,
        EvSlog Info "pulling image" :: logs
          ++ [EvImagePull image {| RegistryAuth := "" |} perr])).
Proof.
  intros Hfails.
  destruct (getRegistryAuth_run host Config image w)
    as (authStr & logs & Hauth & Hlogs & Hresolved).
  assert (authStr = "") as ->.
  { destruct (decide (authStr = "")) as [|Hne]; [done|].
    by destruct (resolved_not_failed host Config image authStr (Hresolved Hne)). }
  exists logs. split; [done|].
  unfold pullStage, bind, slog, callImagePull. rewrite Hauth.
  change (pullOptions "") with {| RegistryAuth := "" |}.
  by destruct (ImagePull client image _ w) as [[perr|] w2].
Qed.
End WithEngine.

(** X19.  The later revision extends the earlier one conservatively: with
    always-pull off, no privileged mode, no bind mounts and no credentials
    for the registry of the image, both revisions of [CreateInstance]
    return the same result, leave the engine in the same state and make the
    same engine calls in the same order. *)
Theorem CreateInstance_extends_legacy
    {World : Type} (client : DockerClient World) (host : Host)
    (Config : Config.ProviderConfig) (p : Provider)
    (bootstrapParams : BootstrapInstance) (w : World) :
  Config.AlwaysPull Config = false →
  Config.Privileged Config = false →
  Config.Binds Config = [] →
  ResolutionFails host Config (bi_Image bootstrapParams) →
  (Provider.CreateInstance client host Config p bootstrapParams w).1
  = (CreateInstance client host Config p bootstrapParams w).1 ∧
  calls (Provider.CreateInstance client host Config p bootstrapParams w).2
  = calls (CreateInstance client host Config p bootstrapParams w).2.
Proof.
  intros Hpull Hpriv Hbinds Hfails.
  rewrite Provider.CreateInstance_stages, legacy_stages.
  rewrite (launch_eq client host Config p bootstrapParams Hpriv Hbinds).
  set (image := bi_Image bootstrapParams) in *.
  destruct (ImageInspectWithRaw client image w) as [e w1] eqn:Hinspect.
  pose proof (inspectStage_inspects client Config image w _ _ Hpull Hinspect) as Hnew.
  pose proof (imageStage_run client image w _ _ Hinspect) as Hold.
  cbv beta iota in Hnew.
  destruct e as [err|].
  - destruct (IsErrNotFound err).
    + rewrite (bind_run_ok _ _ _ _ _ _ Hnew).
      destruct (pullStage_no_credentials client host Config image w1 Hfails)
        as (logs & Hlogs & Hpulls).
      destruct (ImagePull client image {| RegistryAuth := "" |} w1) as [perr w2].
      destruct perr as [perr|].
      * rewrite (bind_run_err _ _ _ _ _ _ Hpulls), (bind_run_err _ _ _ _ _ _ Hold).
        split; [done|]. cbn [snd app].
        change (EvSlog ?l ?m :: ?t) with ([EvSlog l m] ++ t).
        change (EvImageInspectWithRaw ?i ?x :: ?t)
          with ([EvImageInspectWithRaw i x] ++ t).
        rewrite !calls_app, Hlogs. done.
      * rewrite (bind_run_ok _ _ _ _ _ _ Hpulls), (bind_run_ok _ _ _ _ _ _ Hold).
        destruct (launchStage client host Config p bootstrapParams w2)
          as [[r3 w3] t3].
        split; [done|]. cbn [snd app].
        change (EvSlog ?l ?m :: ?t) with ([EvSlog l m] ++ t).
        change (EvImageInspectWithRaw ?i ?x :: ?t)
          with ([EvImageInspectWithRaw i x] ++ t).
        rewrite <- !app_assoc, !calls_app, Hlogs. done.
    + by rewrite (bind_run_err _ _ _ _ _ _ Hnew), (bind_run_err _ _ _ _ _ _ Hold).
  - rewrite (bind_run_ok _ _ _ _ _ _ Hnew).
    rewrite (bind_run_ok _ _ _ _ _ _ (pullStage_local client host Config image w1)).
    rewrite (bind_run_ok _ _ _ _ _ _ Hold).
    by destruct (launchStage client host Config p bootstrapParams w1) as [[r3 w3] t3].
Qed.

Lemma CreateInstance_extends_legacy_witness :
  (Provider.CreateInstance sim_client plain_host default_config test_provider r1
     empty_world).1
  = (CreateInstance sim_client plain_host default_config test_provider r1
       empty_world).1 ∧
  calls (Provider.CreateInstance sim_client plain_host default_config test_provider
           r1 empty_world).2
  = calls (CreateInstance sim_client plain_host default_config test_provider r1
             empty_world).2.
Proof.
  apply (CreateInstance_extends_legacy sim_client plain_host default_config
           test_provider r1 empty_world); [reflexivity..|].
  by apply (Unreadable plain_host default_config _ "/root/.docker/config.json"
              (External true "no such file or directory")).
Defined.

End Legacy.

(* ===================================================================== *)
(** ** The inspect response with its pointers *)
(* ===================================================================== *)

(** [types.ContainerJSON] is made of pointers: the embedded
    [*ContainerJSONBase] that holds [ID], [Name] and [State], [Config], and
    [NetworkSettings], whose [Networks] map holds [*EndpointSettings].  The
    provider tests [NetworkSettings] and [State] against [nil] and follows
    the others as they are, and following a [nil] pointer panics.  This
    module keeps every one of these pointers as an [option] and gives an
    operation the third way out that Go gives it. *)
Module Raw.
Import GoStrings Docker.

(** A Go evaluation returns a value or panics. *)
Inductive outcome (A : Type) : Type :=
  | Returns (a : A)
  | Panics.
Arguments Returns {A} a.
Arguments Panics {A}.

(** [types.ContainerJSONBase] *)
Record ContainerJSONBase : Type := {
  base_ID : string;
  base_Name : string;
  base_State : option ContainerState;
}.

(** [types.NetworkSettings]: a network name may be bound to [nil]. *)
Record NetworkSettings : Type := {
  Networks : gmap string (option EndpointSettings);
}.

(** [types.ContainerJSON] *)
Record ContainerJSON : Type := {
  json_Base : option ContainerJSONBase;
  json_Config : option ContainerConfig;
  json_NetworkSettings : option NetworkSettings;
}.

(** The [DockerClient] interface; [ContainerInspect] answers with the
    response as Go has it. *)
Record DockerClient (World : Type) : Type := {
  ImagePull : string → ImagePullOptions → World → option error * World;
  ImageInspectWithRaw : string → World → option error * World;
  ContainerCreate :
    ContainerConfig → HostConfig → string → World → result CreateResponse * World;
  ContainerStart : string → World → option error * World;
  ContainerRemove : string → ContainerRemoveOptions → World → option error * World;
  ContainerInspect : string → World → result ContainerJSON * World;
  ContainerList : ContainerListOptions → World → result (list Container) * World;
  ContainerStop : string → StopOptions → World → option error * World;
}.
Arguments ImagePull {World}.
Arguments ImageInspectWithRaw {World}.
Arguments ContainerCreate {World}.
Arguments ContainerStart {World}.
Arguments ContainerRemove {World}.
Arguments ContainerInspect {World}.
Arguments ContainerList {World}.
Arguments ContainerStop {World}.

(** What can be observed: the events of [Docker.Event] that carry no
    inspect response, and the inspection with the response as it is. *)
Inductive Event : Type :=
  | Seen (ev : Docker.Event)
  | Inspected (containerID : string) (reply : result ContainerJSON).

Definition is_seen (ev : Event) : bool :=
  match ev with Seen _ => true | Inspected _ _ => false end.

(** An operation gives its outcome, the world it leaves and the trace of
    what it did up to its return or its panic. *)
Definition M (World A : Type) : Type :=
  World → outcome (result A) * World * list Event.

Section Monad.
Context {World : Type}.

Definition ret {A} (a : A) : M World A := λ w, (Returns (inr a), w, []).

Definition fail {A} (err : error) : M World A := λ w, (Returns (inl err), w, []).

Definition panic {A} : M World A := λ w, (Panics, w, []).

Definition bind {A B} (m : M World A) (f : A → M World B) : M World B := λ w,
  match m w with
  | (Panics, w1, t1) => (Panics, w1, t1)
  | (Returns (inl err), w1, t1) => (Returns (inl err), w1, t1)
  | (Returns (inr a), w1, t1) =>
      let '(r, w2, t2) := f a w1 in (r, w2, t1 ++ t2)
  end.

(** Following a pointer. *)
Definition deref {A} (pointer : option A) : M World A :=
  match pointer with
  | Some a => ret a
  | None => panic
  end.

(** Evaluating an expression that returns or panics. *)
Definition eval {A} (e : outcome A) : M World A :=
  match e with
  | Returns a => ret a
  | Panics => panic
  end.

(** An operation of [Provider.M], which cannot panic and inspects no
    container. *)
Definition lift {A} (m : Provider.M World A) : M World A := λ w,
  let '(r, w', t) := m w in (Returns r, w', Seen <$> t).

Definition slog (level : Level) (msg : string) : M World unit :=
  λ w, (Returns (inr tt), w, [Seen (EvSlog level msg)]).
End Monad.

Notation "'let*' x := m 'in' k" := (bind m (λ x, k))
  (at level 10, x name, m at level 100, k at level 200).
Notation "m >> k" := (bind m (λ _, k))
  (at level 100, k at level 200, right associativity).

Section WithEngine.
Context {World : Type}.
Variable client : DockerClient World.
Variable host : Provider.Host.
(** The order in which a [range] loop visits the networks map. *)
Variable range_Networks :
  gmap string (option EndpointSettings) → list (string * option EndpointSettings).
Variable Config : Config.ProviderConfig.

(** The calls [CreateInstance] makes through the interface. *)
Definition callImagePull (ref : string) (o : ImagePullOptions) : M World (option error) :=
  λ w, let '(e, w') := ImagePull client ref o w in
       (Returns (inr e), w', [Seen (EvImagePull ref o e)]).

Definition callImageInspectWithRaw (ref : string) : M World (option error) :=
  λ w, let '(e, w') := ImageInspectWithRaw client ref w in
       (Returns (inr e), w', [Seen (EvImageInspectWithRaw ref e)]).

Definition callContainerCreate (c : ContainerConfig) (h : HostConfig) (name : string)
  : M World (result CreateResponse) :=
  λ w, let '(r, w') := ContainerCreate client c h name w in
       (Returns (inr r), w', [Seen (EvContainerCreate c h name r)]).

Definition callContainerStart (id : string) : M World (option error) :=
  λ w, let '(e, w') := ContainerStart client id w in
       (Returns (inr e), w', [Seen (EvContainerStart id e)]).

Definition callContainerInspect (id : string) : M World (result ContainerJSON) :=
  λ w, let '(r, w') := ContainerInspect client id w in
       (Returns (inr r), w', [Inspected id r]).

(** The loop of [containerToAddresses]: [settings.IPAddress] follows the
    pointer the map holds, and the loop ends there when it is [nil]. *)
Fixpoint eachNetwork (addrs : slice Address)
    (entries : list (string * option EndpointSettings)) : outcome (slice Address) :=
  match entries with
  | [] => Returns addrs
  | (_, settings) :: rest =>
      match settings with
      | None => Panics
      | Some settings =>
          let addrs :=
            if decide (IPAddress settings ≠ "")
            then slice_append addrs
                   {| addr_Address := IPAddress settings;
                      addr_Type := PrivateAddress |}
            else addrs in
          let addrs :=
            if decide (GlobalIPv6Address settings ≠ "")
            then slice_append addrs
                   {| addr_Address := GlobalIPv6Address settings;
                      addr_Type := PrivateAddress |}
            else addrs in
          eachNetwork addrs rest
      end
  end.

(** [containerToAddresses] *)
Definition containerToAddresses (c : ContainerJSON) : outcome (slice Address) :=
  let addrs : slice Address := SliceOf [] in
  match json_NetworkSettings c with
  | None => Returns addrs
  | Some ns => eachNetwork addrs (range_Networks (Networks ns))
  end.

(** [CreateInstance].  The instance it returns is a composite literal:
    [inspect.ID] follows the embedded base, [containerToAddresses(inspect)]
    follows the network entries, and the literal is built when both have
    returned. *)
Definition CreateInstance (p : Provider.Provider) (bootstrapParams : BootstrapInstance)
  : M World ProviderInstance :=
  let image := bi_Image bootstrapParams in
  let needsPull := Config.AlwaysPull Config in
  let* needsPull :=
    (if negb needsPull then
       let* err := callImageInspectWithRaw image in
       match err with
       | Some err =>
           if IsErrNotFound err then ret true
           else fail (Wrapf ("failed to inspect image " +:+ image) err)
       | None => ret needsPull
       end
     else ret needsPull) in
  (if needsPull : bool then
     slog Info "pulling image" >>
     let* authStr := lift (Provider.getRegistryAuth host Config image) in
     let pullOpts := {| RegistryAuth := "" |} in
     let pullOpts :=
       if decide (authStr ≠ "") then {| RegistryAuth := authStr |} else pullOpts in
     let* err := callImagePull image pullOpts in
     match err with
     | Some err => fail (Wrapf ("failed to pull image " +:+ image) err)
     | None => ret tt
     end
   else slog Info "using local image") >>
  match Spec.GetRunnerEnvs (Provider.url_Parse host) bootstrapParams with
  | inl err => fail (Wrapf "failed to generate envs" err)
  | inr envs =>
      let labels := Spec.GetContainerLabels (Provider.ControllerID p) bootstrapParams in
      let containerConfig :=
        {| Image := image; Env := envs; Labels := labels |} in
      let hostConfig :=
        {| hc_Runtime := Spec.GetHostConfigRuntime Config;
           hc_NetworkMode := Config.Network Config;
           hc_Privileged := Config.Privileged Config;
           hc_Binds := Config.Binds Config;
           hc_CgroupnsMode := "";
           hc_Mounts := [] |} in
      let hostConfig :=
        if Config.Privileged Config then
          {| hc_Runtime := hc_Runtime hostConfig;
             hc_NetworkMode := hc_NetworkMode hostConfig;
             hc_Privileged := hc_Privileged hostConfig;
             hc_Binds := hc_Binds hostConfig;
             hc_CgroupnsMode := CgroupnsModeHost;
             hc_Mounts := [ {| mount_Type := TypeVolume;
                               mount_Target := "/var/lib/docker" |} ] |}
        else hostConfig in
      let* resp := callContainerCreate containerConfig hostConfig (bi_Name bootstrapParams) in
      match resp with
      | inl err => fail (Wrapf "failed to create container" err)
      | inr resp =>
          let* err := callContainerStart (resp_ID resp) in
          match err with
          | Some err => fail (Wrapf "failed to start container" err)
          | None =>
              let* inspect := callContainerInspect (resp_ID resp) in
              match inspect with
              | inl err => fail (Wrapf "failed to inspect container after start" err)
              | inr inspect =>
                  let* base := deref (json_Base inspect) in
                  let* addrs := eval (containerToAddresses inspect) in
                  ret {| ProviderID := base_ID base;
                         Name := bi_Name bootstrapParams;
                         Status := InstanceRunning;
                         OSType := bi_OSType bootstrapParams;
                         OSArch := bi_OSArch bootstrapParams;
                         OSName := "linux";
                         OSVersion := "unknown";
                         Addresses := addrs |}
              end
          end
      end
  end.
End WithEngine.

(** *** What a run of [CreateInstance] can end in *)

Section Properties.
Context {World : Type}.
Variable client : DockerClient World.
Variable host : Provider.Host.
Variable range_Networks :
  gmap string (option EndpointSettings) → list (string * option EndpointSettings).
Variable Config : Config.ProviderConfig.

(** An operation that inspects no container. *)
Definition quiet {A} (m : M World A) : Prop :=
  ∀ w, Forall (λ ev, is_seen ev = true) (m w).2.

Lemma quiet_ret {A} (a : A) : quiet (ret a).
Proof. intros w. constructor. Qed.

Lemma quiet_fail {A} err : quiet (fail (A := A) err).
Proof. intros w. constructor. Qed.

Lemma quiet_slog level msg : quiet (slog level msg).
Proof. intros w. by repeat constructor. Qed.

Lemma quiet_lift {A} (m : Provider.M World A) : quiet (lift m).
Proof.
  intros w. unfold lift. destruct (m w) as [[r w'] t]. cbn [snd].
  apply Forall_fmap, Forall_true. done.
Qed.

Lemma quiet_bind {A B} (m : M World A) (f : A → M World B) :
  quiet m → (∀ a, quiet (f a)) → quiet (bind m f).
Proof.
  intros Hm Hf w. unfold bind. specialize (Hm w).
  destruct (m w) as [[[[err|a]|] w1] t1]; cbn [snd] in *; try done.
  specialize (Hf a w1). destruct (f a w1) as [[r w2] t2]. cbn [snd] in *.
  by apply Forall_app.
Qed.

Lemma quiet_callImageInspectWithRaw ref : quiet (callImageInspectWithRaw client ref).
Proof.
  intros w. unfold callImageInspectWithRaw.
  destruct (ImageInspectWithRaw client ref w). by repeat constructor.
Qed.

Lemma quiet_callImagePull ref o : quiet (callImagePull client ref o).
Proof.
  intros w. unfold callImagePull.
  destruct (ImagePull client ref o w). by repeat constructor.
Qed.

Lemma quiet_callContainerCreate c h name : quiet (callContainerCreate client c h name).
Proof.
  intros w. unfold callContainerCreate.
  destruct (ContainerCreate client c h name w). by repeat constructor.
Qed.

Lemma quiet_callContainerStart id : quiet (callContainerStart client id).
Proof.
  intros w. unfold callContainerStart.
  destruct (ContainerStart client id w). by repeat constructor.
Qed.

Lemma last_seen (t : list Event) id reply :
  Forall (λ ev, is_seen ev = true) t → last t ≠ Some (Inspected id reply).
Proof.
  intros Hall Hlast. apply last_Some_elem_of in Hlast.
  rewrite Forall_forall in Hall. by specialize (Hall _ Hlast).
Qed.

(** A run that ends in an inspection went through every quiet step before
    it, and its outcome is the outcome of what follows them. *)
Lemma bind_quiet_last {A B} (m : M World A) (f : A → M World B) w id reply :
  quiet m →
  last (bind m f w).2 = Some (Inspected id reply) →
  ∃ a w1, last (f a w1).2 = Some (Inspected id reply) ∧
          (bind m f w).1.1 = (f a w1).1.1.
Proof.
  intros Hm. unfold bind. specialize (Hm w).
  destruct (m w) as [[[[err|a]|] w1] t1]; cbn [fst snd] in *;
    try (intros Hlast; by destruct (last_seen _ _ _ Hm Hlast)).
  destruct (f a w1) as [[r w2] t2] eqn:Hf. cbn [fst snd]. intros Hlast.
  exists a, w1. rewrite Hf. cbn [fst snd]. split; [|done].
  rewrite last_app in Hlast. destruct (last t2) as [ev|]; [done|].
  by destruct (last_seen _ _ _ Hm Hlast).
Qed.

(** **** Address extraction *)

Lemma eachNetwork_panics entries addrs :
  eachNetwork addrs entries = Panics ↔ ∃ name, (name, None) ∈ entries.
Proof.
  revert addrs. induction entries as [|[name [settings|]] rest IH]; intros addrs.
  - split; [done|]. intros [name Hin]. by apply elem_of_nil in Hin.
  - cbn [eachNetwork]. cbv zeta. rewrite IH. split.
    + intros [n Hin]. exists n. by apply list_elem_of_further.
    + intros [n Hin]. exists n. apply elem_of_cons in Hin as [Heq|Hin]; [done|done].
  - cbn [eachNetwork]. split; [|done]. intros _. exists name.
    by apply list_elem_of_here.
Qed.

Lemma eachNetwork_not_nil entries addrs result :
  slice_is_nil addrs = false →
  eachNetwork addrs entries = Returns result → slice_is_nil result = false.
Proof.
  revert addrs. induction entries as [|[name [settings|]] rest IH]; intros addrs Hnil.
  - by intros [= <-].
  - cbn [eachNetwork]. cbv zeta. apply IH.
    by repeat destruct (decide _).
  - done.
Qed.

(** With a [range] that visits the entries of the map, extraction panics
    when, and only when, a network name is bound to [nil]. *)
Lemma containerToAddresses_panics c :
  (∀ m, range_Networks m ≡ₚ map_to_list m) →
  containerToAddresses range_Networks c = Panics ↔
  ∃ ns name, json_NetworkSettings c = Some ns ∧ Networks ns !! name = Some None.
Proof.
  intros Hrange. unfold containerToAddresses.
  destruct (json_NetworkSettings c) as [ns|].
  - rewrite eachNetwork_panics. split.
    + intros [name Hin]. exists ns, name. split; [done|].
      rewrite (Hrange (Networks ns)) in Hin. by apply elem_of_map_to_list in Hin.
    + intros (ns' & name & [= <-] & Hname). exists name.
      rewrite (Hrange (Networks ns)). by apply elem_of_map_to_list.
  - split; [done|]. by intros (ns & name & [=] & _).
Qed.

Lemma containerToAddresses_not_nil c addrs :
  containerToAddresses range_Networks c = Returns addrs → slice_is_nil addrs = false.
Proof.
  unfold containerToAddresses. destruct (json_NetworkSettings c) as [ns|].
  - by apply eachNetwork_not_nil.
  - by intros [= <-].
Qed.

Lemma containerToAddresses_without_settings c :
  json_NetworkSettings c = None →
  containerToAddresses range_Networks c = Returns (SliceOf []).
Proof. intros H. unfold containerToAddresses. by rewrite H. Qed.

(** **** The end of [CreateInstance] *)

(** What [CreateInstance] makes of the response of the inspection. *)
Definition createdInstance (bootstrapParams : BootstrapInstance) (inspect : ContainerJSON)
  : outcome (result ProviderInstance) :=
  match json_Base inspect with
  | None => Panics
  | Some base =>
      match containerToAddresses range_Networks inspect with
      | Panics => Panics
      | Returns addrs =>
          Returns (inr {| ProviderID := base_ID base;
                          Name := bi_Name bootstrapParams;
                          Status := InstanceRunning;
                          OSType := bi_OSType bootstrapParams;
                          OSArch := bi_OSArch bootstrapParams;
                          OSName := "linux";
                          OSVersion := "unknown";
                          Addresses := addrs |})
      end
  end.

Lemma inspect_step {A} id (k : result ContainerJSON → M World A) w :
  bind (callContainerInspect client id) k w
  = (let '(reply, w1) := ContainerInspect client id w in
     let '(r, w2, t2) := k reply w1 in (r, w2, Inspected id reply :: t2)).
Proof.
  unfold bind, callContainerInspect.
  destruct (ContainerInspect client id w) as [reply w1]. done.
Qed.

(** A run whose last step is an inspection that answered ends in what the
    composite literal makes of the answer. *)
Lemma CreateInstance_after_inspect p bootstrapParams w id inspect :
  let run := CreateInstance client host range_Networks Config p bootstrapParams w in
  last run.2 = Some (Inspected id (inr inspect)) →
  run.1.1 = createdInstance bootstrapParams inspect.
Proof.
  intros run. subst run. unfold CreateInstance. cbv zeta. intros Hlast.
  apply bind_quiet_last in Hlast as (needsPull & w1 & Hlast & ->).
  2:{ destruct (negb (Config.AlwaysPull Config)); [|apply quiet_ret].
      apply quiet_bind; [apply quiet_callImageInspectWithRaw|].
      intros [err|]; [|apply quiet_ret].
      destruct (IsErrNotFound err); [apply quiet_ret | apply quiet_fail]. }
  apply bind_quiet_last in Hlast as ([] & w2 & Hlast & ->).
  2:{ destruct needsPull; [|apply quiet_slog].
      apply quiet_bind; [apply quiet_slog|]. intros _.
      apply quiet_bind; [apply quiet_lift|]. intros authStr.
      apply quiet_bind; [apply quiet_callImagePull|].
      intros [err|]; [apply quiet_fail | apply quiet_ret]. }
  destruct (Spec.GetRunnerEnvs _ _) as [err|envs]; [done|].
  apply (bind_quiet_last _ _ _ _ _ (quiet_callContainerCreate _ _ _)) in Hlast
    as ([err|resp] & w3 & Hlast & ->); [done|].
  apply (bind_quiet_last _ _ _ _ _ (quiet_callContainerStart _)) in Hlast
    as ([err|] & w4 & Hlast & ->); [done|].
  rewrite inspect_step in Hlast. rewrite inspect_step.
  destruct (ContainerInspect client (resp_ID resp) w4) as [[err|answer] w5].
  { cbn in Hlast. by simplify_eq. }
  revert Hlast. unfold createdInstance, bind, deref, eval, ret, panic.
  destruct (json_Base answer) as [base|] eqn:Hbase;
    [destruct (containerToAddresses range_Networks answer) as [addrs|] eqn:Haddrs|];
    cbn; intros [= <- <-]; by rewrite Hbase, ?Haddrs.
Qed.
End Properties.

(** *** An engine to run against *)

(** [SimEngine.sim_client], answering an inspection with what [answer]
    makes of the container it found. *)
Definition sim_client (answer : SimEngine.SimContainer → ContainerJSON)
  : DockerClient SimEngine.SimWorld :=
  {| ImagePull := Docker.ImagePull SimEngine.sim_client;
     ImageInspectWithRaw := Docker.ImageInspectWithRaw SimEngine.sim_client;
     ContainerCreate := Docker.ContainerCreate SimEngine.sim_client;
     ContainerStart := Docker.ContainerStart SimEngine.sim_client;
     ContainerRemove := Docker.ContainerRemove SimEngine.sim_client;
     ContainerInspect := λ id w,
       match list_find (λ c, SimEngine.named id c = true) (SimEngine.containers w) with
       | Some (_, c) => (inr (answer c), w)
       | None => (inl SimEngine.no_such_container, w)
       end;
     ContainerList := Docker.ContainerList SimEngine.sim_client;
     ContainerStop := Docker.ContainerStop SimEngine.sim_client |}.

(** [types.ContainerJSON{}], what the JSON object [{}] decodes to: every
    pointer is [nil]. *)
Definition blank : ContainerJSON :=
  {| json_Base := None; json_Config := None; json_NetworkSettings := None |}.

(** A response with the base fields and nothing else. *)
Definition detached (c : SimEngine.SimContainer) : ContainerJSON :=
  {| json_Base := Some {| base_ID := SimEngine.sim_id c;
                          base_Name := SimEngine.sim_name c;
                          base_State := None |};
     json_Config := None;
     json_NetworkSettings := None |}.

(** A response whose [Networks] binds a name to [nil], as the JSON
    [{"bridge": null}] decodes. *)
Definition dangling (c : SimEngine.SimContainer) : ContainerJSON :=
  {| json_Base := Some {| base_ID := SimEngine.sim_id c;
                          base_Name := SimEngine.sim_name c;
                          base_State := None |};
     json_Config := None;
     json_NetworkSettings := Some {| Networks := {[ "bridge" := None ]} |} |}.

(** A response with one network, attached. *)
Definition bridged (c : SimEngine.SimContainer) : ContainerJSON :=
  {| json_Base := Some {| base_ID := SimEngine.sim_id c;
                          base_Name := SimEngine.sim_name c;
                          base_State := None |};
     json_Config := None;
     json_NetworkSettings :=
       Some {| Networks :=
                 {[ "bridge" := Some {| IPAddress := "172.17.0.2";
                                        GlobalIPv6Address := "" |} ]} |} |}.

(** An engine that answers the inspection after the start with a response
    that has no network settings and no base either makes [CreateInstance]
    panic, and a network name bound to [nil] makes the address extraction
    panic, also when [CreateInstance] calls it. *)
Lemma CreateInstance_panics_on_nil_pointers :
  last (CreateInstance (sim_client (λ _, blank)) SimEngine.plain_host map_to_list
          SimEngine.default_config SimEngine.test_provider SimEngine.r1
          Lifecycle.no_network).2
  = Some (Inspected "id-r1" (inr blank)) ∧
  json_NetworkSettings blank = None ∧
  (CreateInstance (sim_client (λ _, blank)) SimEngine.plain_host map_to_list
     SimEngine.default_config SimEngine.test_provider SimEngine.r1
     Lifecycle.no_network).1.1
  = Panics ∧
  containerToAddresses map_to_list (dangling Lifecycle.r1_container) = Panics ∧
  (CreateInstance (sim_client dangling) SimEngine.plain_host map_to_list
     SimEngine.default_config SimEngine.test_provider SimEngine.r1
     Lifecycle.no_network).1.1
  = Panics.
Proof. repeat split; vm_compute; reflexivity. Qed.

(** C10.  When the inspection after the start answers with a response that
    carries no network settings, [CreateInstance] succeeds if the response
    has its base, the embedded pointer [inspect.ID] is read through: the
    instance has the identifier of the response and the empty slice, not
    [nil], as its addresses.  If the base is [nil] too, [CreateInstance]
    panics.  Address extraction is not total: it returns, and then a
    non-nil slice, exactly on the responses in which no network name is
    bound to [nil], and panics on the others. *)
Theorem CreateInstance_without_network_settings
    {World : Type} (client : DockerClient World) (host : Provider.Host)
    (range_Networks :
       gmap string (option EndpointSettings) → list (string * option EndpointSettings))
    (Config : Config.ProviderConfig) (p : Provider.Provider)
    (bootstrapParams : BootstrapInstance) (w : World)
    (id : string) (inspect : ContainerJSON) :
  (∀ m, range_Networks m ≡ₚ map_to_list m) →
  let run := CreateInstance client host range_Networks Config p bootstrapParams w in
  (last run.2 = Some (Inspected id (inr inspect)) →
   json_NetworkSettings inspect = None →
   match json_Base inspect with
   | Some base =>
       ∃ inst, run.1.1 = Returns (inr inst) ∧
               inst = {| ProviderID := base_ID base;
                         Name := bi_Name bootstrapParams;
                         Status := InstanceRunning;
                         OSType := bi_OSType bootstrapParams;
                         OSArch := bi_OSArch bootstrapParams;
                         OSName := "linux";
                         OSVersion := "unknown";
                         Addresses := SliceOf [] |} ∧
               slice_is_nil (Addresses inst) = false
   | None => run.1.1 = Panics
   end) ∧
  (∀ c, match containerToAddresses range_Networks c with
        | Returns addrs =>
            slice_is_nil addrs = false ∧
            ∀ ns name, json_NetworkSettings c = Some ns →
                       Networks ns !! name ≠ Some None
        | Panics =>
            ∃ ns name, json_NetworkSettings c = Some ns ∧
                       Networks ns !! name = Some None
        end).
Proof.
  intros Hrange run. split.
  - intros Hlast Hnone. subst run.
    rewrite (CreateInstance_after_inspect _ _ _ _ _ _ _ _ _ Hlast).
    unfold createdInstance.
    rewrite (containerToAddresses_without_settings _ _ Hnone).
    destruct (json_Base inspect) as [base|]; [|done].
    eexists. split; [reflexivity|]. split; reflexivity.
  - intros c.
    pose proof (containerToAddresses_panics range_Networks c Hrange) as Hpanics.
    destruct (containerToAddresses range_Networks c) as [addrs|] eqn:Haddrs.
    + split; [by eapply containerToAddresses_not_nil|].
      intros ns name Hns Hname.
      assert (Returns addrs = Panics) as Habsurd; [|done].
      apply Hpanics. by exists ns, name.
    + by apply Hpanics.
Qed.

Lemma CreateInstance_without_network_settings_witness :
  (∃ inst,
     (CreateInstance (sim_client detached) SimEngine.plain_host map_to_list
        SimEngine.default_config SimEngine.test_provider SimEngine.r1
        Lifecycle.no_network).1.1
     = Returns (inr inst) ∧
     inst = {| ProviderID := "id-r1"; Name := "r1"; Status := InstanceRunning;
               OSType := "linux"; OSArch := "amd64"; OSName := "linux";
               OSVersion := "unknown"; Addresses := SliceOf [] |} ∧
     slice_is_nil (Addresses inst) = false) ∧
  (∃ ns name,
     json_NetworkSettings (dangling Lifecycle.r1_container) = Some ns ∧
     Networks ns !! name = Some None) ∧
  slice_is_nil
    (SliceOf [ {| addr_Address := "172.17.0.2"; addr_Type := PrivateAddress |} ])
  = false.
Proof.
  assert (Hrange : ∀ m : gmap string (option EndpointSettings),
            map_to_list m ≡ₚ map_to_list m) by done.
  assert (Hlast :
    last (CreateInstance (sim_client detached) SimEngine.plain_host map_to_list
            SimEngine.default_config SimEngine.test_provider SimEngine.r1
            Lifecycle.no_network).2
    = Some (Inspected "id-r1" (inr (detached Lifecycle.r1_container))))
    by (vm_compute; reflexivity).
  split; [|split].
  - exact (proj1 (CreateInstance_without_network_settings (sim_client detached)
                    SimEngine.plain_host map_to_list SimEngine.default_config
                    SimEngine.test_provider SimEngine.r1 Lifecycle.no_network "id-r1"
                    (detached Lifecycle.r1_container) Hrange) Hlast eq_refl).
  - exact (proj2 (CreateInstance_without_network_settings (sim_client detached)
                    SimEngine.plain_host map_to_list SimEngine.default_config
                    SimEngine.test_provider SimEngine.r1 Lifecycle.no_network "id-r1"
                    (detached Lifecycle.r1_container) Hrange)
             (dangling Lifecycle.r1_container)).
  - exact (proj1 (proj2 (CreateInstance_without_network_settings (sim_client detached)
                    SimEngine.plain_host map_to_list SimEngine.default_config
                    SimEngine.test_provider SimEngine.r1 Lifecycle.no_network "id-r1"
                    (detached Lifecycle.r1_container) Hrange)
             (bridged Lifecycle.r1_container))).
Defined.

(** *** The provider of [Provider] is this one on engines that set every pointer *)

(** A response of [Docker], with its pointers made explicit. *)
Definition embed (c : Docker.ContainerJSON) : ContainerJSON :=
  {| json_Base := Some {| base_ID := Docker.json_ID c;
                          base_Name := Docker.json_Name c;
                          base_State := Docker.json_State c |};
     json_Config := Some (Docker.json_Config c);
     json_NetworkSettings :=
       (λ ns, {| Networks := Some <$> Docker.Networks ns |})
         <$> Docker.json_NetworkSettings c |}.

Definition embedReply (reply : result Docker.ContainerJSON) : result ContainerJSON :=
  match reply with
  | inl err => inl err
  | inr c => inr (embed c)
  end.

Definition embedEvent (ev : Docker.Event) : Event :=
  match ev with
  | EvContainerInspect id reply => Inspected id (embedReply reply)
  | _ => Seen ev
  end.

(** An engine of [Docker] as an engine of this module. *)
Definition engineOf {World} (client : Docker.DockerClient World) : DockerClient World :=
  {| ImagePull := Docker.ImagePull client;
     ImageInspectWithRaw := Docker.ImageInspectWithRaw client;
     ContainerCreate := Docker.ContainerCreate client;
     ContainerStart := Docker.ContainerStart client;
     ContainerRemove := Docker.ContainerRemove client;
     ContainerInspect := λ id w,
       let '(reply, w') := Docker.ContainerInspect client id w in
       (embedReply reply, w');
     ContainerList := Docker.ContainerList client;
     ContainerStop := Docker.ContainerStop client |}.

(** The visiting order of a map without [nil] entries that a visiting order
    of the maps with them gives. *)
Definition present (entry : string * option EndpointSettings)
  : option (string * EndpointSettings) :=
  match entry with
  | (name, Some settings) => Some (name, settings)
  | (_, None) => None
  end.

Definition modelHost (host : Provider.Host)
    (range_Networks :
       gmap string (option EndpointSettings) → list (string * option EndpointSettings))
  : Provider.Host :=
  {| Provider.url_Parse := Provider.url_Parse host;
     Provider.os_UserHomeDir := Provider.os_UserHomeDir host;
     Provider.os_ReadFile := Provider.os_ReadFile host;
     Provider.json_Unmarshal := Provider.json_Unmarshal host;
     Provider.base64_Std_DecodeString := Provider.base64_Std_DecodeString host;
     Provider.json_Marshal := Provider.json_Marshal host;
     Provider.base64_URL_EncodeToString := Provider.base64_URL_EncodeToString host;
     Provider.range_Networks := λ m, omap present (range_Networks (Some <$> m)) |}.

Section Refinement.
Context {World : Type}.
Variable client : Docker.DockerClient World.
Variable host : Provider.Host.
Variable range_Networks :
  gmap string (option EndpointSettings) → list (string * option EndpointSettings).
Variable Config : Config.ProviderConfig.
Hypothesis range_visits_all : ∀ m, range_Networks m ≡ₚ map_to_list m.

(** A run of [Provider.M] seen as a run of [M]. *)
Definition up {A} (run : result A * World * list Docker.Event)
  : outcome (result A) * World * list Event :=
  let '(r, w', t) := run in (Returns r, w', embedEvent <$> t).

Definition refines {A} (m' : M World A) (m : Provider.M World A) : Prop :=
  ∀ w, m' w = up (m w).

Lemma refines_ret {A} (a : A) : refines (ret a) (Provider.ret a).
Proof. done. Qed.

Lemma refines_fail {A} err : refines (fail (A := A) err) (Provider.fail err).
Proof. done. Qed.

Lemma refines_slog level msg : refines (slog level msg) (Provider.slog level msg).
Proof. done. Qed.

Lemma refines_bind {A B} (m' : M World A) m (f' : A → M World B) f :
  refines m' m → (∀ a, refines (f' a) (f a)) →
  refines (bind m' f') (Provider.bind m f).
Proof.
  intros Hm Hf w. unfold bind, Provider.bind. rewrite (Hm w).
  destruct (m w) as [[[err|a] w1] t1]; cbn [up]; [done|].
  rewrite (Hf a w1). destruct (f a w1) as [[r w2] t2]. cbn [up].
  by rewrite fmap_app.
Qed.

Lemma refines_callImageInspectWithRaw ref :
  refines (callImageInspectWithRaw (engineOf client) ref)
          (Provider.callImageInspectWithRaw client ref).
Proof.
  intros w. unfold callImageInspectWithRaw, Provider.callImageInspectWithRaw.
  cbn [engineOf ImageInspectWithRaw].
  by destruct (Docker.ImageInspectWithRaw client ref w).
Qed.

Lemma refines_callImagePull ref o :
  refines (callImagePull (engineOf client) ref o) (Provider.callImagePull client ref o).
Proof.
  intros w. unfold callImagePull, Provider.callImagePull.
  cbn [engineOf ImagePull]. by destruct (Docker.ImagePull client ref o w).
Qed.

Lemma refines_callContainerCreate c h name :
  refines (callContainerCreate (engineOf client) c h name)
          (Provider.callContainerCreate client c h name).
Proof.
  intros w. unfold callContainerCreate, Provider.callContainerCreate.
  cbn [engineOf ContainerCreate]. by destruct (Docker.ContainerCreate client c h name w).
Qed.

Lemma refines_callContainerStart id :
  refines (callContainerStart (engineOf client) id)
          (Provider.callContainerStart client id).
Proof.
  intros w. unfold callContainerStart, Provider.callContainerStart.
  cbn [engineOf ContainerStart]. by destruct (Docker.ContainerStart client id w).
Qed.

(** The credential resolver calls no engine. *)
Lemma embedEvent_logs (logs : list Docker.Event) :
  calls logs = [] → embedEvent <$> logs = Seen <$> logs.
Proof.
  induction logs as [|ev logs IH]; [done|]. unfold calls. rewrite filter_cons.
  destruct ev; try done.
  intros Hlogs. cbn [fmap list_fmap embedEvent]. f_equal. by apply IH.
Qed.

Lemma refines_getRegistryAuth image :
  refines (lift (Provider.getRegistryAuth host Config image))
          (Provider.getRegistryAuth (modelHost host range_Networks) Config image).
Proof.
  intros w.
  change (Provider.getRegistryAuth (modelHost host range_Networks) Config image w)
    with (Provider.getRegistryAuth host Config image w).
  unfold lift.
  destruct (Provider.getRegistryAuth_run host Config image w)
    as (authStr & logs & -> & Hlogs & _).
  cbn [up]. by rewrite embedEvent_logs.
Qed.

(** On a map without [nil] entries the loop does not panic, and does what
    the loop of [Provider.containerToAddresses] does. *)
Lemma eachNetwork_present entries addrs :
  (∀ name, (name, None) ∉ entries) →
  eachNetwork addrs entries
  = Returns
      (foldl (λ addrs '(_, settings),
                let addrs :=
                  if decide (IPAddress settings ≠ "")
                  then slice_append addrs
                         {| addr_Address := IPAddress settings;
                            addr_Type := PrivateAddress |}
                  else addrs in
                if decide (GlobalIPv6Address settings ≠ "")
                then slice_append addrs
                       {| addr_Address := GlobalIPv6Address settings;
                          addr_Type := PrivateAddress |}
                else addrs)
             addrs (omap present entries)).
Proof.
  revert addrs. induction entries as [|[name [settings|]] rest IH]; intros addrs Hall.
  - done.
  - cbn [eachNetwork omap list_omap present foldl]. cbv zeta. apply IH.
    intros n Hn. apply (Hall n). by apply list_elem_of_further.
  - destruct (Hall name). by apply list_elem_of_here.
Qed.

Lemma containerToAddresses_embed c :
  containerToAddresses range_Networks (embed c)
  = Returns (Provider.containerToAddresses (modelHost host range_Networks) c).
Proof.
  unfold containerToAddresses, Provider.containerToAddresses.
  cbn [embed json_NetworkSettings].
  destruct (Docker.json_NetworkSettings c) as [ns|]; [|done].
  cbn [fmap option_fmap option_map Networks modelHost Provider.range_Networks].
  apply eachNetwork_present. intros name Hin.
  rewrite range_visits_all in Hin. apply elem_of_map_to_list in Hin.
  rewrite lookup_fmap in Hin. by destruct (Docker.Networks ns !! name).
Qed.

(** The visiting order of the maps without [nil] entries visits all of
    their entries. *)
Lemma modelHost_range : Provider.range_visits_all (modelHost host range_Networks).
Proof.
  intros m. cbn [modelHost Provider.range_Networks].
  rewrite (range_visits_all (Some <$> m)), map_to_list_fmap.
  induction (map_to_list m) as [|[name settings] rest IH]; [done|].
  cbn. by f_equiv.
Qed.

(** Against an engine of [Docker], every pointer of whose responses is
    set, [CreateInstance] does not panic and does what
    [Provider.CreateInstance] does. *)
Lemma CreateInstance_refines p bootstrapParams :
  refines (CreateInstance (engineOf client) host range_Networks Config p bootstrapParams)
          (Provider.CreateInstance client (modelHost host range_Networks) Config p
             bootstrapParams).
Proof.
  unfold CreateInstance, Provider.CreateInstance. cbv zeta.
  apply refines_bind.
  { destruct (negb (Config.AlwaysPull Config)); [|apply refines_ret].
    apply refines_bind; [apply refines_callImageInspectWithRaw|].
    intros [err|]; [|apply refines_ret].
    destruct (IsErrNotFound err); [apply refines_ret | apply refines_fail]. }
  intros needsPull. apply refines_bind.
  { destruct needsPull; [|apply refines_slog].
    apply refines_bind; [apply refines_slog|]. intros _.
    apply refines_bind; [apply refines_getRegistryAuth|]. intros authStr.
    apply refines_bind; [apply refines_callImagePull|].
    intros [err|]; [apply refines_fail | apply refines_ret]. }
  intros _. cbn [modelHost Provider.url_Parse].
  destruct (Spec.GetRunnerEnvs _ _) as [err|envs]; [apply refines_fail|].
  apply refines_bind; [apply refines_callContainerCreate|].
  intros [err|resp]; [apply refines_fail|].
  apply refines_bind; [apply refines_callContainerStart|].
  intros [err|]; [apply refines_fail|].
  intros w. rewrite inspect_step. unfold Provider.bind, Provider.callContainerInspect.
  cbn [engineOf ContainerInspect].
  destruct (Docker.ContainerInspect client (resp_ID resp) w) as [[err|inspect] w1];
    [done|].
  cbn [embedReply]. unfold bind.
  cbn [embed json_Base deref ret]. rewrite containerToAddresses_embed.
  done.
Qed.
End Refinement.

End Raw.
